(** * COL724 measurement harness: a shallow embedding and its properties

    The development follows the Python sources of the harness:

    - [dumbbell.py]                the dumbbell topology and its monitored interface;
    - [quic_client.py]             the paced sender ([send_data_with_metrics]);
    - [jitter/helper_quic.py]      counter sampling, aggregation of raw metrics and
                                   the run orchestrator ([run_quic_experiments]);
    - [experiment_runner_quic.py]  the command line driver of one run ([main]);
    - [exp_parkinglot.py]          the sweep over bandwidth, delay and loss.

    Python floats are IEEE 754 binary64 numbers; they are modelled with the
    executable specification of floating point arithmetic of the standard
    library ([SpecFloat], precision 53, exponent bound 1024).  Python
    exceptions are values of the type [exn]; a computation that may raise
    returns a [result].  Calls into the operating system, Mininet and aioquic
    are recorded as events of a trace, and what they read from the outside
    (interface counters, the clock, the raw metrics file, the exit status of
    a child process) is supplied by explicit oracles. *)

From Stdlib Require Import ZArith List Bool Lia.
From Stdlib Require Import Floats.SpecFloat.
From stdpp Require Import base option list gmap strings pretty sorting.

Open Scope Z_scope.

(* ===================================================================== *)
(** * Part I: the embedding                                               *)
(* ===================================================================== *)

(** ** Exceptions and results *)

Inductive exn : Type :=
| ZeroDivisionError
| OverflowError
| MemoryError
| ValueError
| TypeError
| KeyError
| IndexError
| FileNotFoundError
| OSError
| CalledProcessError (returncode : Z)
| KeyboardInterrupt.

Inductive result (A : Type) : Type :=
| Ok (a : A)
| Raise (e : exn).
Arguments Ok {A} a.
Arguments Raise {A} e.

#[global] Instance result_ret : MRet result := fun _ a => Ok a.
#[global] Instance result_bind : MBind result := fun _ _ f m =>
  match m with
  | Ok a => f a
  | Raise e => Raise e
  end.

(** ** Binary64 arithmetic as Python performs it *)

Module F64.

Definition float := spec_float.

Definition prec : Z := 53.
Definition emax : Z := 1024.

Definition zero : float := S754_zero false.

(** The largest magnitude an [int] may have to be convertible: from
    [2^1024 - 2^970] on, rounding to nearest even reaches [2^1024] and
    CPython raises [OverflowError]. *)
Definition int_limit : Z := 2 ^ 1024 - 2 ^ 970.

(** [float(n)] for an [int] [n]: correctly rounded. *)
Definition of_int (n : Z) : result float :=
  if Z.abs n <? int_limit
  then Ok (binary_normalize prec emax n 0 false)
  else Raise OverflowError.

Definition is_zero (x : float) : bool :=
  match x with S754_zero _ => true | _ => false end.

(** [x * y], [x - y], [x + y] on floats never raise. *)
Definition mul (x y : float) : float := SFmul prec emax x y.
Definition sub (x y : float) : float := SFsub prec emax x y.
Definition add (x y : float) : float := SFadd prec emax x y.

(** [x / y] on floats raises only on a zero divisor. *)
Definition truediv (x y : float) : result float :=
  if is_zero y then Raise ZeroDivisionError else Ok (SFdiv prec emax x y).

(** Mixed operands: the [int] is converted first. *)
Definition mul_fi (x : float) (n : Z) : result float :=
  y ← of_int n; Ok (mul x y).
Definition add_fi (x : float) (n : Z) : result float :=
  y ← of_int n; Ok (add x y).
(** For [x / n] the converted divisor is zero exactly when the int is. *)
Definition truediv_fi (x : float) (n : Z) : result float :=
  y ← of_int n;
  if n =? 0 then Raise ZeroDivisionError else Ok (SFdiv prec emax x y).
Definition truediv_if (n : Z) (y : float) : result float :=
  x ← of_int n; truediv x y.

(** An integer as an unrounded operand of [SFdiv], which rounds once. *)
Definition exact_int (n : Z) : float :=
  match n with
  | Z0 => S754_zero false
  | Zpos p => S754_finite false p 0
  | Zneg p => S754_finite true p 0
  end.

(** [a / b] on two [int]s: the correctly rounded quotient. *)
Definition truediv_ii (a b : Z) : result float :=
  if b =? 0 then Raise ZeroDivisionError
  else match SFdiv prec emax (exact_int a) (exact_int b) with
       | S754_infinity _ => Raise OverflowError
       | q => Ok q
       end.

Definition ltb (x y : float) : bool := SFltb x y.
Definition leb (x y : float) : bool := SFleb x y.

(** Truth value of a float: false exactly for [0.0] and [-0.0]. *)
Definition truthy (x : float) : bool := negb (is_zero x).

(** [max(0, x)]: [x] when [x > 0], else the first argument [0]. *)
Definition max0 (x : float) : float := if ltb zero x then x else zero.

(** [int(x)]: truncation towards zero. *)
Definition to_int (x : float) : result Z :=
  match x with
  | S754_zero _ => Ok 0
  | S754_nan => Raise ValueError
  | S754_infinity _ => Raise OverflowError
  | S754_finite s m e =>
      let a := if 0 <=? e then Z.pos m * 2 ^ e else Z.pos m / 2 ^ (- e) in
      Ok (if s then - a else a)
  end.

(** Quotient of [a] by [b > 0] rounded to the nearest integer, ties to even. *)
Definition div_half_even (a b : Z) : Z :=
  let q := a / b in
  let r := a mod b in
  match (2 * r) ?= b with
  | Lt => q
  | Gt => q + 1
  | Eq => if Z.even q then q else q + 1
  end.

(** [round(x, 2)]: the exact value of [x] is rounded to the nearest multiple
    of [0.01] (ties to even), and that decimal is rounded to binary64. *)
Definition round2 (x : float) : float :=
  match x with
  | S754_finite s m e =>
      let k := if 0 <=? e then 100 * Z.pos m * 2 ^ e
               else div_half_even (100 * Z.pos m) (2 ^ (- e)) in
      match k with
      | Zpos p => SFdiv prec emax (S754_finite s p 0) (S754_finite false 100 0)
      | _ => S754_zero s
      end
  | _ => x
  end.

(** A float is non-negative when it is a zero or compares greater than zero. *)
Definition nonneg (x : float) : Prop :=
  is_zero x = true \/ SFcompare x zero = Some Gt.

(** Literals. *)
Definition one : float := S754_finite false 4503599627370496 (-52).
Definition lit_1e6 : float := S754_finite false 8589934592000000 (-33).

End F64.

(** ** The paced sender ([quic_client.py]) *)

Module Sender.
Import F64.

(** One sample of the in-memory buffer: the dict
    [{'time': elapsed, 'rtt_ms': round(rtt_ms, 2)}]. *)
Record metric : Type := { time : Z; rtt_ms : float }.

Inductive event : Type :=
| SendStreamData (length : Z) (end_stream : bool)
| Transmit
| AsyncSleep (seconds : float)
| AppendLines (file : string) (records : list metric)
| WriteFailed.             (* logging.warning("Failed to write metrics: ...") *)

(** What becomes of the batched append of lines 127-130: it succeeds, or
    [open] raises, or a write raises after some lines have reached the
    file. *)
Inductive append_outcome : Type :=
| Appended
| OpenFails
| WriteFails (written : nat).

(** What the sender reads from outside: the [n]-th call of [time.time()]
    and, at the same instants, the transport's smoothed RTT in seconds
    ([None] when the attribute is missing or holds [None]); whether a
    bytes object of a given length can be allocated; and what becomes of
    the append to the metrics file. *)
Record env : Type := {
  clock : nat -> float;
  rtt_smoothed : nat -> option float;
  memory : Z -> bool;
  append : append_outcome
}.

(** Line 45: the length of [b"x" * chunk_size].  The factor has to fit the
    index type ([OverflowError]); a factor that is not positive gives the
    empty bytes object; the allocation may fail ([MemoryError]). *)
Definition data_chunk (E : env) (chunk_size : Z) : result Z :=
  if (chunk_size <? - 2 ^ 63) || (2 ^ 63 <=? chunk_size) then Raise OverflowError
  else if chunk_size <=? 0 then Ok 0
  else if memory E chunk_size then Ok chunk_size
  else Raise MemoryError.

(** Lines 51-61: the inter-chunk sleep. *)
Definition inter_chunk_sleep (target_rate_mbps : option float) (chunk_size : Z)
  : result float :=
  match target_rate_mbps with
  | Some rate =>
      if truthy rate then
        bits ← mul_fi rate 1000000;
        target_bytes_per_sec ← truediv_fi bits 8;
        truediv_if chunk_size target_bytes_per_sec
      else
        target_bytes_per_sec ← truediv_ii (15 * 1000000) 8;
        truediv_if chunk_size target_bytes_per_sec
  | None =>
      target_bytes_per_sec ← truediv_ii (15 * 1000000) 8;
      truediv_if chunk_size target_bytes_per_sec
  end.

(** Lines 121-122: the pause after one chunk. *)
Definition sleep_duration (sleep_time send_start now : float) : float :=
  let elapsed := sub now send_start in
  max0 (sub sleep_time elapsed).

(** Lines 86-89: the RTT in milliseconds, [0] when it cannot be read. *)
Definition read_rtt_ms (E : env) (tick : nat) : float :=
  match rtt_smoothed E tick with
  | Some r => match mul_fi r 1000 with Ok v => v | Raise _ => zero end
  | None => zero
  end.

Record state : Type := {
  tick : nat;                      (* calls of time.time() so far *)
  bytes_sent : Z;
  last_log_time : float;
  last_bytes : Z;
  metrics_buffer : list metric;
  trace : list event
}.

(** Lines 143-147: the dict the function returns. *)
Record stats : Type := {
  stats_bytes_sent : Z;
  stats_duration : float;
  stats_throughput_mbps : float
}.

Inductive outcome (A : Type) : Type :=
| Finished (a : A)
| Raised (e : exn)
| OutOfFuel.
Arguments Finished {A} a.
Arguments Raised {A} e.
Arguments OutOfFuel {A}.

Definition emit (ev : event) (s : state) : state :=
  {| tick := tick s; bytes_sent := bytes_sent s;
     last_log_time := last_log_time s; last_bytes := last_bytes s;
     metrics_buffer := metrics_buffer s; trace := trace s ++ [ev] |}.

(** Lines 82-118: the sample taken once per second. *)
Definition sample (E : env) (start_time current_time : float) (s : state)
  : result state :=
  if leb one (sub current_time (last_log_time s)) then
    elapsed ← to_int (sub current_time start_time);
    let m := {| time := elapsed; rtt_ms := round2 (read_rtt_ms E (tick s)) |} in
    Ok {| tick := tick s; bytes_sent := bytes_sent s;
          last_log_time := current_time; last_bytes := bytes_sent s;
          metrics_buffer := metrics_buffer s ++ [m]; trace := trace s |}
  else Ok s.

(** Lines 70-123: the transmission loop; one unit of fuel per iteration.
    The chunk sent has the length of [data_chunk], [max(0, chunk_size)]. *)
Fixpoint send_loop (E : env) (chunk_size : Z) (start_time end_time sleep_time : float)
    (fuel : nat) (s : state) : outcome unit * state :=
  match fuel with
  | O => (OutOfFuel, s)
  | S fuel' =>
      if ltb (clock E (tick s)) end_time then
        let current_time := clock E (S (tick s)) in
        let send_start := clock E (S (S (tick s))) in
        let s1 := emit Transmit
                    (emit (SendStreamData (Z.max 0 chunk_size) false)
                       {| tick := S (S (S (tick s)));
                          bytes_sent := bytes_sent s + chunk_size;
                          last_log_time := last_log_time s;
                          last_bytes := last_bytes s;
                          metrics_buffer := metrics_buffer s;
                          trace := trace s |}) in
        match sample E start_time current_time s1 with
        | Raise e => (Raised e, s1)
        | Ok s2 =>
            let now := clock E (tick s2) in
            let s3 := emit (AsyncSleep (sleep_duration sleep_time send_start now))
                        {| tick := S (tick s2); bytes_sent := bytes_sent s2;
                           last_log_time := last_log_time s2;
                           last_bytes := last_bytes s2;
                           metrics_buffer := metrics_buffer s2;
                           trace := trace s2 |} in
            send_loop E chunk_size start_time end_time sleep_time fuel' s3
        end
      else
        (Finished tt,
         {| tick := S (tick s); bytes_sent := bytes_sent s;
            last_log_time := last_log_time s; last_bytes := last_bytes s;
            metrics_buffer := metrics_buffer s; trace := trace s |})
  end.

(** Lines 125-137: one batched append of the buffer, inside
    [try: ... except (IOError, OSError)], then end of stream. *)
Definition flush (E : env) (metrics_file : string) (s : state) : state :=
  let s1 :=
    if negb (String.eqb metrics_file "") && negb (bool_decide (metrics_buffer s = []))
    then match append E with
         | Appended => emit (AppendLines metrics_file (metrics_buffer s)) s
         | OpenFails => emit WriteFailed s
         | WriteFails written =>
             emit WriteFailed
               (emit (AppendLines metrics_file (take written (metrics_buffer s))) s)
         end
    else s in
  emit Transmit (emit (SendStreamData 0 true) s1).

(** Lines 140-147: the final statistics. *)
Definition final_stats (E : env) (start_time : float) (s : state)
  : outcome stats * state :=
  let actual_duration := sub (clock E (tick s)) start_time in
  let s' := {| tick := S (tick s); bytes_sent := bytes_sent s;
               last_log_time := last_log_time s; last_bytes := last_bytes s;
               metrics_buffer := metrics_buffer s; trace := trace s |} in
  match truediv_if (bytes_sent s * 8) (mul actual_duration lit_1e6) with
  | Ok throughput_mbps =>
      (Finished {| stats_bytes_sent := bytes_sent s;
                   stats_duration := actual_duration;
                   stats_throughput_mbps := throughput_mbps |}, s')
  | Raise e => (Raised e, s')
  end.

(** The state before the clock is first read. *)
Definition blank : state :=
  {| tick := 0; bytes_sent := 0; last_log_time := zero; last_bytes := 0;
     metrics_buffer := []; trace := [] |}.

(** [send_data_with_metrics] *)
Definition send_data_with_metrics (E : env) (duration : Z) (metrics_file : string)
    (chunk_size : Z) (target_rate_mbps : option float) (fuel : nat)
  : outcome stats * state :=
  match data_chunk E chunk_size with
  | Raise e => (Raised e, blank)
  | Ok _ =>
      let start_time := clock E 0 in
      let init := {| tick := 1; bytes_sent := 0; last_log_time := start_time;
                     last_bytes := 0; metrics_buffer := []; trace := [] |} in
      match add_fi start_time duration with
      | Raise e => (Raised e, init)
      | Ok end_time =>
          match inter_chunk_sleep target_rate_mbps chunk_size with
          | Raise e => (Raised e, init)
          | Ok sleep_time =>
              match send_loop E chunk_size start_time end_time sleep_time fuel init with
              | (Finished _, s) => final_stats E start_time (flush E metrics_file s)
              | (Raised e, s) => (Raised e, s)
              | (OutOfFuel, s) => (OutOfFuel, s)
              end
          end
      end
  end.

Definition sleeps (tr : list event) : list float :=
  omap (fun ev => match ev with AsyncSleep d => Some d | _ => None end) tr.

(** The default target: [(15 * 1_000_000) / 8] is [1875000.0]. *)
Definition default_bytes_per_sec : float := S754_finite false 8053063680000000 (-32).

(** A pause of the loop: not negative, and [max(0, sleep_time - elapsed)] for
    the time elapsed between two consecutive readings of the clock, the one
    before and the one after sending the chunk. *)
Definition paced (E : env) (sleep_time : float) (d : float) : Prop :=
  nonneg d /\
  exists i, d = max0 (sub sleep_time (sub (clock E (S i)) (clock E i))).

End Sender.

(** ** Aggregation of the raw metrics ([aggregate_metrics]) *)

Module Aggregate.

(** The numbers of the metrics file and the four operations the aggregation
    applies to them, with the exceptions they raise.  The grouping below
    does not depend on how they round. *)
Class PyNum (num : Type) : Type := {
  py_sum : list num -> result num;             (* sum(xs) *)
  py_truediv_len : num -> nat -> result num;   (* s / len(xs), for a non-empty xs *)
  py_round2 : num -> num;                      (* round(x, 2) *)
  py_int : num -> result Z                     (* int(x) *)
}.

(** What [json.loads(line.strip())] makes of one line of the file: it raises
    [JSONDecodeError], or yields a value that is no JSON object, or yields an
    object, of which the model keeps what it holds under the three keys the
    aggregation looks up (an integer second, numbers). *)
Inductive line (num : Type) : Type :=
| NotJson
| NotObject
| Object (time : option Z) (rtt_ms cwnd_bytes : option num).
Arguments NotJson {num}.
Arguments NotObject {num}.
Arguments Object {num} time rtt_ms cwnd_bytes.

(** What [open(raw_metrics_file, 'r')] finds. *)
Inductive metrics_file (num : Type) : Type :=
| Missing                         (* FileNotFoundError *)
| Unreadable                      (* any other IOError *)
| Lines (ls : list (line num)).
Arguments Missing {num}.
Arguments Unreadable {num}.
Arguments Lines {num} ls.

Inductive report (num : Type) : Type :=
| Warned (message : string)
| Written (rtt_csv : list (Z * num)) (cwnd_csv : list (Z * Z)).
Arguments Warned {num} message.
Arguments Written {num} rtt_csv cwnd_csv.

(** One value of [metrics_by_time]: the lists under ['rtt'] and ['cwnd']. *)
Abbreviation entry num := (list num * list num)%type.

Section WithNum.
Context {num : Type} `{PyNum num}.

(** [metrics_by_time[t]] on the defaultdict: a missing key is created. *)
Definition setdefault (t : Z) (m : gmap Z (entry num)) : gmap Z (entry num) :=
  match m !! t with
  | Some _ => m
  | None => <[t := ([], [])]> m
  end.

Definition append_rtt (t : Z) (r : num) (m : gmap Z (entry num)) : gmap Z (entry num) :=
  alter (fun e => (e.1 ++ [r], e.2)) t (setdefault t m).

Definition append_cwnd (t : Z) (c : num) (m : gmap Z (entry num)) : gmap Z (entry num) :=
  alter (fun e => (e.1, e.2 ++ [c])) t (setdefault t m).

(** Lines 50-57: the body of the loop over the lines. [JSONDecodeError]
    and [KeyError] are caught and the line is left; [TypeError] is not. *)
Definition read_line (m : gmap Z (entry num)) (l : line num) : result (gmap Z (entry num)) :=
  match l with
  | NotJson => Ok m
  | NotObject => Raise TypeError
  | Object None _ _ => Ok m
  | Object (Some t) None _ => Ok (setdefault t m)
  | Object (Some t) (Some r) None => Ok (append_rtt t r m)
  | Object (Some t) (Some r) (Some c) => Ok (append_cwnd t c (append_rtt t r m))
  end.

Fixpoint read_lines (m : gmap Z (entry num)) (ls : list (line num))
  : result (gmap Z (entry num)) :=
  match ls with
  | [] => Ok m
  | l :: ls' => m' ← read_line m l; read_lines m' ls'
  end.

(** [sorted(metrics_by_time.keys())] *)
Definition sorted_keys (m : gmap Z (entry num)) : list Z :=
  merge_sort Z.le (map fst (map_to_list m)).

(** [metrics_by_time[t]] for a key the dict holds (and the empty lists for
    any other). *)
Definition lookup_entry (m : gmap Z (entry num)) (t : Z) : entry num :=
  default ([], []) (m !! t).

(** [sum(xs) / len(xs)] *)
Definition average (xs : list num) : result num :=
  s ← py_sum xs; py_truediv_len s (length xs).

(** Lines 74-76: the row of second [t], if it has [rtt_ms] samples. *)
Definition rtt_row (t : Z) (rtts : list num) : result (option (Z * num)) :=
  match rtts with
  | [] => Ok None
  | _ => avg_rtt ← average rtts; Ok (Some (t, py_round2 avg_rtt))
  end.

(** Lines 84-86: the row of second [t], if it has [cwnd_bytes] samples. *)
Definition cwnd_row (t : Z) (cwnds : list num) : result (option (Z * Z)) :=
  match cwnds with
  | [] => Ok None
  | _ => avg ← average cwnds; window ← py_int avg; Ok (Some (t, window))
  end.

(** [for t in ...: if ...: writer.writerow(...)]: the rows written, second
    after second; the first exception ends the loop. *)
Fixpoint rows {B} (row : Z -> result (option (Z * B))) (ts : list Z)
  : result (list (Z * B)) :=
  match ts with
  | [] => Ok []
  | t :: ts' =>
      r ← row t;
      rest ← rows row ts';
      Ok (match r with Some x => x :: rest | None => rest end)
  end.

(** Lines 73-76. *)
Definition rtt_rows (m : gmap Z (entry num)) : result (list (Z * num)) :=
  rows (fun t => rtt_row t (lookup_entry m t).1) (sorted_keys m).

(** Lines 83-86. *)
Definition cwnd_rows (m : gmap Z (entry num)) : result (list (Z * Z)) :=
  rows (fun t => cwnd_row t (lookup_entry m t).2) (sorted_keys m).

(** [Written] stands for a call that returns, with both files complete; an
    exception of lines 75-76 or 85-86 leaves the function in the middle of
    writing. *)
Definition aggregate_metrics (f : metrics_file num) : result (report num) :=
  match f with
  | Missing => Ok (Warned "*** Warning: Metrics file not found")
  | Unreadable => Ok (Warned "*** Warning: Could not read metrics file")
  | Lines ls =>
      m ← read_lines ∅ ls;
      rtt_csv ← rtt_rows m;
      cwnd_csv ← cwnd_rows m;
      Ok (Written rtt_csv cwnd_csv)
  end.

(** The samples of second [t], as the claims speak of them: the [rtt_ms]
    (resp. [cwnd_bytes]) values, in file order, of the records whose
    ['time'] is [t]. *)
Definition rtt_samples (t : Z) (ls : list (line num)) : list num :=
  omap (fun l => match l with
                 | Object (Some t') (Some r) _ => if t' =? t then Some r else None
                 | _ => None
                 end) ls.

Definition cwnd_samples (t : Z) (ls : list (line num)) : list num :=
  omap (fun l => match l with
                 | Object (Some t') (Some _) (Some c) => if t' =? t then Some c else None
                 | _ => None
                 end) ls.

Definition well_formed (l : line num) : Prop := l <> NotObject.

(** Every mean of a second, and the [int] of every mean of congestion
    windows, can be computed. *)
Definition means_defined (ls : list (line num)) : Prop :=
  (forall t, rtt_samples t ls <> [] -> exists avg, average (rtt_samples t ls) = Ok avg) /\
  (forall t, cwnd_samples t ls <> [] ->
             exists avg window,
               average (cwnd_samples t ls) = Ok avg /\ py_int avg = Ok window).

End WithNum.

(** A JSON number as [json.loads] reads it: an [int] of any size, or a
    float ([NaN] and the infinities included). *)
Inductive number : Type :=
| Int (n : Z)
| Float (x : F64.float).

(** [a + b]: exact on two [int]s; an [int] that meets a float is converted
    first, which raises [OverflowError] when it is too large. *)
Definition py_add (a b : number) : result number :=
  match a, b with
  | Int m, Int n => Ok (Int (m + n))
  | Int m, Float y => x ← F64.of_int m; Ok (Float (F64.add x y))
  | Float x, Int n => y ← F64.of_int n; Ok (Float (F64.add x y))
  | Float x, Float y => Ok (Float (F64.add x y))
  end.

(** [sum] adds from the left, starting from the int [0]; [s / n] is the
    correctly rounded quotient of two [int]s or a float division; [round]
    leaves an [int] as it is; [int] of a NaN raises [ValueError], of an
    infinity [OverflowError]. *)
#[global] Instance number_ops : PyNum number := {
  py_sum xs := fold_left (fun acc x => a ← acc; py_add a x) xs (Ok (Int 0));
  py_truediv_len s n :=
    match s with
    | Int a => x ← F64.truediv_ii a (Z.of_nat n); Ok (Float x)
    | Float x =>
        if Nat.eqb n 0 then Raise ZeroDivisionError
        else Ok (Float (SFdiv F64.prec F64.emax x
                          (binary_normalize F64.prec F64.emax (Z.of_nat n) 0 false)))
    end;
  py_round2 x :=
    match x with
    | Int n => Int n
    | Float x => Float (F64.round2 x)
    end;
  py_int x :=
    match x with
    | Int n => Ok n
    | Float x => F64.to_int x
    end
}.

(** What reading back a line written by [json.dumps(m) + '\n'] for a sample
    of the sender yields: the keys ['time'] and ['rtt_ms'], nothing else. *)
Definition line_of_metric (m : Sender.metric) : line number :=
  Object (Some (Sender.time m)) (Some (Float (Sender.rtt_ms m))) None.

(** Four samples of one second, [10.0, 10.0, 10.0, 10.25] ms, written by
    senders; their mean is [10.0625] and [round(10.0625, 2)] is [10.06]. *)
Definition f10 : F64.float := S754_finite false 5629499534213120 (-49).
Definition f10_25 : F64.float := S754_finite false 5770237022568448 (-49).
Definition f10_0625 : F64.float := S754_finite false 5664683906301952 (-49).
Definition f10_06 : F64.float := S754_finite false 5663276531418399 (-49).

Definition four_samples : list (line number) :=
  [ Object (Some 1) (Some (Float f10)) None; Object (Some 1) (Some (Float f10)) None;
    Object (Some 1) (Some (Float f10)) None; Object (Some 1) (Some (Float f10_25)) None ].

End Aggregate.

(** ** The dumbbell topology ([dumbbell.py]) over Mininet's [Topo] *)

Module Topo.

Record link_opts : Type := {
  bw : Z;
  delay : string;
  loss : F64.float;
  max_queue_size : option Z
}.

Record link : Type := {
  node1 : string; port1 : nat;
  node2 : string; port2 : nat;
  opts : link_opts
}.

(** The graph a [Topo] accumulates.  [ports] holds, for every node, how many
    of its ports are in use ([len(self.ports[node])] in Mininet). *)
Record topo : Type := {
  switches : list string;
  hosts : list (string * option F64.float);     (* name, cpu share *)
  links : list link;
  ports : gmap string nat
}.

Definition empty : topo :=
  {| switches := []; hosts := []; links := []; ports := ∅ |}.

Definition addSwitch (name : string) (t : topo) : topo :=
  {| switches := switches t ++ [name]; hosts := hosts t;
     links := links t; ports := ports t |}.

Definition addHost (name : string) (cpu : option F64.float) (t : topo) : topo :=
  {| switches := switches t; hosts := hosts t ++ [(name, cpu)];
     links := links t; ports := ports t |}.

Definition isSwitch (t : topo) (n : string) : bool :=
  bool_decide (n ∈ switches t).

Definition ports_in_use (t : topo) (n : string) : nat :=
  default 0%nat (ports t !! n).

(** Mininet's [Topo.addPort]: the next free port of a node is the number of
    its ports in use, counted from 1 on a switch and from 0 on a host. *)
Definition next_port (t : topo) (n : string) : nat :=
  (ports_in_use t n + (if isSwitch t n then 1 else 0))%nat.

Definition addLink (n1 n2 : string) (o : link_opts) (t : topo) : topo :=
  let p1 := next_port t n1 in
  let p2 := next_port t n2 in
  {| switches := switches t; hosts := hosts t;
     links := links t ++ [ {| node1 := n1; port1 := p1;
                              node2 := n2; port2 := p2; opts := o |} ];
     ports := <[n2 := S (ports_in_use t n2)]>
                (<[n1 := S (ports_in_use t n1)]> (ports t)) |}.

(** Mininet names the interface of port [p] of node [n] [n-ethp]. *)
Definition intf_name (n : string) (p : nat) : string :=
  n +:+ "-eth" +:+ pretty p.

Definition link_interfaces (l : link) : list string :=
  [intf_name (node1 l) (port1 l); intf_name (node2 l) (port2 l)].

Definition inter_switch_links (t : topo) : list link :=
  filter (fun l => isSwitch t (node1 l) = true /\ isSwitch t (node2 l) = true) (links t).

(** The interfaces on the switch side of a link: those whose counters the
    orchestrator can read under [/sys/class/net]. *)
Definition switch_side (t : topo) (l : link) : list string :=
  (if isSwitch t (node1 l) then [intf_name (node1 l) (port1 l)] else []) ++
  (if isSwitch t (node2 l) then [intf_name (node2 l) (port2 l)] else []).

Definition switch_interfaces (t : topo) : list string :=
  concat (map (switch_side t) (links t)).

Definition host_name (i : nat) : string := "h" +:+ pretty i.

Definition access : link_opts :=
  {| bw := 1; delay := "1ms"; loss := F64.zero; max_queue_size := None |}.

Definition cpu_share : F64.float := S754_finite false 7205759403792794 (-56).

(** What the two loops over the hosts maintain: the switches are [s1] and
    [s2], with [a] and [b] ports in use, and every link so far starts at a
    host. *)
Definition hosts_attached (t : topo) (a b : nat) : Prop :=
  switches t = ["s1"; "s2"] /\
  ports_in_use t "s1" = a /\
  ports_in_use t "s2" = b /\
  Forall (fun l => isSwitch t (node1 l) = false) (links t).

Module DumbbellTopo.

Definition add_source (t : topo) (i : nat) : topo :=
  addLink (host_name i) "s1" access (addHost (host_name i) (Some cpu_share) t).

Definition add_destination (t : topo) (i : nat) : topo :=
  addLink (host_name i) "s2" access (addHost (host_name i) None t).

Definition build (bw : Z) (delay : string) (loss : F64.float)
    (number_of_hosts : nat) : topo :=
  let mid := (number_of_hosts / 2)%nat in
  let t0 := addSwitch "s2" (addSwitch "s1" empty) in
  let t1 := fold_left add_source (seq 0 mid) t0 in
  let t2 := fold_left add_destination (seq mid (number_of_hosts - mid)) t1 in
  addLink "s1" "s2"
    {| bw := bw; delay := delay; loss := loss; max_queue_size := Some 100 |} t2.

Definition switch_interface : list string := ["s1-eth21"].

End DumbbellTopo.

End Topo.

(** ** Computations that log events and may raise *)

Module Trace.
Section WithEvent.
Context {E : Type}.

Definition M (A : Type) : Type := result A * list E.

Definition ret {A} (a : A) : M A := (Ok a, []).

Definition bind {A B} (m : M A) (f : A -> M B) : M B :=
  match m with
  | (Ok a, tr) => let '(r, tr') := f a in (r, tr ++ tr')
  | (Raise e, tr) => (Raise e, tr)
  end.

Definition emit (ev : E) : M unit := (Ok tt, [ev]).

Definition lift {A} (r : result A) : M A := (r, []).

Definition raise {A} (e : exn) : M A := (Raise e, []).

(** [for x in xs: ...], collecting what the body yields. *)
Fixpoint for_each {A B} (f : A -> M B) (xs : list A) : M (list B) :=
  match xs with
  | [] => ret []
  | x :: xs' => bind (f x) (fun y => bind (for_each f xs') (fun ys => ret (y :: ys)))
  end.

(** A loop that threads an accumulator. *)
Fixpoint fold_each {A S} (f : S -> A -> M S) (xs : list A) (s : S) : M S :=
  match xs with
  | [] => ret s
  | x :: xs' => bind (f s x) (fold_each f xs')
  end.

End WithEvent.
Arguments M E A : clear implicits.
End Trace.

(** ** The run orchestrator ([run_quic_experiments]) and the driver ([main]) *)

Module Run.
Import F64 Aggregate Trace.

Inductive phase : Type := Before | After.

Inductive sleep_kind : Type :=
| Settle          (* time.sleep(2)            *)
| Window.         (* time.sleep(duration + 4) *)

(** The shell commands sent to a host with [h.cmd]. *)
Inductive host_cmd : Type :=
| MkdirCerts
| OpensslReq
| QuicServer
| QuicClient (dest : string) (rate : float)
| PkillServer
| PkillClient.

Inductive event (num : Type) : Type :=
| GetBytes (p : phase) (device : string)
| GetRxBytes (p : phase) (device : string)
| Cmd (host : string) (c : host_cmd)
| TimeSleep (k : sleep_kind) (seconds : Z)
| MakeDirs
| Aggregated (r : report num)
| SwitchesCsv (rows : list (string * float * Z))
| RemoveRawMetrics
| NetStart
| NetStop
| Interrupted
| ErrorLogged (e : exn).
Arguments GetBytes {num} p device.
Arguments GetRxBytes {num} p device.
Arguments Cmd {num} host c.
Arguments TimeSleep {num} k seconds.
Arguments MakeDirs {num}.
Arguments Aggregated {num} r.
Arguments SwitchesCsv {num} rows.
Arguments RemoveRawMetrics {num}.
Arguments NetStart {num}.
Arguments NetStop {num}.
Arguments Interrupted {num}.
Arguments ErrorLogged {num} e.

(** What a run reads from outside: the byte counters under
    [/sys/class/net] at the two snapshots (reading may fail), whether
    Ctrl-C arrives during a sleep, the raw metrics file the senders leave
    behind, and the time the machine has been up, in nanoseconds, when a
    sleep is called. *)
Record world (num : Type) : Type := {
  tx_bytes : phase -> string -> result Z;
  rx_bytes : phase -> string -> result Z;
  sigint : sleep_kind -> bool;
  raw_metrics : metrics_file num;
  uptime : sleep_kind -> Z
}.
Arguments tx_bytes {num} w p device.
Arguments rx_bytes {num} w p device.
Arguments sigint {num} w k.
Arguments raw_metrics {num} w.
Arguments uptime {num} w k.

(** The reading of [CLOCK_MONOTONIC] when a sleep is called: a machine is
    up for a time between [0] and [2^62] ns (146 years). *)
Definition monotonic {num} (W : world num) (k : sleep_kind) : Z :=
  Z.min (Z.max 0 (uptime W k)) (2 ^ 62).

(** [switch_throughput]: a dict, in insertion order. *)
Fixpoint dict_set {V} (k : string) (v : V) (d : list (string * V)) : list (string * V) :=
  match d with
  | [] => [(k, v)]
  | (k', v') :: d' =>
      if String.eqb k k' then (k', v) :: d' else (k', v') :: dict_set k v d'
  end.

Fixpoint dict_get {V} (k : string) (d : list (string * V)) : option V :=
  match d with
  | [] => None
  | (k', v') :: d' => if String.eqb k k' then Some v' else dict_get k d'
  end.

(** Lines 211 and 219: [((after - before) * 8) / 1e6 / duration]. *)
Definition throughput_mbps (before after duration : Z) : result float :=
  megabits ← truediv_if ((after - before) * 8) lit_1e6;
  truediv_fi megabits duration.

(** The throughput as the specification states it,
    [(after - before) * 8 / 1e6 / duration], in binary64. *)
Definition mbps (before after duration : Z) : float :=
  SFdiv prec emax
    (SFdiv prec emax (binary_normalize prec emax ((after - before) * 8) 0 false) lit_1e6)
    (binary_normalize prec emax duration 0 false).

(** The dict after [switch_throughput[k] = f k] for every [k] of [ks], in order. *)
Definition dict_set_all {V} (f : string -> V) (ks : list string)
    (d : list (string * V)) : list (string * V) :=
  fold_left (fun d k => dict_set k (f k) d) ks d.

Section WithNum.
Context {num : Type} `{PyNum num}.

Abbreviation M := (Trace.M (event num)).

Definition get_bytes (W : world num) (p : phase) (device : string) : M Z :=
  bind (emit (GetBytes p device)) (fun _ => lift (tx_bytes W p device)).

Definition get_rx_bytes (W : world num) (p : phase) (device : string) : M Z :=
  bind (emit (GetRxBytes p device)) (fun _ => lift (rx_bytes W p device)).

(** [time.sleep(seconds)] for an [int], as CPython 3.11 does it on Linux:
    the time is converted to a 64-bit count of nanoseconds
    ([OverflowError] when it does not fit), a negative time is refused
    ([ValueError]), and the sleep lasts until the deadline
    [monotonic + timeout], which the system refuses ([OSError], errno 22)
    when it is no 64-bit count any more. *)
Definition time_sleep (W : world num) (k : sleep_kind) (seconds : Z) : M unit :=
  let timeout := seconds * 10 ^ 9 in
  if (timeout <? - 2 ^ 63) || (2 ^ 63 <=? timeout) then raise OverflowError
  else if seconds <? 0 then raise ValueError
  else if 2 ^ 63 <=? monotonic W k + timeout then raise OSError
  else bind (emit (TimeSleep k seconds))
         (fun _ => if sigint W k then raise KeyboardInterrupt else ret tt).

Definition generate_certificates (h : string) : M unit :=
  bind (emit (Cmd h MkdirCerts)) (fun _ => emit (Cmd h OpensslReq)).

(** Lines 129-137: the first snapshot. *)
Definition snapshot_before (W : world num) (switch_interface : list string)
    (other_switch : option (list string)) : M (list Z * list Z) :=
  bind (for_each (get_bytes W Before) switch_interface) (fun tx1 =>
  bind (match other_switch with
        | Some others => for_each (get_rx_bytes W Before) others
        | None => ret []
        end) (fun rx1 =>
  ret (tx1, rx1))).

(** Lines 146-164: certificates, servers, the settle interval. *)
Definition start_servers (W : world num) (s2_hosts : list string) : M unit :=
  bind (for_each generate_certificates s2_hosts) (fun _ =>
  bind (for_each (fun h => emit (Cmd h QuicServer)) s2_hosts) (fun _ =>
  time_sleep W Settle 2)).

(** Lines 185-197: one client per source, paired by index. *)
Definition start_clients (mid : nat) (s1_hosts s2_hosts : list string)
    (per_flow_rate : float) : M unit :=
  bind (for_each (fun i =>
          match s1_hosts !! i with
          | None => raise IndexError
          | Some source =>
              match s2_hosts !! i with
              | None => raise IndexError
              | Some dest => emit (Cmd source (QuicClient dest per_flow_rate))
              end
          end) (seq 0 mid)) (fun _ => ret tt).

(** Lines 209-213 and 217-221: second snapshot and throughput, one
    interface after the other. *)
Definition measure_one (read : string -> M Z) (duration : Z)
    (d : list (string * float)) (dev_before : string * Z)
  : M (list (string * float)) :=
  let '(device, before) := dev_before in
  bind (read device) (fun after =>
  bind (lift (throughput_mbps before after duration)) (fun throughput =>
  ret (dict_set device throughput d))).

Definition measure (W : world num) (switch_interface : list string) (tx1 : list Z)
    (other_switch : option (list string)) (rx1 : list Z) (duration : Z)
  : M (list (string * float)) :=
  bind (fold_each (measure_one (get_bytes W After) duration)
          (zip switch_interface tx1) []) (fun d =>
  match other_switch with
  | Some others =>
      fold_each (measure_one (get_rx_bytes W After) duration) (zip others rx1) d
  | None => ret d
  end).

(** [save_switch_throughput] *)
Definition save_switch_throughput (d : list (string * float)) (duration : Z) : M unit :=
  emit (SwitchesCsv (map (fun '(interface, throughput) =>
                            (interface, round2 throughput, duration)) d)).

(** Lines 230-243: the teardown at the end of the function. *)
Definition teardown (hosts s2_hosts : list string) : M unit :=
  bind (for_each (fun h => emit (Cmd h PkillServer)) s2_hosts) (fun _ =>
  bind (for_each (fun h => emit (Cmd h PkillClient)) hosts) (fun _ =>
  emit RemoveRawMetrics)).

Definition run_quic_experiments (W : world num) (hosts : list string)
    (number_of_hosts : nat) (switch_interface : list string) (duration : Z)
    (other_switch : option (list string)) (bandwidth : Z)
  : M (list (string * float)) :=
  bind (snapshot_before W switch_interface other_switch) (fun '(tx1, rx1) =>
  let mid := (number_of_hosts / 2)%nat in
  let s1_hosts := take mid hosts in
  let s2_hosts := drop mid hosts in
  bind (start_servers W s2_hosts) (fun _ =>
  bind (emit MakeDirs) (fun _ =>
  bind (lift (truediv_ii bandwidth (Z.of_nat (length s1_hosts)))) (fun per_flow_rate =>
  bind (start_clients mid s1_hosts s2_hosts per_flow_rate) (fun _ =>
  bind (time_sleep W Window (duration + 4)) (fun _ =>
  bind (measure W switch_interface tx1 other_switch rx1 duration) (fun switch_throughput =>
  bind (lift (aggregate_metrics (raw_metrics W))) (fun r =>
  bind (emit (Aggregated r)) (fun _ =>
  bind (save_switch_throughput switch_throughput duration) (fun _ =>
  bind (teardown hosts s2_hosts) (fun _ =>
  ret switch_throughput))))))))))).

End WithNum.

(** *** The stages of a run

    [stage] numbers the events in the order in which the body of
    [run_quic_experiments] issues them; the events of [main] come last. *)
Definition stage {num} (ev : event num) : nat :=
  match ev with
  | GetBytes Before _ | GetRxBytes Before _ => 0
  | Cmd _ MkdirCerts | Cmd _ OpensslReq => 1
  | Cmd _ QuicServer => 2
  | TimeSleep Settle _ => 3
  | MakeDirs => 4
  | Cmd _ (QuicClient _ _) => 5
  | TimeSleep Window _ => 6
  | GetBytes After _ | GetRxBytes After _ => 7
  | Aggregated _ => 8
  | SwitchesCsv _ => 9
  | Cmd _ PkillServer => 10
  | Cmd _ PkillClient => 11
  | RemoveRawMetrics => 12
  | NetStart | NetStop | Interrupted | ErrorLogged _ => 13
  end%nat.

Definition before_snapshot {num} (ev : event num) : Prop :=
  match ev with GetBytes Before _ | GetRxBytes Before _ => True | _ => False end.

Definition after_snapshot {num} (ev : event num) : Prop :=
  match ev with GetBytes After _ | GetRxBytes After _ => True | _ => False end.

Definition receiver_start {num} (ev : event num) : Prop :=
  match ev with Cmd _ QuicServer => True | _ => False end.

Definition sender_start {num} (ev : event num) : Prop :=
  match ev with Cmd _ (QuicClient _ _) => True | _ => False end.

Definition settle_sleep {num} (ev : event num) : Prop :=
  match ev with TimeSleep Settle _ => True | _ => False end.

Definition window_sleep {num} (ev : event num) : Prop :=
  match ev with TimeSleep Window _ => True | _ => False end.

(** The teardown of lines 230-243. *)
Definition is_teardown {num} (ev : event num) : bool :=
  match ev with
  | Cmd _ PkillServer | Cmd _ PkillClient | RemoveRawMetrics => true
  | _ => false
  end.

Definition teardown_event {num} (ev : event num) : Prop := is_teardown ev = true.

(** The two sleeps last what the code asks for. *)
Definition sleeps_as_coded {num} (duration : Z) (ev : event num) : Prop :=
  match ev with
  | TimeSleep Settle s => s = 2
  | TimeSleep Window s => s = duration + 4
  | _ => True
  end.

(** Every event satisfying [P] comes before every event satisfying [Q]. *)
Definition precedes {A} (P Q : A -> Prop) (tr : list A) : Prop :=
  forall i j x y, tr !! i = Some x -> tr !! j = Some y -> P x -> Q y -> (i < j)%nat.

(** A trace whose events lie in the stages [lo..hi], in stage order. *)
Definition staged {num} (duration : Z) (lo hi : nat) (tr : list (event num)) : Prop :=
  Forall (fun ev => (lo <= stage ev <= hi)%nat /\ sleeps_as_coded duration ev) tr /\
  StronglySorted (fun x y => (stage x <= stage y)%nat) tr.

End Run.

(** ** One run from the command line ([experiment_runner_quic.py]) *)

Module Driver.
Import F64 Aggregate Trace Run.

Inductive topo_name : Type := dumbbell | parkinglot | multibottleneck.

(** The topology object [load_topology] returns, with what [main] asks of it. *)
Record topology : Type := {
  name : topo_name;
  graph : Topo.topo;
  switch_interface : list string;
  other_interfaces : list string
}.

Definition dumbbell_topology (bw : Z) (delay : string) (loss : float)
    (number_of_hosts : nat) : topology :=
  {| name := dumbbell;
     graph := Topo.DumbbellTopo.build bw delay loss number_of_hosts;
     switch_interface := Topo.DumbbellTopo.switch_interface;
     other_interfaces := [] |}.

(** The counters of a started network: [open] fails with [FileNotFoundError]
    for a name that is no interface of a switch. *)
Definition sysfs (g : Topo.topo) (counter : phase -> string -> Z)
    (p : phase) (device : string) : result Z :=
  if bool_decide (device ∈ Topo.switch_interfaces g)
  then Ok (counter p device)
  else Raise FileNotFoundError.

Section WithNum.
Context {num : Type} `{PyNum num}.

Abbreviation M := (Trace.M (event num)).

(** [net.get(name)] *)
Definition net_get (g : Topo.topo) (h : string) : M string :=
  if bool_decide (h ∈ map fst (Topo.hosts g)) then ret h else raise KeyError.

(** Lines 138-180: [try: ... except KeyboardInterrupt: ... except Exception: ...] *)
Definition try_except {A} (m : M A) : M unit :=
  match m with
  | (Ok _, tr) => (Ok tt, tr)
  | (Raise KeyboardInterrupt, tr) => (Ok tt, tr ++ [Interrupted])
  | (Raise e, tr) => (Ok tt, tr ++ [ErrorLogged e])
  end.

(** What the two handlers of [main] log for the outcome of a run. *)
Definition logged {A} (r : result A) : list (event num) :=
  match r with
  | Ok _ => []
  | Raise KeyboardInterrupt => [Interrupted]
  | Raise e => [ErrorLogged e]
  end.

(** [main], from [net.start()] on. *)
Definition main (W : world num) (topo : topology) (bw duration : Z) (hosts : nat)
  : M unit :=
  bind (emit NetStart) (fun _ =>
  let switch_throughput_node := switch_interface topo in
  bind (for_each (fun i => net_get (graph topo) (Topo.host_name i)) (seq 0 hosts))
    (fun hs =>
  bind (try_except
          (match name topo with
           | multibottleneck =>
               run_quic_experiments W hs hosts switch_throughput_node duration
                 (Some (other_interfaces topo)) bw
           | _ =>
               run_quic_experiments W hs hosts switch_throughput_node duration
                 None bw
           end)) (fun _ =>
  emit NetStop))).

End WithNum.

End Driver.

(** ** The sweep ([exp_parkinglot.py]) *)

Module Sweep.
Import Trace.

Definition BANDWIDTHS : list Z := [10; 15; 20; 35].
Definition DELAYS : list string := ["1ms"; "2ms"; "5ms"; "10ms"].
Definition LOSSES : list Z := [0; 2; 5; 10].
Definition DURATION : Z := 60.

Definition FIXED_BW : Z := 15.
Definition FIXED_DELAY : string := "2ms".
Definition FIXED_LOSS : Z := 2.

Inductive dimension : Type := bw_vary | delay_vary | loss_vary.

(** One parameter point; together with the dimension it names the output
    directory of its run. *)
Record point : Type := { p_bw : Z; p_delay : string; p_loss : Z }.

(** What [extract_results] returns for a run with result files. *)
Record metrics : Type := {
  bottleneck1_throughput_mbps : F64.float;
  bottleneck2_throughput_mbps : F64.float;
  avg_rtt_ms : F64.float
}.

Inductive event : Type :=
| Launch (d : dimension) (p : point) (duration : Z)
| Summary (d : dimension) (rows : list (point * metrics))
| Print (message : string).

(** What the sweep meets outside: how [subprocess.run(cmd, check=True)] ends
    for a point ([Ok] on exit status 0, else the exception it raises) and
    what [extract_results] finds in the output directory afterwards. *)
Record world : Type := {
  subprocess_run : dimension -> point -> result unit;
  extract_results : dimension -> point -> option metrics;
  runner_exists : bool
}.

Abbreviation M := (Trace.M event).

(** Lines 30-57. *)
Definition run_experiment (W : world) (d : dimension) (p : point) (duration : Z)
  : M bool :=
  bind (emit (Launch d p duration)) (fun _ =>
  match subprocess_run W d p with
  | Ok _ => bind (emit (Print "Experiment completed successfully")) (fun _ => ret true)
  | Raise (CalledProcessError rc) =>
      bind (emit (Print "Experiment failed")) (fun _ => ret false)
  | Raise KeyboardInterrupt =>
      bind (emit (Print "Experiment interrupted by user")) (fun _ => ret false)
  | Raise e => raise e
  end).

(** The loop of [run_varying_bandwidth], [run_varying_delay] and
    [run_varying_loss] over the points of one dimension, and the summary. *)
Definition run_point (W : world) (d : dimension)
    (results : list (point * metrics)) (p : point) : M (list (point * metrics)) :=
  bind (run_experiment W d p DURATION) (fun ok =>
  if ok then
    match extract_results W d p with
    | Some m => ret (results ++ [(p, m)])
    | None => ret results
    end
  else ret results).

Definition run_varying (W : world) (d : dimension) (points : list point) : M unit :=
  bind (fold_each (run_point W d) points []) (fun results =>
  emit (Summary d results)).

Definition run_varying_bandwidth (W : world) : M unit :=
  run_varying W bw_vary
    (map (fun bw => {| p_bw := bw; p_delay := FIXED_DELAY; p_loss := FIXED_LOSS |})
       BANDWIDTHS).

Definition run_varying_delay (W : world) : M unit :=
  run_varying W delay_vary
    (map (fun delay => {| p_bw := FIXED_BW; p_delay := delay; p_loss := FIXED_LOSS |})
       DELAYS).

Definition run_varying_loss (W : world) : M unit :=
  run_varying W loss_vary
    (map (fun loss => {| p_bw := FIXED_BW; p_delay := FIXED_DELAY; p_loss := loss |})
       LOSSES).

(** How [main] ends: it returns, or leaves through [sys.exit(code)], or an
    exception escapes. *)
Inductive ending : Type :=
| Returned
| SysExit (code : Z)
| Uncaught (e : exn).

(** Lines 243-292. *)
Definition main (W : world) : ending * list event :=
  if runner_exists W then
    match bind (run_varying_bandwidth W) (fun _ =>
          bind (run_varying_delay W) (fun _ =>
          bind (run_varying_loss W) (fun _ =>
          emit (Print "ALL EXPERIMENTS COMPLETED")))) with
    | (Ok _, tr) => (Returned, tr)
    | (Raise KeyboardInterrupt, tr) =>
        (SysExit 1, tr ++ [Print "Experiments interrupted by user"])
    | (Raise e, tr) => (Uncaught e, tr)
    end
  else (SysExit 1, [Print "Error: Experiment runner not found!"]).

Definition launches (tr : list event) : list (dimension * point) :=
  omap (fun ev => match ev with Launch d p _ => Some (d, p) | _ => None end) tr.

(** Every point of the three sweeps, in the order [main] visits them. *)
Definition all_points : list (dimension * point) :=
  map (fun bw => (bw_vary, {| p_bw := bw; p_delay := FIXED_DELAY; p_loss := FIXED_LOSS |}))
    BANDWIDTHS ++
  map (fun delay => (delay_vary, {| p_bw := FIXED_BW; p_delay := delay; p_loss := FIXED_LOSS |}))
    DELAYS ++
  map (fun loss => (loss_vary, {| p_bw := FIXED_BW; p_delay := FIXED_DELAY; p_loss := loss |}))
    LOSSES.

(** The outcomes of [subprocess.run] for which [run_experiment] has a
    branch: success, a non-zero exit status, and an interruption. *)
Definition handled (r : result unit) : Prop :=
  match r with
  | Ok _ | Raise (CalledProcessError _) | Raise KeyboardInterrupt => True
  | Raise _ => False
  end.

Definition some_metrics : metrics :=
  {| bottleneck1_throughput_mbps := F64.one;
     bottleneck2_throughput_mbps := F64.one;
     avg_rtt_ms := F64.one |}.

(** Ctrl-C arrives during the very first run of the sweep (bandwidth 10);
    every other run succeeds. *)
Definition interrupted_first : world :=
  {| subprocess_run := fun d p =>
       match d with
       | bw_vary => if p_bw p =? 10 then Raise KeyboardInterrupt else Ok tt
       | _ => Ok tt
       end;
     extract_results := fun _ _ => Some some_metrics;
     runner_exists := true |}.

End Sweep.

(** ** Concrete scenarios *)

Module Scenario.
Import F64 Aggregate Run Driver.

(** Counters that advance by 6,250,000 bytes between the snapshots. *)
Definition counter (p : phase) (device : string) : Z :=
  match p with Before => 1000000 | After => 7250000 end.

(** An undisturbed run on the network of graph [g], an hour after the
    machine was started: no Ctrl-C, and senders that leave four samples of
    second 1 behind. *)
Definition quiet (g : Topo.topo) : world number :=
  {| tx_bytes := sysfs g counter;
     rx_bytes := sysfs g counter;
     sigint := fun _ => false;
     raw_metrics := Lines four_samples;
     uptime := fun _ => 3600 * 10 ^ 9 |}.

(** The same run, but the second reading of the counters fails. *)
Definition counters_vanish (g : Topo.topo) : world number :=
  {| tx_bytes := fun p device =>
                   match p with
                   | Before => sysfs g counter p device
                   | After => Raise FileNotFoundError
                   end;
     rx_bytes := sysfs g counter;
     sigint := fun _ => false;
     raw_metrics := Lines four_samples;
     uptime := fun _ => 3600 * 10 ^ 9 |}.

(** A sender whose clock advances by a quarter of a second between two
    readings and whose transport reports a smoothed RTT of 62.5 ms. *)
Definition quarter_steps : Sender.env :=
  {| Sender.clock := fun n =>
       SFdiv prec emax (binary_normalize prec emax (Z.of_nat n) 0 false)
         (S754_finite false 4 0);
     Sender.rtt_smoothed := fun _ => Some (S754_finite false 4503599627370496 (-56));
     Sender.memory := fun _ => true;
     Sender.append := Sender.Appended |}.

Definition f0_75 : float := S754_finite false 6755399441055744 (-53).
Definition f62_5 : float := S754_finite false 8796093022208000 (-47).

(** [--topo dumbbell --bw 10 --delay 1ms --loss 0 --hosts 4] and the same
    with the default of 40 hosts. *)
Definition dumbbell4 : topology := dumbbell_topology 10 "1ms" zero 4.
Definition dumbbell40 : topology := dumbbell_topology 10 "1ms" zero 40.

End Scenario.

(** ** Further inputs for the aggregation *)

Module AggregateCases.
Import Aggregate.

(** The four samples of second 1 among records that lack ['time'] or
    ['rtt_ms'], and the same file followed by a line holding the JSON
    number [5]. *)
Definition with_partial_records : list (line number) :=
  [ Object None (Some (Float f10)) (Some (Int 14600));
    Object (Some 1) (Some (Float f10)) None; Object (Some 1) (Some (Float f10)) None;
    Object (Some 2) None (Some (Int 14600));
    Object (Some 1) (Some (Float f10)) None; Object (Some 1) (Some (Float f10_25)) None ].

Definition with_a_number : list (line number) := four_samples ++ [NotObject].

(** Two seconds with congestion windows: 14600 and 14601 bytes for second
    1, 29200 for second 2. *)
Definition with_cwnd : list (line number) :=
  [ Object (Some 2) (Some (Float f10)) (Some (Int 29200));
    Object (Some 1) (Some (Float f10)) (Some (Int 14600));
    Object (Some 1) (Some (Float f10)) (Some (Int 14601)) ].

(** A record whose congestion window is the JSON literal [NaN], which
    [json.loads] accepts, and two records of one second whose windows are
    finite floats with an infinite sum. *)
Definition f_max : F64.float := S754_finite false 9007199254740991 971.

Definition with_nan_cwnd : list (line number) :=
  [ Object (Some 1) (Some (Float f10)) (Some (Float S754_nan)) ].

Definition with_huge_cwnd : list (line number) :=
  [ Object (Some 1) (Some (Float f10)) (Some (Float f_max));
    Object (Some 1) (Some (Float f10)) (Some (Float f_max)) ].

(** An integer of 400 digits among the round trip times. *)
Definition with_huge_int : list (line number) :=
  [ Object (Some 1) (Some (Int (10 ^ 400))) None;
    Object (Some 1) (Some (Float f10)) None ].

End AggregateCases.

(** ** Further parts of the sweep *)

Module SweepCases.
Import Sweep.

(** The rows a sweep over [points] hands to the summary: one for each point
    whose run succeeded and whose result files could be read, in the order
    of the points. *)
Definition summary_rows (W : world) (d : dimension) (points : list point)
  : list (point * metrics) :=
  omap (fun p => match subprocess_run W d p with
                 | Ok _ => match extract_results W d p with
                           | Some m => Some (p, m)
                           | None => None
                           end
                 | Raise _ => None
                 end) points.

Definition is_summary (ev : event) : bool :=
  match ev with Summary _ _ => true | _ => false end.

Definition bandwidth_point (bw : Z) : point :=
  {| p_bw := bw; p_delay := FIXED_DELAY; p_loss := FIXED_LOSS |}.

(** The run for bandwidth 15 exits with status 1; the others succeed. *)
Definition one_failure : world :=
  {| subprocess_run := fun d p =>
       if p_bw p =? 15 then Raise (CalledProcessError 1) else Ok tt;
     extract_results := fun _ _ => Some some_metrics;
     runner_exists := true |}.

(** The child for bandwidth 20 cannot be started at all. *)
Definition cannot_launch : world :=
  {| subprocess_run := fun d p => if p_bw p =? 20 then Raise OSError else Ok tt;
     extract_results := fun _ _ => Some some_metrics;
     runner_exists := true |}.

End SweepCases.

(** ** The sender's bookkeeping *)

Module SenderCases.
Import F64 Sender.

Definition is_data_chunk (ev : event) : bool :=
  match ev with SendStreamData _ false => true | _ => false end.

(** The data chunks handed to the stream so far. *)
Definition chunks (tr : list event) : nat := length (List.filter is_data_chunk tr).

(** What one turn of the transmission loop does: a chunk of [chunk_size]
    bytes, a transmit, a pause. *)
Definition loop_event (chunk_size : Z) (ev : event) : Prop :=
  match ev with
  | SendStreamData n false => n = Z.max 0 chunk_size
  | Transmit | AsyncSleep _ => True
  | _ => False
  end.

(** The [j]-th turn of the loop: the chunk, the transmit, and the pause
    computed from the clock readings before and after sending. *)
Definition turn (E : env) (chunk_size : Z) (sleep_time : float) (j : nat)
  : list event :=
  [ SendStreamData (Z.max 0 chunk_size) false; Transmit;
    AsyncSleep (sleep_duration sleep_time (clock E (4 * j + 3)) (clock E (4 * j + 4))) ].

Definition turns (E : env) (chunk_size : Z) (sleep_time : float) (first n : nat)
  : list event :=
  concat (map (turn E chunk_size sleep_time) (seq first n)).

(** Lines 126-137: what follows the loop.  The metrics file receives the
    whole buffer, nothing, or the lines written before the failure. *)
Definition closing (E : env) (metrics_file : string) (buffer : list metric)
  : list event :=
  (if negb (String.eqb metrics_file "") && negb (bool_decide (buffer = []))
   then match append E with
        | Appended => [AppendLines metrics_file buffer]
        | OpenFails => [WriteFailed]
        | WriteFails written => [AppendLines metrics_file (take written buffer); WriteFailed]
        end
   else []) ++
  [SendStreamData 0 true; Transmit].

(** How a transmission that got as far as the loop has gone, [n] being the
    number of whole turns: it is still in the loop when the fuel of the
    model ends; or taking the sample raised in turn [n], after the chunk
    was handed over; or the head reading of turn [n] was not before
    [end_time], the loop was left, the buffer flushed and the stream
    closed, and the statistics of lines 140-147 were returned, unless
    their division raised. *)
Definition shaped (E : env) (metrics_file : string) (chunk_size : Z)
    (end_time sleep_time : float) (fuel n : nat) (out : outcome stats) (s : state)
  : Prop :=
  let sent := turns E chunk_size sleep_time 0 n in
  let left_loop :=
    ltb (clock E (1 + 4 * n)) end_time = false /\
    trace s = sent ++ closing E metrics_file (metrics_buffer s) in
  let actual_duration := sub (clock E (2 + 4 * n)) (clock E 0) in
  let throughput_mbps := truediv_if (bytes_sent s * 8) (mul actual_duration lit_1e6) in
  match out with
  | OutOfFuel => n = fuel /\ trace s = sent
  | Raised e =>
      (ltb (clock E (1 + 4 * n)) end_time = true /\
       trace s = sent ++ [SendStreamData (Z.max 0 chunk_size) false; Transmit]) \/
      (left_loop /\ throughput_mbps = Raise e)
  | Finished st =>
      left_loop /\
      stats_bytes_sent st = bytes_sent s /\
      stats_duration st = actual_duration /\
      throughput_mbps = Ok (stats_throughput_mbps st)
  end.

(** The same sender when the metrics file cannot be opened. *)
Definition read_only_disk (E : env) : env :=
  {| clock := clock E; rtt_smoothed := rtt_smoothed E; memory := memory E;
     append := OpenFails |}.

(** A clock that stands still. *)
Definition frozen_clock : env :=
  {| clock := fun _ => zero; rtt_smoothed := fun _ => None;
     memory := fun _ => true; append := Appended |}.

End SenderCases.

(** ** The parking-lot and multi-bottleneck topologies
    ([parkinglot.py], [multibottleneck.py]), for integer bandwidths *)

Module ParkingLotTopo.
Import Topo.

Definition add_source (t : topo) (i : nat) : topo :=
  addLink (host_name i) "s1" access (addHost (host_name i) None t).

(** [self.addLink(s, hosts[i], bw=1, delay="1ms")]: the switch comes first. *)
Definition add_destination (s : string) (t : topo) (i : nat) : topo :=
  addLink s (host_name i) access (addHost (host_name i) None t).

Definition build (bw1 bw2 : Z) (delay : string) (loss : F64.float)
    (number_of_hosts : nat) : topo :=
  let mid := (number_of_hosts / 2)%nat in
  let t0 := addSwitch "s3" (addSwitch "s2" (addSwitch "s1" empty)) in
  let t1 := fold_left add_source (seq 0 mid) t0 in
  let new_mid := (mid / 2)%nat in
  let t2 := fold_left (add_destination "s2") (seq mid new_mid) t1 in
  let t3 := fold_left (add_destination "s3")
              (seq (mid + new_mid) (number_of_hosts - (mid + new_mid))) t2 in
  let t4 := addLink "s1" "s2"
              {| bw := bw1; delay := delay; loss := loss; max_queue_size := Some 100 |}
              t3 in
  addLink "s2" "s3"
    {| bw := bw2; delay := delay; loss := loss; max_queue_size := Some 100 |} t4.

Definition switch_interface : list string := ["s1-eth21"; "s2-eth12"].

End ParkingLotTopo.

Module MultiBottleneckTopo.
Import Topo.

Definition add_source (t : topo) (i : nat) : topo :=
  addLink (host_name i) "s1" access (addHost (host_name i) None t).

Definition add_destination (s : string) (t : topo) (i : nat) : topo :=
  addLink s (host_name i) access (addHost (host_name i) None t).

Definition build (bw1 bw2 bw3 : Z) (delay : string) (loss : F64.float)
    (number_of_hosts : nat) : topo :=
  let mid := (number_of_hosts / 2)%nat in
  let core b :=
    {| bw := b; delay := delay; loss := loss; max_queue_size := Some 100 |} in
  let t0 := addSwitch "s6" (addSwitch "s5" (addSwitch "s4"
              (addSwitch "s3" (addSwitch "s2" (addSwitch "s1" empty))))) in
  let t1 := fold_left add_source (seq 0 mid) t0 in
  let new_mid := (mid / 2)%nat in
  let t2 := fold_left (add_destination "s5") (seq mid new_mid) t1 in
  let t3 := fold_left (add_destination "s6")
              (seq (mid + new_mid) (number_of_hosts - (mid + new_mid))) t2 in
  addLink "s4" "s6" (core bw3)
    (addLink "s4" "s5" (core bw3)
       (addLink "s3" "s4" (core bw2)
          (addLink "s2" "s4" (core bw2)
             (addLink "s1" "s3" (core bw2)
                (addLink "s1" "s2" (core bw1) t3))))).

Definition switch_interface : list string :=
  ["s1-eth21"; "s2-eth2"; "s3-eth2"; "s4-eth2"; "s4-eth3"].

Definition other_interfaces : list string := ["s2-eth1"].

End MultiBottleneckTopo.

(** ** Wiring *)

Module Wiring.
Import Topo.

(** The interface a link sends from, and the one it arrives at, in the
    order in which [addLink] was given its two nodes. *)
Definition tx_side (l : link) : string := intf_name (node1 l) (port1 l).
Definition rx_side (l : link) : string := intf_name (node2 l) (port2 l).

(** The body the loops over the hosts share: a new host [h<i>] and its
    access link to the switch [s], host first or switch first. *)
Definition host_link (switch_first : bool) (s : string) (cpu : option F64.float)
    (t : topo) (i : nat) : topo :=
  let t' := addHost (host_name i) cpu t in
  if switch_first then addLink s (host_name i) access t'
  else addLink (host_name i) s access t'.

(** Switch names as the three topologies choose them: [s] and a number. *)
Definition switch_like (s : string) : Prop := exists rest, s = "s" +:+ rest.

(** [g] is the graph one of the three topology classes builds for
    [number_of_hosts] hosts. *)
Definition built_for (g : topo) (number_of_hosts : nat) : Prop :=
  (exists bw delay loss, g = DumbbellTopo.build bw delay loss number_of_hosts) \/
  (exists bw1 bw2 delay loss,
      g = ParkingLotTopo.build bw1 bw2 delay loss number_of_hosts) \/
  (exists bw1 bw2 bw3 delay loss,
      g = MultiBottleneckTopo.build bw1 bw2 bw3 delay loss number_of_hosts).

End Wiring.

(** ** The course of an undisturbed run *)

Module RunCases.
Import F64 Aggregate Run.

(** The clients started for the sources [s1_hosts] and the destinations
    [s2_hosts]: the [i]-th source sends to the [i]-th destination. *)
Definition client_cmds {num} (s1_hosts s2_hosts : list string) (rate : float)
  : list (event num) :=
  zip_with (fun source dest => Cmd source (QuicClient dest rate)) s1_hosts s2_hosts.

(** The first snapshot, when every counter can be read: the TX interfaces,
    then the RX interfaces. *)
Definition first_snapshot {num} (switch_interface others : list string)
  : list (event num) :=
  map (GetBytes Before) switch_interface ++ map (GetRxBytes Before) others.

(** Certificates on every destination, then a server on every destination,
    then the settle interval. *)
Definition servers_started {num} (s2_hosts : list string) : list (event num) :=
  concat (map (fun h => [Cmd h MkdirCerts; Cmd h OpensslReq]) s2_hosts) ++
  map (fun h => Cmd h QuicServer) s2_hosts ++ [TimeSleep Settle 2].

(** The rows of [switches.csv] for the throughput dict [d]. *)
Definition switch_rows (d : list (string * float)) (duration : Z)
  : list (string * float * Z) :=
  map (fun '(interface, throughput) => (interface, round2 throughput, duration)) d.

(** Everything a run does when nothing fails, in order. *)
Definition undisturbed_trace {num} (hosts : list string) (number_of_hosts : nat)
    (switch_interface others : list string) (duration : Z) (rate : float)
    (r : report num) (d : list (string * float)) : list (event num) :=
  let mid := (number_of_hosts / 2)%nat in
  let s1_hosts := take mid hosts in
  let s2_hosts := drop mid hosts in
  map (GetBytes Before) switch_interface ++ map (GetRxBytes Before) others ++
  concat (map (fun h => [Cmd h MkdirCerts; Cmd h OpensslReq]) s2_hosts) ++
  map (fun h => Cmd h QuicServer) s2_hosts ++
  [TimeSleep Settle 2; MakeDirs] ++
  client_cmds s1_hosts s2_hosts rate ++
  [TimeSleep Window (duration + 4)] ++
  map (GetBytes After) switch_interface ++ map (GetRxBytes After) others ++
  [Aggregated r; SwitchesCsv (switch_rows d duration)] ++
  map (fun h => Cmd h PkillServer) s2_hosts ++
  map (fun h => Cmd h PkillClient) hosts ++ [RemoveRawMetrics].

End RunCases.

(* ===================================================================== *)
(** * Part II: properties                                                 *)
(* ===================================================================== *)

(** ** Arithmetic *)

Section FloatFacts.
Import F64.

Lemma of_int_ok (n : Z) :
  Z.abs n < int_limit ->
  of_int n = Ok (binary_normalize prec emax n 0 false).
Proof.
  intros Hn. unfold of_int.
  destruct (Z.ltb_spec (Z.abs n) int_limit) as [_ | Hge]; [reflexivity | lia].
Qed.

Lemma int_limit_large : 2 ^ 70 < int_limit.
Proof. reflexivity. Qed.

(** [max(0, x)] is a zero or lies above zero, whatever [x] is (NaN included). *)
Lemma max0_nonneg (x : float) : nonneg (max0 x).
Proof.
  unfold max0, ltb, SFltb, nonneg.
  destruct x as [s | s | | s m e]; simpl; try (left; reflexivity).
  - destruct s; simpl; [left; reflexivity | right; reflexivity].
  - destruct s; simpl; [left; reflexivity | right; reflexivity].
Qed.

Lemma positive_truthy (x : float) : ltb zero x = true -> truthy x = true.
Proof. destruct x; simpl; intros Hx; try reflexivity; discriminate Hx. Qed.

End FloatFacts.

(** ** The paced sender *)

Section SenderFacts.
Import F64 Sender.

Lemma default_target : truediv_ii (15 * 1000000) 8 = Ok default_bytes_per_sec.
Proof. reflexivity. Qed.

Lemma sleeps_app (tr1 tr2 : list event) : sleeps (tr1 ++ tr2) = sleeps tr1 ++ sleeps tr2.
Proof. unfold sleeps. apply omap_app. Qed.

Lemma sample_trace (E : env) (start_time current_time : float) (s s' : state) :
  sample E start_time current_time s = Ok s' ->
  trace s' = trace s /\ tick s' = tick s.
Proof.
  unfold sample. destruct (leb one _).
  - destruct (to_int _) as [z | e]; simpl; [| discriminate].
    intros [= <-]. split; reflexivity.
  - intros [= <-]. split; reflexivity.
Qed.

Lemma send_loop_paced (E : env) (chunk_size : Z) (start_time end_time sleep_time : float)
    (fuel : nat) :
  forall s, Forall (paced E sleep_time) (sleeps (trace s)) ->
  Forall (paced E sleep_time)
    (sleeps (trace (snd (send_loop E chunk_size start_time end_time sleep_time fuel s)))).
Proof.
  induction fuel as [| fuel IH]; intros s Hs; simpl; [exact Hs |].
  destruct (ltb (clock E (tick s)) end_time); simpl; [| exact Hs].
  match goal with |- context [sample E start_time ?c ?s1] =>
    destruct (sample E start_time c s1) as [s2 | e] eqn:Hsample end; simpl.
  - apply sample_trace in Hsample as [Htr Htick]. simpl in Htr, Htick.
    apply IH. simpl. rewrite Htr, Htick, !sleeps_app. simpl.
    rewrite !app_nil_r. apply Forall_app. split; [exact Hs |].
    constructor; [| constructor]. split; [apply max0_nonneg |].
    exists (S (S (tick s))). reflexivity.
  - rewrite !sleeps_app. simpl. rewrite !app_nil_r. exact Hs.
Qed.

Lemma flush_sleeps (E : env) (file : string) (s : state) :
  sleeps (trace (flush E file s)) = sleeps (trace s).
Proof.
  unfold flush.
  destruct (negb (String.eqb file "") && negb (bool_decide (metrics_buffer s = [])));
    [destruct (append E) |];
    simpl; rewrite !sleeps_app; simpl; rewrite !app_nil_r; reflexivity.
Qed.

Lemma flush_trace (E : env) (file : string) (s : state) :
  trace (flush E file s) = trace s ++ SenderCases.closing E file (metrics_buffer s) /\
  metrics_buffer (flush E file s) = metrics_buffer s /\
  bytes_sent (flush E file s) = bytes_sent s /\
  tick (flush E file s) = tick s.
Proof.
  unfold flush, SenderCases.closing.
  destruct (negb (String.eqb file "") && negb (bool_decide (metrics_buffer s = [])));
    [destruct (append E) |];
    cbn; rewrite <- ?app_assoc; repeat split; reflexivity.
Qed.

(** The final statistics change neither the trace nor the counters. *)
Lemma final_stats_state (E : env) (start_time : float) (s : state) :
  let s' := (final_stats E start_time s).2 in
  trace s' = trace s /\ bytes_sent s' = bytes_sent s /\
  metrics_buffer s' = metrics_buffer s.
Proof.
  unfold final_stats. destruct (truediv_if _ _); repeat split; reflexivity.
Qed.

Lemma sample_keeps (E : env) (start_time current_time : float) (s s' : state) :
  sample E start_time current_time s = Ok s' ->
  trace s' = trace s /\ tick s' = tick s /\ bytes_sent s' = bytes_sent s /\
  exists new, metrics_buffer s' = metrics_buffer s ++ new.
Proof.
  unfold sample. destruct (leb one _).
  - destruct (to_int _) as [z | e]; simpl; [| discriminate].
    intros [= <-]. cbn. repeat split. eauto.
  - intros [= <-]. repeat split. exists []. rewrite app_nil_r. reflexivity.
Qed.

(** *** The shape of a transmission

    The loop reads the clock four times per turn: at its head, for
    [current_time], for [send_start], and after sending.  Its trace is a
    sequence of whole turns; it ends when a head reading is not before
    [end_time], or in the middle of a turn when taking the sample raises. *)
Lemma send_loop_shape (E : env) (chunk_size : Z) (start_time end_time sleep_time : float)
    (fuel : nat) :
  forall (s : state) (first : nat),
    tick s = (1 + 4 * first)%nat ->
    exists n,
      (forall j, (j < n)%nat -> ltb (clock E (1 + 4 * (first + j))) end_time = true) /\
      let '(out, s') := send_loop E chunk_size start_time end_time sleep_time fuel s in
      match out with
      | Finished _ =>
          trace s' = trace s ++ SenderCases.turns E chunk_size sleep_time first n /\
          ltb (clock E (1 + 4 * (first + n))) end_time = false /\
          tick s' = (2 + 4 * (first + n))%nat
      | Raised e =>
          trace s' = trace s ++ SenderCases.turns E chunk_size sleep_time first n ++
                     [SendStreamData (Z.max 0 chunk_size) false; Transmit] /\
          ltb (clock E (1 + 4 * (first + n))) end_time = true
      | OutOfFuel =>
          trace s' = trace s ++ SenderCases.turns E chunk_size sleep_time first n /\
          n = fuel
      end.
Proof.
  induction fuel as [| fuel IH]; intros s first Htick.
  - exists 0%nat. split; [intros j Hj; lia |]. cbn [send_loop].
    cbn. rewrite app_nil_r. split; reflexivity.
  - cbn [send_loop].
    destruct (ltb (clock E (tick s)) end_time) eqn:Hhead.
    + match goal with |- context [sample E start_time ?c ?s1] =>
        destruct (sample E start_time c s1) as [s2 | e] eqn:Hsample end.
      * apply sample_keeps in Hsample as (Htr & Htick2 & _).
        cbn in Htr, Htick2.
        match goal with |- context [send_loop _ _ _ _ _ fuel ?s3] =>
          destruct (IH s3 (S first)) as (n & Hbefore & Hout); [cbn; lia |];
          destruct (send_loop E chunk_size start_time end_time sleep_time fuel s3)
            as [out s'] end.
        cbn [trace emit] in Hout.
        assert (Hturn : trace s2 ++
                        [AsyncSleep (sleep_duration sleep_time (clock E (S (S (tick s))))
                                       (clock E (tick s2)))] =
                        trace s ++ SenderCases.turn E chunk_size sleep_time first).
        { rewrite Htr, Htick2, <- !app_assoc. unfold SenderCases.turn. cbn [app].
          replace (S (S (tick s))) with (4 * first + 3)%nat by lia.
          replace (S (4 * first + 3)) with (4 * first + 4)%nat by lia.
          reflexivity. }
        rewrite Hturn in Hout.
        exists (S n). split.
        { intros [| j] Hj.
          - rewrite Nat.add_0_r, <- Htick. exact Hhead.
          - replace (first + S j)%nat with (S first + j)%nat by lia.
            apply Hbefore. lia. }
        assert (Hturns : forall tail,
                   trace s ++ SenderCases.turns E chunk_size sleep_time first (S n) ++ tail =
                   (trace s ++ SenderCases.turn E chunk_size sleep_time first) ++
                   SenderCases.turns E chunk_size sleep_time (S first) n ++ tail).
        { intros tail. unfold SenderCases.turns. cbn [seq map concat].
          rewrite <- !app_assoc. reflexivity. }
        replace (first + S n)%nat with (S first + n)%nat by lia.
        destruct out as [[] | e |].
        -- destruct Hout as (Hout & Hend & Hticks). split; [| split; assumption].
           rewrite Hout. specialize (Hturns []). rewrite !app_nil_r in Hturns.
           symmetry. exact Hturns.
        -- destruct Hout as (Hout & Hend). split; [| exact Hend].
           rewrite Hout. symmetry. apply Hturns.
        -- destruct Hout as (Hout & ->). split; [| reflexivity].
           rewrite Hout. specialize (Hturns []). rewrite !app_nil_r in Hturns.
           symmetry. exact Hturns.
      * exists 0%nat. split; [intros j Hj; lia |].
        cbn [trace emit]. rewrite <- !app_assoc.
        rewrite Nat.add_0_r, <- Htick. cbn. split; [reflexivity | exact Hhead].
    + exists 0%nat. split; [intros j Hj; lia |].
      cbn [trace tick]. rewrite Nat.add_0_r, <- Htick.
      cbn. rewrite app_nil_r. repeat split; try lia. exact Hhead.
Qed.

Lemma send_data_shape (E : env) (duration : Z) (file : string) (chunk_size : Z)
    (rate : option float) (fuel : nat) (len : Z) (end_time sleep_time : float) :
  data_chunk E chunk_size = Ok len ->
  add_fi (clock E 0) duration = Ok end_time ->
  inter_chunk_sleep rate chunk_size = Ok sleep_time ->
  exists n,
    (forall j, (j < n)%nat -> ltb (clock E (1 + 4 * j)) end_time = true) /\
    let '(out, s) := send_data_with_metrics E duration file chunk_size rate fuel in
    SenderCases.shaped E file chunk_size end_time sleep_time fuel n out s.
Proof.
  intros Hchunk Hend Hsleep. unfold send_data_with_metrics.
  rewrite Hchunk, Hend, Hsleep.
  match goal with |- context [send_loop _ _ _ _ _ _ ?init] =>
    destruct (send_loop_shape E chunk_size (clock E 0) end_time sleep_time fuel init 0%nat
                eq_refl) as (n & Hbefore & Hout);
    destruct (send_loop E chunk_size (clock E 0) end_time sleep_time fuel init)
      as [[[] | e |] s] end;
    cbn [trace app Nat.add] in Hout, Hbefore; exists n; (split; [exact Hbefore |]).
  - destruct Hout as (Htr & Hhead & Htick).
    destruct (flush_trace E file s) as (Hflush & Hbuf & Hbytes & Hticks).
    unfold final_stats. rewrite Hticks, Htick, Hbytes.
    destruct (truediv_if (bytes_sent s * 8) _) as [throughput | e] eqn:Hdiv;
      unfold SenderCases.shaped; cbn [trace bytes_sent metrics_buffer];
      rewrite Hflush, Hbuf, Htr.
    + cbn [stats_bytes_sent stats_duration stats_throughput_mbps].
      repeat split; try assumption.
    + right. repeat split; assumption.
  - destruct Hout as (Htr & Hhead). unfold SenderCases.shaped. left. split; assumption.
  - destruct Hout as (Htr & ->). unfold SenderCases.shaped. split; [reflexivity | exact Htr].
Qed.

(** A run of three seconds at 8 Mbps with chunks of 1,000,000 bytes: three
    chunks are sent, each followed by a pause of 0.75 s, two samples are
    taken, the buffer is appended once, after the loop, and the statistics
    report 3,000,000 bytes in 3.5 s. *)
Example three_second_flow :
  let '(out, s) := send_data_with_metrics Scenario.quarter_steps 3 "raw.json" 1000000
                     (Some (S754_finite false 8 0)) 10 in
  (exists st, out = Finished st /\ stats_bytes_sent st = 3000000 /\
              stats_duration st = S754_finite false 7881299347898368 (-51)) /\
  sleeps (trace s) = [Scenario.f0_75; Scenario.f0_75; Scenario.f0_75] /\
  metrics_buffer s = [ {| time := 1; rtt_ms := Scenario.f62_5 |};
                       {| time := 2; rtt_ms := Scenario.f62_5 |} ] /\
  bytes_sent s = 3000000 /\
  drop 9%nat (trace s) = [AppendLines "raw.json" (metrics_buffer s);
                          SendStreamData 0 true; Transmit].
Proof. vm_compute. split; [eexists; repeat split |]. repeat split. Qed.

(** C3. For a positive target rate the inter-chunk sleep is
    [chunk_size / (target_rate_mbps * 1e6 / 8)]; for 8 Mbps and chunks of
    1,000,000 bytes it is exactly [1.0]; every pause of the transmission
    loop is [max(0, inter_chunk_sleep - time_spent_sending)], which is never
    negative; and the loop pauses after each chunk: as long as the clock
    read at the head of the loop is before [end_time], a turn hands one
    chunk to the stream, transmits, and sleeps for
    [max(0, inter_chunk_sleep - (now - send_start))], with [send_start] and
    [now] the clock readings before and after sending; nothing else happens
    in the loop, and it is left only at a head reading that is not before
    [end_time] (or by an exception of the sample, after the chunk of that
    turn). *)
Theorem pacing_sleep :
  (forall (rate : float) (chunk_size : Z),
      ltb zero rate = true ->
      inter_chunk_sleep (Some rate) chunk_size =
        (bits ← mul_fi rate 1000000;
         target_bytes_per_sec ← truediv_fi bits 8;
         truediv_if chunk_size target_bytes_per_sec)) /\
  inter_chunk_sleep (Some (S754_finite false 8 0)) 1000000 = Ok one /\
  (forall sleep_time send_start now : float,
      sleep_duration sleep_time send_start now =
        max0 (sub sleep_time (sub now send_start)) /\
      nonneg (sleep_duration sleep_time send_start now)) /\
  (forall (E : env) (duration : Z) (file : string) (chunk_size : Z)
          (rate : option float) (fuel : nat),
      Forall (fun d => nonneg d /\
                       exists sleep_time i,
                         inter_chunk_sleep rate chunk_size = Ok sleep_time /\
                         d = sleep_duration sleep_time (clock E i) (clock E (S i)))
        (sleeps (trace (snd (send_data_with_metrics E duration file chunk_size
                               rate fuel))))) /\
  (forall (E : env) (duration : Z) (file : string) (chunk_size : Z)
          (rate : option float) (fuel : nat) (len : Z) (end_time sleep_time : float),
      data_chunk E chunk_size = Ok len ->
      add_fi (clock E 0) duration = Ok end_time ->
      inter_chunk_sleep rate chunk_size = Ok sleep_time ->
      exists n,
        (forall j, (j < n)%nat -> ltb (clock E (1 + 4 * j)) end_time = true) /\
        let '(out, s) := send_data_with_metrics E duration file chunk_size rate fuel in
        let sent :=
          concat (map (fun j =>
                         [ SendStreamData (Z.max 0 chunk_size) false; Transmit;
                           AsyncSleep (max0 (sub sleep_time
                                               (sub (clock E (4 * j + 4))
                                                    (clock E (4 * j + 3))))) ])
                    (seq 0 n)) in
        match out with
        | OutOfFuel => n = fuel /\ trace s = sent
        | Raised e =>
            (ltb (clock E (1 + 4 * n)) end_time = true /\
             trace s = sent ++ [SendStreamData (Z.max 0 chunk_size) false; Transmit]) \/
            (ltb (clock E (1 + 4 * n)) end_time = false /\
             trace s = sent ++ SenderCases.closing E file (metrics_buffer s))
        | Finished st =>
            ltb (clock E (1 + 4 * n)) end_time = false /\
            trace s = sent ++ SenderCases.closing E file (metrics_buffer s)
        end).
Proof.
  split; [| split; [| split; [| split]]].
  - intros rate chunk_size Hpos. unfold inter_chunk_sleep.
    rewrite (positive_truthy rate Hpos). reflexivity.
  - reflexivity.
  - intros sleep_time send_start now. split; [reflexivity |].
    unfold sleep_duration. apply max0_nonneg.
  - intros E duration file chunk_size rate fuel. unfold send_data_with_metrics.
    destruct (data_chunk E chunk_size) as [len | e]; [| constructor].
    destruct (add_fi (clock E 0) duration) as [end_time | e]; simpl;
      [| constructor].
    destruct (inter_chunk_sleep rate chunk_size) as [sleep_time | e] eqn:Hsleep;
      simpl; [| constructor].
    pose proof (send_loop_paced E chunk_size (clock E 0) end_time sleep_time fuel
                  {| tick := 1; bytes_sent := 0; last_log_time := clock E 0;
                     last_bytes := 0; metrics_buffer := []; trace := [] |}
                  ltac:(constructor)) as Hloop.
    destruct (send_loop E chunk_size (clock E 0) end_time sleep_time fuel _)
      as [[[] | e |] s]; cbn [snd] in *.
    + destruct (final_stats_state E (clock E 0) (flush E file s)) as [-> _].
      rewrite flush_sleeps.
      eapply Forall_impl; [exact Hloop |].
      intros d [Hd [i ->]]. split; [exact Hd |]. eauto.
    + eapply Forall_impl; [exact Hloop |].
      intros d [Hd [i ->]]. split; [exact Hd |]. eauto.
    + eapply Forall_impl; [exact Hloop |].
      intros d [Hd [i ->]]. split; [exact Hd |]. eauto.
  - intros E duration file chunk_size rate fuel len end_time sleep_time
      Hchunk Hend Hsleep.
    destruct (send_data_shape E duration file chunk_size rate fuel len end_time
                sleep_time Hchunk Hend Hsleep) as (n & Hbefore & Hshape).
    exists n. split; [exact Hbefore |].
    destruct (send_data_with_metrics E duration file chunk_size rate fuel)
      as [[st | e |] s]; unfold SenderCases.shaped in Hshape;
      change (SenderCases.turns E chunk_size sleep_time 0 n) with
        (concat (map (fun j =>
                        [ SendStreamData (Z.max 0 chunk_size) false; Transmit;
                          AsyncSleep (max0 (sub sleep_time
                                              (sub (clock E (4 * j + 4))
                                                   (clock E (4 * j + 3))))) ])
                   (seq 0 n))) in Hshape.
    + destruct Hshape as [Hleft _]. exact Hleft.
    + destruct Hshape as [Hin | [Hleft _]]; [left | right]; assumption.
    + exact Hshape.
Qed.

Lemma pacing_sleep_witness :
  (ltb zero (S754_finite false 8 0) = true /\
   inter_chunk_sleep (Some (S754_finite false 8 0)) 1000000 =
     (bits ← mul_fi (S754_finite false 8 0) 1000000;
      target_bytes_per_sec ← truediv_fi bits 8;
      truediv_if 1000000 target_bytes_per_sec)) /\
  exists n,
    (forall j, (j < n)%nat ->
       ltb (clock Scenario.quarter_steps (1 + 4 * j))
         (S754_finite false 6755399441055744 (-51)) = true) /\
    (send_data_with_metrics Scenario.quarter_steps 3 "raw.json" 1000000
       (Some (S754_finite false 8 0)) 2).1 = OutOfFuel /\
    n = 2%nat /\
    trace (send_data_with_metrics Scenario.quarter_steps 3 "raw.json" 1000000
             (Some (S754_finite false 8 0)) 2).2 =
      [ SendStreamData 1000000 false; Transmit; AsyncSleep Scenario.f0_75;
        SendStreamData 1000000 false; Transmit; AsyncSleep Scenario.f0_75 ].
Proof.
  split.
  - split; [reflexivity |].
    apply (proj1 pacing_sleep (S754_finite false 8 0) 1000000). reflexivity.
  - destruct (proj2 (proj2 (proj2 (proj2 pacing_sleep))) Scenario.quarter_steps 3
                "raw.json" 1000000 (Some (S754_finite false 8 0)) 2%nat 1000000
                (S754_finite false 6755399441055744 (-51))
                (S754_finite false 4503599627370496 (-52))
                eq_refl eq_refl eq_refl) as (n & Hbefore & Hshape).
    exists n. split; [exact Hbefore |].
    destruct (send_data_with_metrics Scenario.quarter_steps 3 "raw.json" 1000000
                (Some (S754_finite false 8 0)) 2) as [out s] eqn:Hrun.
    vm_compute in Hrun. injection Hrun as <- <-.
    destruct Hshape as [-> Htrace]. repeat split.
Defined.

(** C10. With no target rate, or with a rate of zero, the sender does not
    fail and does not send unpaced: the inter-chunk sleep is
    [chunk_size / (15e6 / 8)], the pacing of a 15 Mbps flow, and the
    transmission loop is paced with it: every turn of the loop hands one
    chunk to the stream, transmits and sleeps for
    [max(0, chunk_size / (15e6 / 8) - time_spent_sending)]. *)
Theorem zero_rate_default_pacing (rate : option float) (chunk_size : Z) :
  rate = None \/ rate = Some (S754_zero false) \/ rate = Some (S754_zero true) ->
  Z.abs chunk_size < int_limit ->
  truediv_ii (15 * 1000000) 8 = Ok default_bytes_per_sec /\
  inter_chunk_sleep rate chunk_size = truediv_if chunk_size default_bytes_per_sec /\
  inter_chunk_sleep rate chunk_size =
    Ok (SFdiv prec emax (binary_normalize prec emax chunk_size 0 false)
          default_bytes_per_sec) /\
  (forall (E : env) (duration : Z) (file : string) (fuel : nat) (len : Z)
          (end_time : float),
      data_chunk E chunk_size = Ok len ->
      add_fi (clock E 0) duration = Ok end_time ->
      exists n,
        (forall j, (j < n)%nat -> ltb (clock E (1 + 4 * j)) end_time = true) /\
        let '(out, s) := send_data_with_metrics E duration file chunk_size rate fuel in
        SenderCases.shaped E file chunk_size end_time
          (SFdiv prec emax (binary_normalize prec emax chunk_size 0 false)
             default_bytes_per_sec)
          fuel n out s).
Proof.
  intros Hrate Hsize. split; [reflexivity |].
  assert (Hfall : inter_chunk_sleep rate chunk_size =
                  truediv_if chunk_size default_bytes_per_sec).
  { destruct Hrate as [-> | [-> | ->]]; reflexivity. }
  split; [exact Hfall |].
  assert (Hsleep : inter_chunk_sleep rate chunk_size =
                   Ok (SFdiv prec emax (binary_normalize prec emax chunk_size 0 false)
                         default_bytes_per_sec)).
  { rewrite Hfall. unfold truediv_if. rewrite (of_int_ok _ Hsize). reflexivity. }
  split; [exact Hsleep |].
  intros E duration file fuel len end_time Hchunk Hend.
  exact (send_data_shape E duration file chunk_size rate fuel len end_time _
           Hchunk Hend Hsleep).
Qed.

(** With a rate of zero and chunks of 16384 bytes the loop sleeps
    [16384 / 1875000] seconds less the time spent sending. *)
Lemma zero_rate_default_pacing_witness :
  inter_chunk_sleep (Some (S754_zero false)) 16384 =
    Ok (S754_finite false 5037190915060955 (-59)) /\
  exists n,
    let '(out, s) := send_data_with_metrics Scenario.quarter_steps 3 "raw.json" 16384
                       (Some (S754_zero false)) 2 in
    SenderCases.shaped Scenario.quarter_steps "raw.json" 16384
      (S754_finite false 6755399441055744 (-51))
      (S754_finite false 5037190915060955 (-59)) 2 n out s.
Proof.
  pose proof (zero_rate_default_pacing (Some (S754_zero false)) 16384
                (or_intror (or_introl eq_refl)) eq_refl) as [_ [_ [Hsleep Hloop]]].
  split; [rewrite Hsleep; reflexivity |].
  destruct (Hloop Scenario.quarter_steps 3 "raw.json" 2%nat 16384
              (S754_finite false 6755399441055744 (-51)) eq_refl eq_refl)
    as (n & _ & Hshape).
  exists n. exact Hshape.
Defined.

End SenderFacts.

(** ** Aggregation *)

Section AggregateFacts.
Import Aggregate.
Context {num : Type} `{PyNum num}.

Lemma lookup_entry_setdefault (t t' : Z) (m : gmap Z (entry num)) :
  lookup_entry (setdefault t m) t' = lookup_entry m t'.
Proof.
  unfold lookup_entry, setdefault.
  destruct (m !! t) eqn:Ht; [reflexivity |].
  destruct (decide (t = t')) as [<- | Hne].
  - rewrite lookup_insert_eq, Ht. reflexivity.
  - rewrite lookup_insert_ne by exact Hne. reflexivity.
Qed.

Lemma setdefault_is_Some (t : Z) (m : gmap Z (entry num)) : is_Some (setdefault t m !! t).
Proof.
  unfold setdefault. destruct (m !! t) eqn:Ht.
  - rewrite Ht. eauto.
  - rewrite lookup_insert_eq. eauto.
Qed.

Lemma lookup_entry_append_rtt (t t' : Z) (r : num) (m : gmap Z (entry num)) :
  lookup_entry (append_rtt t r m) t' =
    if decide (t = t')
    then ((lookup_entry m t').1 ++ [r], (lookup_entry m t').2)
    else lookup_entry m t'.
Proof.
  unfold append_rtt. destruct (decide (t = t')) as [<- | Hne].
  - rewrite <- (lookup_entry_setdefault t t m). unfold lookup_entry.
    rewrite lookup_alter_eq.
    destruct (setdefault_is_Some t m) as [e ->]. reflexivity.
  - rewrite <- (lookup_entry_setdefault t t' m). unfold lookup_entry.
    rewrite lookup_alter_ne by exact Hne. reflexivity.
Qed.

Lemma lookup_entry_append_cwnd (t t' : Z) (c : num) (m : gmap Z (entry num)) :
  lookup_entry (append_cwnd t c m) t' =
    if decide (t = t')
    then ((lookup_entry m t').1, (lookup_entry m t').2 ++ [c])
    else lookup_entry m t'.
Proof.
  unfold append_cwnd. destruct (decide (t = t')) as [<- | Hne].
  - rewrite <- (lookup_entry_setdefault t t m). unfold lookup_entry.
    rewrite lookup_alter_eq.
    destruct (setdefault_is_Some t m) as [e ->]. reflexivity.
  - rewrite <- (lookup_entry_setdefault t t' m). unfold lookup_entry.
    rewrite lookup_alter_ne by exact Hne. reflexivity.
Qed.

(** One line adds to the entry of second [t] its own samples for [t]. *)
Lemma read_line_entry (m m' : gmap Z (entry num)) (l : line num) (t : Z) :
  read_line m l = Ok m' ->
  lookup_entry m' t =
    ((lookup_entry m t).1 ++ rtt_samples t [l],
     (lookup_entry m t).2 ++ cwnd_samples t [l]).
Proof.
  unfold rtt_samples, cwnd_samples.
  destruct l as [| | [t0 |] [r |] [c |]]; simpl; intros Hm;
    try discriminate Hm; injection Hm as <-;
    rewrite ?lookup_entry_append_cwnd, ?lookup_entry_append_rtt,
      ?lookup_entry_setdefault;
    try (destruct (lookup_entry m t); simpl; rewrite !app_nil_r; reflexivity).
  - destruct (decide (t0 = t)) as [-> | Hne].
    + rewrite Z.eqb_refl. reflexivity.
    + destruct (Z.eqb_spec t0 t); [contradiction |].
      destruct (lookup_entry m t); simpl; rewrite !app_nil_r; reflexivity.
  - destruct (decide (t0 = t)) as [-> | Hne].
    + rewrite Z.eqb_refl. simpl. rewrite app_nil_r. reflexivity.
    + destruct (Z.eqb_spec t0 t); [contradiction |].
      destruct (lookup_entry m t); simpl; rewrite !app_nil_r; reflexivity.
Qed.

Lemma read_lines_app (m : gmap Z (entry num)) (ls1 ls2 : list (line num)) :
  read_lines m (ls1 ++ ls2) = (m' ← read_lines m ls1; read_lines m' ls2).
Proof.
  revert m. induction ls1 as [| l ls1 IH]; intros m; simpl; [reflexivity |].
  destruct (read_line m l) as [m1 | e]; simpl; [apply IH | reflexivity].
Qed.

Lemma rtt_samples_cons (t : Z) (l : line num) (ls : list (line num)) :
  rtt_samples t (l :: ls) = rtt_samples t [l] ++ rtt_samples t ls.
Proof. exact (omap_app _ [l] ls). Qed.

Lemma cwnd_samples_cons (t : Z) (l : line num) (ls : list (line num)) :
  cwnd_samples t (l :: ls) = cwnd_samples t [l] ++ cwnd_samples t ls.
Proof. exact (omap_app _ [l] ls). Qed.

Lemma read_lines_entry (ls : list (line num)) :
  forall (m m' : gmap Z (entry num)) (t : Z),
    read_lines m ls = Ok m' ->
    lookup_entry m' t =
      ((lookup_entry m t).1 ++ rtt_samples t ls,
       (lookup_entry m t).2 ++ cwnd_samples t ls).
Proof.
  induction ls as [| l ls IH]; intros m m' t Hrun.
  - injection Hrun as <-. destruct (lookup_entry m t). simpl.
    rewrite !app_nil_r. reflexivity.
  - change (read_lines m (l :: ls)) with (m1 ← read_line m l; read_lines m1 ls) in Hrun.
    destruct (read_line m l) as [m1 | e] eqn:Hline; [| discriminate Hrun].
    change (read_lines m1 ls = Ok m') in Hrun.
    rewrite (IH _ _ t Hrun), (read_line_entry _ _ _ t Hline).
    cbn [fst snd]. rewrite <- !app_assoc.
    rewrite (rtt_samples_cons t l ls), (cwnd_samples_cons t l ls). reflexivity.
Qed.

(** The loop over the lines ends without an exception when every line is
    garbage or an object. *)
Lemma read_lines_total (ls : list (line num)) :
  Forall well_formed ls -> forall m, exists m', read_lines m ls = Ok m'.
Proof.
  induction 1 as [| l ls Hl _ IH]; intros m; simpl; [eauto |].
  destruct l as [| | [t |] [r |] [c |]]; simpl; try apply IH.
  exfalso. apply Hl. reflexivity.
Qed.

Lemma elem_of_sorted_keys (m : gmap Z (entry num)) (t : Z) :
  t ∈ sorted_keys m <-> is_Some (m !! t).
Proof.
  unfold sorted_keys. rewrite merge_sort_Permutation.
  change (map fst (map_to_list m)) with ((map_to_list m).*1).
  rewrite list_elem_of_fmap. split.
  - intros [[t' e] [-> Hin]]. apply elem_of_map_to_list in Hin. simpl. eauto.
  - intros [e He]. exists (t, e). split; [reflexivity |].
    apply elem_of_map_to_list. exact He.
Qed.

Lemma sorted_keys_increasing (m : gmap Z (entry num)) : StronglySorted Z.lt (sorted_keys m).
Proof.
  assert (Hnodup : NoDup (sorted_keys m)).
  { unfold sorted_keys. rewrite merge_sort_Permutation.
    apply NoDup_fst_map_to_list. }
  assert (Hsorted : StronglySorted Z.le (sorted_keys m)).
  { unfold sorted_keys. apply StronglySorted_merge_sort; apply _. }
  induction Hsorted as [| t ts Hts IH Hle]; [constructor |].
  apply NoDup_cons in Hnodup as [Hnotin Hnodup].
  constructor; [apply IH; exact Hnodup |].
  rewrite Forall_forall in Hle |- *. intros t' Hin.
  specialize (Hle t' Hin).
  assert (t <> t') by (intros ->; apply Hnotin; exact Hin). lia.
Qed.

Lemma bind_ret_r {A} (m : result A) : (x ← m; Ok x) = m.
Proof. destruct m; reflexivity. Qed.

(** *** The loop over the seconds *)

Lemma rows_Ok {B} (row : Z -> result (option (Z * B))) (ts : list Z) :
  forall l, rows row ts = Ok l ->
    Forall (fun t => exists r, row t = Ok r) ts /\
    (forall x, x ∈ l <-> exists t, t ∈ ts /\ row t = Ok (Some x)).
Proof.
  induction ts as [| t ts IH]; intros l Hrun.
  - injection Hrun as <-. split; [constructor |].
    intros x. split; [intros Hx; inversion Hx | intros (t & Ht & _); inversion Ht].
  - cbn [rows] in Hrun.
    destruct (row t) as [r |] eqn:Hrow; [| discriminate Hrun].
    destruct (rows row ts) as [rest |] eqn:Hrest; [| discriminate Hrun].
    destruct (IH rest eq_refl) as [Hall Hin].
    cbn in Hrun. injection Hrun as <-.
    split; [constructor; [eauto | exact Hall] |].
    intros x. split.
    + intros Hx. destruct r as [y |].
      * apply elem_of_cons in Hx as [-> | Hx].
        -- exists t. split; [left | exact Hrow].
        -- apply Hin in Hx as (t' & Ht' & Hrow'). exists t'. split; [right |]; assumption.
      * apply Hin in Hx as (t' & Ht' & Hrow'). exists t'. split; [right |]; assumption.
    + intros (t' & Ht' & Hrow').
      apply elem_of_cons in Ht' as [-> | Ht'].
      * rewrite Hrow in Hrow'. injection Hrow' as ->. left.
      * assert (Hx : x ∈ rest) by (apply Hin; eauto).
        destruct r; [right |]; exact Hx.
Qed.

Lemma rows_total {B} (row : Z -> result (option (Z * B))) (ts : list Z) :
  Forall (fun t => exists r, row t = Ok r) ts -> exists l, rows row ts = Ok l.
Proof.
  induction 1 as [| t ts [r Hr] _ [rest IH]]; [exists []; reflexivity |].
  cbn [rows]. rewrite Hr, IH. cbn. eauto.
Qed.

Lemma rows_raises {B} (row : Z -> result (option (Z * B))) (ts : list Z) (t : Z) (e : exn) :
  t ∈ ts -> row t = Raise e -> exists e', rows row ts = Raise e'.
Proof.
  intros Hin Hrow. induction ts as [| t' ts IH]; [inversion Hin |].
  cbn [rows]. apply elem_of_cons in Hin as [<- | Hin].
  - rewrite Hrow. eauto.
  - destruct (row t') as [r | e1]; [| eauto].
    destruct (IH Hin) as [e' ->]. eauto.
Qed.

Lemma rows_increasing {B} (row : Z -> result (option (Z * B))) (ts : list Z) :
  (forall t x, row t = Ok (Some x) -> x.1 = t) ->
  StronglySorted Z.lt ts ->
  forall l, rows row ts = Ok l -> StronglySorted Z.lt (l.*1).
Proof.
  intros Hkey. induction 1 as [| t ts Hts IH Hlt]; intros l Hrun.
  - injection Hrun as <-. constructor.
  - cbn [rows] in Hrun.
    destruct (row t) as [r |] eqn:Hrow; [| discriminate Hrun].
    destruct (rows row ts) as [rest |] eqn:Hrest; [| discriminate Hrun].
    cbn in Hrun. injection Hrun as <-.
    specialize (IH rest eq_refl).
    destruct r as [x |]; [| exact IH].
    cbn. constructor; [exact IH |].
    rewrite (Hkey _ _ Hrow). rewrite Forall_forall in Hlt |- *.
    intros k Hk. apply list_elem_of_fmap in Hk as [y [-> Hy]].
    apply (rows_Ok row ts rest Hrest) in Hy as (t' & Ht' & Hrow').
    rewrite (Hkey _ _ Hrow'). apply Hlt. exact Ht'.
Qed.

Lemma rows_skip {B} (row : Z -> result (option (Z * B))) (p : Z -> bool) (ts : list Z) :
  (forall t, p t = false -> row t = Ok None) ->
  rows row (List.filter p ts) = rows row ts.
Proof.
  intros Hskip. induction ts as [| t ts IH]; [reflexivity |].
  cbn [List.filter rows]. destruct (p t) eqn:Hp.
  - cbn [rows]. rewrite IH. reflexivity.
  - rewrite (Hskip t Hp), IH. cbn. symmetry. apply bind_ret_r.
Qed.

Lemma rows_ext {B} (row row' : Z -> result (option (Z * B))) (ts : list Z) :
  (forall t, row t = row' t) -> rows row ts = rows row' ts.
Proof.
  intros Hsame. induction ts as [| t ts IH]; [reflexivity |].
  cbn [rows]. rewrite Hsame, IH. reflexivity.
Qed.

Lemma filter_increasing (p : Z -> bool) (ts : list Z) :
  StronglySorted Z.lt ts -> StronglySorted Z.lt (List.filter p ts).
Proof.
  induction 1 as [| t ts Hts IH Hlt]; [constructor |].
  cbn [List.filter]. destruct (p t); [| exact IH].
  constructor; [exact IH |].
  rewrite Forall_forall in Hlt |- *. intros t' Hin.
  apply list_elem_of_In, List.filter_In in Hin as [Hin _].
  apply Hlt, list_elem_of_In, Hin.
Qed.

(** Lists in strictly increasing order with the same elements are equal. *)
Lemma increasing_unique (l l' : list Z) :
  StronglySorted Z.lt l -> StronglySorted Z.lt l' ->
  (forall x, x ∈ l <-> x ∈ l') -> l = l'.
Proof.
  revert l'. induction l as [| x xs IH]; intros l' Hl Hl' Hsame.
  - destruct l' as [| y ys]; [reflexivity |].
    exfalso. assert (Hy : y ∈ []) by (apply Hsame; left). inversion Hy.
  - destruct l' as [| y ys].
    { exfalso. assert (Hx : x ∈ []) by (apply Hsame; left). inversion Hx. }
    apply StronglySorted_cons in Hl as [Hx Hxs].
    apply StronglySorted_cons in Hl' as [Hy Hys].
    rewrite Forall_forall in Hx, Hy.
    assert (Hxy : x = y).
    { assert (Hx' : x ∈ y :: ys) by (apply Hsame; left).
      assert (Hy' : y ∈ x :: xs) by (apply Hsame; left).
      apply elem_of_cons in Hx' as [Heq | Hx']; [exact Heq |].
      apply elem_of_cons in Hy' as [Heq | Hy']; [symmetry; exact Heq |].
      specialize (Hx y Hy'). specialize (Hy x Hx'). lia. }
    subst y. f_equal. apply IH; [exact Hxs | exact Hys |].
    intros z. split; intros Hz.
    + assert (Hz' : z ∈ x :: ys) by (apply Hsame; right; exact Hz).
      apply elem_of_cons in Hz' as [-> | Hz']; [| exact Hz'].
      specialize (Hx x Hz). lia.
    + assert (Hz' : z ∈ x :: xs) by (apply Hsame; right; exact Hz).
      apply elem_of_cons in Hz' as [-> | Hz']; [| exact Hz'].
      specialize (Hy x Hz). lia.
Qed.

Lemma lookup_entry_key (m : gmap Z (entry num)) (t : Z) :
  lookup_entry m t <> ([], []) -> t ∈ sorted_keys m.
Proof.
  intros Hne. apply elem_of_sorted_keys. unfold lookup_entry in Hne.
  destruct (m !! t); [eauto | contradiction].
Qed.

Lemma rtt_row_Some (t : Z) (rtts : list num) (x : Z * num) :
  rtt_row t rtts = Ok (Some x) <->
  rtts <> [] /\ exists avg, average rtts = Ok avg /\ x = (t, py_round2 avg).
Proof.
  unfold rtt_row. destruct rtts as [| r rs].
  - split; [discriminate | intros [Hne _]; contradiction].
  - destruct (average (r :: rs)) as [avg | e]; cbn.
    + split.
      * intros [= <-]. split; [discriminate | eauto].
      * intros [_ (avg' & [= <-] & ->)]. reflexivity.
    + split; [discriminate | intros [_ (avg' & Havg & _)]; discriminate].
Qed.

Lemma cwnd_row_Some (t : Z) (cwnds : list num) (x : Z * Z) :
  cwnd_row t cwnds = Ok (Some x) <->
  cwnds <> [] /\
  exists avg window, average cwnds = Ok avg /\ py_int avg = Ok window /\ x = (t, window).
Proof.
  unfold cwnd_row. destruct cwnds as [| c cs].
  - split; [discriminate | intros [Hne _]; contradiction].
  - destruct (average (c :: cs)) as [avg | e]; cbn.
    + destruct (py_int avg) as [window | e] eqn:Hint; cbn.
      * split.
        -- intros [= <-]. split; [discriminate | eauto].
        -- intros [_ (avg' & window' & [= <-] & Hint' & ->)].
           rewrite Hint in Hint'. injection Hint' as <-. reflexivity.
      * split; [discriminate |].
        intros [_ (avg' & window' & [= <-] & Hint' & _)].
        rewrite Hint in Hint'. discriminate.
    + split; [discriminate | intros [_ (avg' & window' & Havg & _)]; discriminate].
Qed.

(** The rows of [rtt.csv] and of [cwnd.csv], in terms of the entries. *)
Lemma elem_of_rtt_rows (m : gmap Z (entry num)) (l : list (Z * num)) (t : Z) (v : num) :
  rtt_rows m = Ok l ->
  ((t, v) ∈ l <->
   (lookup_entry m t).1 <> [] /\
   exists avg, average (lookup_entry m t).1 = Ok avg /\ v = py_round2 avg).
Proof.
  intros Hrows. apply rows_Ok in Hrows as [_ Hin]. rewrite Hin. split.
  - intros (t' & _ & Hrow). apply rtt_row_Some in Hrow as [Hne (avg & Havg & [= -> ->])].
    eauto.
  - intros [Hne (avg & Havg & ->)]. exists t. split.
    + apply lookup_entry_key. intros Heq. rewrite Heq in Hne. contradiction.
    + apply rtt_row_Some. eauto.
Qed.

Lemma elem_of_cwnd_rows (m : gmap Z (entry num)) (l : list (Z * Z)) (t : Z) (w : Z) :
  cwnd_rows m = Ok l ->
  ((t, w) ∈ l <->
   (lookup_entry m t).2 <> [] /\
   exists avg, average (lookup_entry m t).2 = Ok avg /\ py_int avg = Ok w).
Proof.
  intros Hrows. apply rows_Ok in Hrows as [_ Hin]. rewrite Hin. split.
  - intros (t' & _ & Hrow).
    apply cwnd_row_Some in Hrow as [Hne (avg & window & Havg & Hint & [= -> ->])].
    eauto.
  - intros [Hne (avg & Havg & Hint)]. exists t. split.
    + apply lookup_entry_key. intros Heq. rewrite Heq in Hne. contradiction.
    + apply cwnd_row_Some. eauto 6.
Qed.

Lemma rtt_rows_increasing (m : gmap Z (entry num)) (l : list (Z * num)) :
  rtt_rows m = Ok l -> StronglySorted Z.lt (l.*1).
Proof.
  apply rows_increasing; [| apply sorted_keys_increasing].
  intros t x Hrow. apply rtt_row_Some in Hrow as [_ (avg & _ & ->)]. reflexivity.
Qed.

Lemma cwnd_rows_increasing (m : gmap Z (entry num)) (l : list (Z * Z)) :
  cwnd_rows m = Ok l -> StronglySorted Z.lt (l.*1).
Proof.
  apply rows_increasing; [| apply sorted_keys_increasing].
  intros t x Hrow. apply cwnd_row_Some in Hrow as [_ (avg & w & _ & _ & ->)]. reflexivity.
Qed.

Lemma lookup_entry_empty (t : Z) : lookup_entry (∅ : gmap Z (entry num)) t = ([], []).
Proof. unfold lookup_entry. rewrite lookup_empty. reflexivity. Qed.

(** The entries after reading a whole file. *)
Lemma read_entries (ls : list (line num)) (m : gmap Z (entry num)) (t : Z) :
  read_lines ∅ ls = Ok m ->
  lookup_entry m t = (rtt_samples t ls, cwnd_samples t ls).
Proof.
  intros Hm. rewrite (read_lines_entry ls _ _ t Hm), lookup_entry_empty. reflexivity.
Qed.

(** When every mean can be computed, both loops over the seconds end. *)
Lemma rows_defined (ls : list (line num)) (m : gmap Z (entry num)) :
  read_lines ∅ ls = Ok m -> means_defined ls ->
  exists rtt_csv cwnd_csv, rtt_rows m = Ok rtt_csv /\ cwnd_rows m = Ok cwnd_csv.
Proof.
  intros Hm [Hrtt Hcwnd].
  destruct (rows_total (fun t => rtt_row t (lookup_entry m t).1) (sorted_keys m))
    as [rtt_csv Hrows].
  { apply Forall_forall. intros t _. rewrite (read_entries ls m t Hm). cbn [fst].
    unfold rtt_row. destruct (rtt_samples t ls) as [| r rs] eqn:Hs; [eauto |].
    destruct (Hrtt t) as [avg Havg]; [rewrite Hs; discriminate |].
    rewrite Hs in Havg. rewrite Havg. cbn. eauto. }
  destruct (rows_total (fun t => cwnd_row t (lookup_entry m t).2) (sorted_keys m))
    as [cwnd_csv Hrows'].
  { apply Forall_forall. intros t _. rewrite (read_entries ls m t Hm). cbn [snd].
    unfold cwnd_row. destruct (cwnd_samples t ls) as [| c cs] eqn:Hs; [eauto |].
    destruct (Hcwnd t) as (avg & window & Havg & Hint); [rewrite Hs; discriminate |].
    rewrite Hs in Havg. rewrite Havg. cbn. rewrite Hint. cbn. eauto. }
  eauto.
Qed.

(** C9. A line that is not JSON is skipped: the output is the one of the
    file without that line, wherever the line stands; and a missing file
    makes the aggregation return with a warning, not raise. *)
Theorem malformed_line_skipped (ls1 ls2 : list (line num)) :
  aggregate_metrics (Lines (ls1 ++ NotJson :: ls2)) =
    aggregate_metrics (Lines (ls1 ++ ls2)) /\
  exists warning, aggregate_metrics (@Missing num) = Ok (Warned warning).
Proof.
  split; [| eexists; reflexivity].
  unfold aggregate_metrics. rewrite !read_lines_app.
  destruct (read_lines ∅ ls1) as [m | e]; reflexivity.
Qed.

(** C4, amended. For every raw metrics file, the value [rtt.csv] holds for a
    second [t] is the arithmetic mean of the [rtt_ms] samples of [t] rounded
    to two decimals; a second has a row exactly when it has at least one
    sample, and the rows come in increasing order of [t], one per second.
    The function returns, with both files written, whenever no line parses
    to a JSON value that is not an object and the mean of every second (and
    the [int] of every mean of congestion windows) can be computed. *)
Theorem rtt_rows_are_rounded_means (ls : list (line num)) :
  (Forall well_formed ls -> means_defined ls ->
   exists rtt_csv cwnd_csv, aggregate_metrics (Lines ls) = Ok (Written rtt_csv cwnd_csv)) /\
  (forall rtt_csv cwnd_csv,
      aggregate_metrics (Lines ls) = Ok (Written rtt_csv cwnd_csv) ->
      (forall t v, (t, v) ∈ rtt_csv <->
                   rtt_samples t ls <> [] /\
                   exists avg, average (rtt_samples t ls) = Ok avg /\
                               v = py_round2 avg) /\
      StronglySorted Z.lt (rtt_csv.*1)).
Proof.
  split.
  - intros Hls Hmeans. destruct (read_lines_total ls Hls ∅) as [m Hm].
    destruct (rows_defined ls m Hm Hmeans) as (rtt_csv & cwnd_csv & Hrtt & Hcwnd).
    exists rtt_csv, cwnd_csv.
    unfold aggregate_metrics. rewrite Hm. cbn. rewrite Hrtt. cbn. rewrite Hcwnd.
    reflexivity.
  - intros rtt_csv cwnd_csv. unfold aggregate_metrics.
    destruct (read_lines ∅ ls) as [m | e] eqn:Hm; [| discriminate]. cbn.
    destruct (rtt_rows m) as [rtt_csv' | e] eqn:Hrtt; [| discriminate]. cbn.
    destruct (cwnd_rows m) as [cwnd_csv' | e] eqn:Hcwnd; [| discriminate]. cbn.
    intros [= <- <-]. split.
    + intros t v. rewrite (elem_of_rtt_rows m _ t v Hrtt).
      rewrite (read_entries ls m t Hm). reflexivity.
    + exact (rtt_rows_increasing m _ Hrtt).
Qed.

End AggregateFacts.

Section AggregateOnNumbers.
Import F64 Aggregate.

(** Floats never make [sum] or the division by the length raise. *)
Lemma sum_of_floats (xs : list float) (acc : float) :
  fold_left (fun acc x => a ← acc; py_add a x) (map Float xs) (Ok (Float acc)) =
    Ok (Float (fold_left add xs acc)).
Proof.
  revert acc. induction xs as [| x xs IH]; intros acc; [reflexivity |].
  cbn [map fold_left]. cbn [mbind result_bind py_add]. apply IH.
Qed.

Lemma average_of_floats (x : float) (xs : list float) :
  exists avg, average (map Float (x :: xs)) = Ok (Float avg).
Proof.
  unfold average. cbn [py_sum number_ops map fold_left].
  change (Ok (Int 0) ≫= (fun a => py_add a (Float x)))
    with (Ok (Float (add zero x)) : result number).
  rewrite sum_of_floats. cbn [mbind result_bind py_truediv_len number_ops length Nat.eqb].
  eauto.
Qed.

Lemma rtt_rows_are_rounded_means_witness :
  exists rtt_csv cwnd_csv,
    aggregate_metrics (Lines four_samples) = Ok (Written rtt_csv cwnd_csv) /\
    (forall t v, (t, v) ∈ rtt_csv <->
                 rtt_samples t four_samples <> [] /\
                 exists avg, average (rtt_samples t four_samples) = Ok avg /\
                             v = py_round2 avg) /\
    StronglySorted Z.lt (rtt_csv.*1).
Proof.
  destruct (rtt_rows_are_rounded_means four_samples) as [Hwritten Hrows].
  destruct Hwritten as (rtt_csv & cwnd_csv & Hagg).
  { repeat constructor; discriminate. }
  { split.
    - intros t Hne. destruct (Z.eqb_spec 1 t) as [<- | Hneq].
      + eexists. vm_compute. reflexivity.
      + exfalso. apply Hne. unfold four_samples, rtt_samples. cbn -[Z.eqb].
        rewrite (proj2 (Z.eqb_neq 1 t) Hneq). reflexivity.
    - intros t Hne. exfalso. apply Hne. reflexivity. }
  exists rtt_csv, cwnd_csv. split; [exact Hagg |]. exact (Hrows _ _ Hagg).
Defined.

(** C4 as stated fails: for the samples [10.0, 10.0, 10.0, 10.25] of second 1
    the row written to [rtt.csv] holds [10.06], while their arithmetic mean
    is [10.0625]. *)
Lemma rtt_row_is_not_the_mean :
  aggregate_metrics (Lines four_samples) = Ok (Written [(1, Float f10_06)] []) /\
  average (rtt_samples 1 four_samples) = Ok (Float f10_0625) /\
  f10_06 <> f10_0625.
Proof. split; [| split]; [vm_compute; reflexivity | vm_compute; reflexivity | discriminate]. Qed.

Lemma cwnd_samples_of_metrics (t : Z) (records : list Sender.metric) :
  cwnd_samples t (map line_of_metric records) = [].
Proof.
  induction records as [| m records IH]; [reflexivity |].
  change (map line_of_metric (m :: records))
    with (line_of_metric m :: map line_of_metric records).
  rewrite cwnd_samples_cons, IH. reflexivity.
Qed.

Lemma rtt_samples_of_metrics (t : Z) (records : list Sender.metric) :
  exists xs, rtt_samples t (map line_of_metric records) = map Float xs /\
             ((exists m, m ∈ records /\ Sender.time m = t) -> xs <> []).
Proof.
  induction records as [| m records (xs & IH & Hne)].
  - exists []. split; [reflexivity |]. intros (m & Hm & _). inversion Hm.
  - change (map line_of_metric (m :: records))
      with (line_of_metric m :: map line_of_metric records).
    rewrite rtt_samples_cons, IH. unfold rtt_samples at 1, line_of_metric.
    cbn -[Z.eqb map].
    destruct (Z.eqb_spec (Sender.time m) t) as [Heq | Hneq].
    + exists (Sender.rtt_ms m :: xs). split; [reflexivity | discriminate].
    + exists xs. split; [reflexivity |].
      intros (m' & Hm' & Ht). apply Hne.
      apply elem_of_cons in Hm' as [-> | Hm']; [contradiction | eauto].
Qed.

(** C5, on the code. The records of a sender hold ['time'] and ['rtt_ms']
    and no ['cwnd_bytes']; aggregating them never raises and leaves
    [cwnd.csv] without any row, however many seconds have samples. *)
Theorem sender_records_give_no_cwnd_rows (records : list Sender.metric) :
  Forall (fun m => line_of_metric m =
                   Object (Some (Sender.time m)) (Some (Float (Sender.rtt_ms m))) None)
    records /\
  exists rtt_csv,
    aggregate_metrics (Lines (map line_of_metric records)) = Ok (Written rtt_csv []) /\
    forall t, (exists m, m ∈ records /\ Sender.time m = t) ->
              exists v, (t, v) ∈ rtt_csv.
Proof.
  split; [apply Forall_forall; reflexivity |].
  assert (Hwf : Forall well_formed (map line_of_metric records)).
  { apply Forall_forall. intros l Hl. apply list_elem_of_fmap in Hl as [m [-> _]].
    discriminate. }
  assert (Hmeans : means_defined (map line_of_metric records)).
  { split.
    - intros t Hne. destruct (rtt_samples_of_metrics t records) as (xs & Hxs & _).
      rewrite Hxs in *. destruct xs as [| x xs]; [contradiction |].
      destruct (average_of_floats x xs) as [avg Havg]. eauto.
    - intros t Hne. rewrite cwnd_samples_of_metrics in Hne. contradiction. }
  destruct (read_lines_total _ Hwf ∅) as [m Hm].
  destruct (rows_defined _ m Hm Hmeans) as (rtt_csv & cwnd_csv & Hrtt & Hcwnd).
  assert (Hnone : cwnd_csv = []).
  { destruct cwnd_csv as [| [t w] rest]; [reflexivity |].
    assert (Hin : (t, w) ∈ (t, w) :: rest) by left.
    apply (elem_of_cwnd_rows m _ t w Hcwnd) in Hin as [Hne _].
    rewrite (read_entries _ m t Hm) in Hne. cbn [snd] in Hne.
    rewrite cwnd_samples_of_metrics in Hne. contradiction. }
  subst cwnd_csv. exists rtt_csv. split.
  - unfold aggregate_metrics. rewrite Hm. cbn. rewrite Hrtt. cbn. rewrite Hcwnd.
    reflexivity.
  - intros t Hrecord.
    destruct (rtt_samples_of_metrics t records) as (xs & Hxs & Hne).
    specialize (Hne Hrecord). destruct xs as [| x xs]; [contradiction |].
    destruct (average_of_floats x xs) as [avg Havg].
    exists (py_round2 (Float avg)). apply (elem_of_rtt_rows m _ t _ Hrtt).
    rewrite (read_entries _ m t Hm). cbn [fst]. rewrite Hxs.
    split; [discriminate | eauto].
Qed.

End AggregateOnNumbers.

(** ** Traces *)

Section TraceFacts.
Import Trace.
Context {E : Type}.

(** A loop whose body succeeds on every element and logs one event. *)
Lemma for_each_ok {A B} (f : A -> M E B) (val : A -> B) (ev : A -> E) (xs : list A) :
  (forall x, x ∈ xs -> f x = (Ok (val x), [ev x])) ->
  for_each f xs = (Ok (map val xs), map ev xs).
Proof.
  induction xs as [| x xs IH]; intros Hf; [reflexivity |].
  simpl. rewrite (Hf x) by left. simpl.
  rewrite IH by (intros y Hy; apply Hf; right; exact Hy).
  simpl. rewrite app_nil_r. reflexivity.
Qed.

End TraceFacts.

(** ** Throughput of the monitored interfaces *)

Section ThroughputFacts.
Import F64 Aggregate Trace Run.
Context {num : Type} `{PyNum num}.

Lemma dict_get_set {V} (k k' : string) (v : V) (d : list (string * V)) :
  dict_get k' (dict_set k v d) = if decide (k = k') then Some v else dict_get k' d.
Proof.
  induction d as [| [k0 v0] d IH]; simpl.
  - destruct (decide (k = k')) as [-> | Hne].
    + rewrite String.eqb_refl. reflexivity.
    + destruct (String.eqb_spec k' k); [congruence | reflexivity].
  - destruct (String.eqb_spec k k0) as [-> | Hk]; simpl.
    + destruct (String.eqb_spec k' k0) as [-> | Hk'].
      * rewrite decide_True by reflexivity. reflexivity.
      * rewrite decide_False by congruence. reflexivity.
    + destruct (String.eqb_spec k' k0) as [-> | Hk'].
      * rewrite decide_False by congruence. reflexivity.
      * exact IH.
Qed.

Lemma dict_get_set_all {V} (f : string -> V) (ks : list string) :
  forall (d : list (string * V)) (k : string),
    dict_get k (dict_set_all f ks d) =
      if decide (k ∈ ks) then Some (f k) else dict_get k d.
Proof.
  unfold dict_set_all.
  induction ks as [| k0 ks IH]; intros d k; cbn [fold_left].
  - destruct (decide (k ∈ [])) as [Hin | _]; [inversion Hin | reflexivity].
  - rewrite IH. rewrite dict_get_set.
    destruct (decide (k ∈ ks)) as [Hin | Hnotin];
      destruct (decide (k ∈ k0 :: ks)) as [Hin' | Hnotin'];
      destruct (decide (k0 = k)) as [-> | Hne];
      try reflexivity; exfalso.
    + apply Hnotin'. right. exact Hin.
    + apply Hnotin'. right. exact Hin.
    + apply elem_of_cons in Hin' as [-> | Hin']; contradiction.
    + apply Hnotin'. left.
Qed.

(** The throughput expression of the code raises nothing for counters of
    the kernel and a positive duration, and equals the stated formula. *)
Lemma throughput_mbps_formula (before after duration : Z) :
  0 <= before <= after -> after < 2 ^ 64 ->
  0 < duration < int_limit ->
  throughput_mbps before after duration = Ok (mbps before after duration).
Proof.
  intros Hcount Hafter Hduration. unfold throughput_mbps, truediv_if, truediv_fi.
  assert (H64 : 2 ^ 64 * 8 < 2 ^ 70) by reflexivity.
  pose proof int_limit_large as Hlimit.
  rewrite (of_int_ok ((after - before) * 8)) by lia.
  cbn [mbind result_bind truediv is_zero lit_1e6].
  rewrite (of_int_ok duration) by lia. cbn [mbind result_bind].
  destruct (Z.eqb_spec duration 0); [lia |]. reflexivity.
Qed.

(** A positive duration never makes the expression divide by zero. *)
Lemma throughput_never_divides_by_zero (before after duration : Z) :
  0 < duration -> throughput_mbps before after duration <> Raise ZeroDivisionError.
Proof.
  intros Hduration. unfold throughput_mbps, truediv_if, truediv_fi.
  destruct (of_int ((after - before) * 8)) as [x | e] eqn:Hx.
  - cbn [mbind result_bind truediv is_zero lit_1e6].
    destruct (of_int duration) as [y | e] eqn:Hy.
    + cbn [mbind result_bind]. destruct (Z.eqb_spec duration 0); [lia | discriminate].
    + unfold of_int in Hy. destruct (Z.abs duration <? int_limit); [discriminate |].
      injection Hy as <-. discriminate.
  - unfold of_int in Hx. destruct (Z.abs ((after - before) * 8) <? int_limit);
      [discriminate |]. injection Hx as <-. discriminate.
Qed.

(** Lines 209-213 (and 217-221): the loop over the interfaces, when every
    second reading succeeds. *)
Lemma measure_loop (read : string -> M (event num) Z) (ev : string -> event num)
    (vb va : string -> Z) (duration : Z) (devs : list string) :
  0 < duration < int_limit ->
  (forall dev, dev ∈ devs ->
     read dev = (Ok (va dev), [ev dev]) /\ 0 <= vb dev <= va dev /\ va dev < 2 ^ 64) ->
  forall d,
    fold_each (measure_one read duration) (zip devs (map vb devs)) d =
      (Ok (dict_set_all (fun dev => mbps (vb dev) (va dev) duration) devs d),
       map ev devs).
Proof.
  intros Hduration. induction devs as [| dev devs IH]; intros Hread d; [reflexivity |].
  destruct (Hread dev ltac:(left)) as [Hdev [Hcount Hafter]].
  simpl. rewrite Hdev. simpl.
  rewrite (throughput_mbps_formula _ _ _ Hcount Hafter Hduration). simpl.
  rewrite IH by (intros dev' Hin; apply Hread; right; exact Hin). reflexivity.
Qed.

(** *** The two sleeps *)

Lemma monotonic_bounds (W : world num) (k : sleep_kind) : 0 <= monotonic W k <= 2 ^ 62.
Proof. unfold monotonic. lia. Qed.

(** A sleep raises before it starts, is interrupted, or ends. *)
Lemma time_sleep_cases (W : world num) (k : sleep_kind) (seconds : Z) :
  (exists e, time_sleep W k seconds = (Raise e, [])) \/
  time_sleep W k seconds = (Raise KeyboardInterrupt, [TimeSleep k seconds]) \/
  (time_sleep W k seconds = (Ok tt, [TimeSleep k seconds]) /\
   0 <= seconds /\ monotonic W k + seconds * 10 ^ 9 < 2 ^ 63 /\ sigint W k = false).
Proof.
  unfold time_sleep. cbv zeta.
  destruct ((seconds * 10 ^ 9 <? - 2 ^ 63) || (2 ^ 63 <=? seconds * 10 ^ 9));
    [left; eexists; reflexivity |].
  destruct (Z.ltb_spec seconds 0); [left; eexists; reflexivity |].
  destruct (Z.leb_spec (2 ^ 63) (monotonic W k + seconds * 10 ^ 9));
    [left; eexists; reflexivity |].
  right. unfold bind, emit, raise, ret. destruct (sigint W k); [left | right]; auto.
Qed.

Lemma time_sleep_ok (W : world num) (k : sleep_kind) (seconds : Z) :
  0 <= seconds -> monotonic W k + seconds * 10 ^ 9 < 2 ^ 63 -> sigint W k = false ->
  time_sleep W k seconds = (Ok tt, [TimeSleep k seconds]).
Proof.
  intros Hpos Hdeadline Hquiet. pose proof (monotonic_bounds W k) as Hup.
  unfold time_sleep. cbv zeta.
  destruct (Z.ltb_spec (seconds * 10 ^ 9) (- 2 ^ 63)); [lia |].
  destruct (Z.leb_spec (2 ^ 63) (seconds * 10 ^ 9)); [lia |]. cbn [orb].
  destruct (Z.ltb_spec seconds 0); [lia |].
  destruct (Z.leb_spec (2 ^ 63) (monotonic W k + seconds * 10 ^ 9)); [lia |].
  rewrite Hquiet. reflexivity.
Qed.

(** The settle interval of two seconds is never refused. *)
Lemma settle_sleep_ok (W : world num) :
  sigint W Settle = false -> time_sleep W Settle 2 = (Ok tt, [TimeSleep Settle 2]).
Proof.
  intros Hquiet. pose proof (monotonic_bounds W Settle).
  apply time_sleep_ok; [lia | lia | exact Hquiet].
Qed.

Lemma time_sleep_negative (W : world num) (k : sleep_kind) (seconds : Z) :
  seconds < 0 -> exists e, time_sleep W k seconds = (Raise e, []).
Proof.
  intros Hneg. unfold time_sleep. cbv zeta.
  destruct ((seconds * 10 ^ 9 <? - 2 ^ 63) || (2 ^ 63 <=? seconds * 10 ^ 9));
    [eexists; reflexivity |].
  destruct (Z.ltb_spec seconds 0); [eexists; reflexivity | lia].
Qed.

Lemma get_bytes_ok (W : world num) (p : phase) (dev : string) (v : Z) :
  tx_bytes W p dev = Ok v -> get_bytes W p dev = (Ok v, [GetBytes p dev]).
Proof. intros Hv. unfold get_bytes, bind, emit, lift. rewrite Hv. reflexivity. Qed.

Lemma get_rx_bytes_ok (W : world num) (p : phase) (dev : string) (v : Z) :
  rx_bytes W p dev = Ok v -> get_rx_bytes W p dev = (Ok v, [GetRxBytes p dev]).
Proof. intros Hv. unfold get_rx_bytes, bind, emit, lift. rewrite Hv. reflexivity. Qed.

(** C2. With counters that can be read at both snapshots and do not
    decrease, and a positive duration, the orchestrator's second loop raises
    nothing (no division by zero) and enters, for every monitored interface,
    exactly [(after - before) * 8 / 1e6 / duration], computed from the two
    readings of that interface; the same holds for the interfaces measured
    by received bytes. *)
Theorem throughput_of_counters (W : world num) (switch_interface : list string)
    (other_switch : option (list string)) (duration : Z)
    (txb txa rxb rxa : string -> Z) :
  0 < duration < int_limit ->
  NoDup (switch_interface ++ default [] other_switch) ->
  (forall dev, dev ∈ switch_interface ->
     tx_bytes W Before dev = Ok (txb dev) /\ tx_bytes W After dev = Ok (txa dev) /\
     0 <= txb dev <= txa dev /\ txa dev < 2 ^ 64) ->
  (forall dev, dev ∈ default [] other_switch ->
     rx_bytes W Before dev = Ok (rxb dev) /\ rx_bytes W After dev = Ok (rxa dev) /\
     0 <= rxb dev <= rxa dev /\ rxa dev < 2 ^ 64) ->
  exists tx1 rx1 tr0 d tr,
    snapshot_before W switch_interface other_switch = (Ok (tx1, rx1), tr0) /\
    measure W switch_interface tx1 other_switch rx1 duration = (Ok d, tr) /\
    (forall dev, dev ∈ switch_interface ->
       dict_get dev d = Some (mbps (txb dev) (txa dev) duration)) /\
    (forall dev, dev ∈ default [] other_switch ->
       dict_get dev d = Some (mbps (rxb dev) (rxa dev) duration)) /\
    (forall before after, 0 <= before <= after -> after < 2 ^ 64 ->
       throughput_mbps before after duration = Ok (mbps before after duration)) /\
    (forall before after seconds, 0 < seconds ->
       throughput_mbps before after seconds <> Raise ZeroDivisionError).
Proof.
  intros Hduration Hnodup Htx Hrx.
  apply NoDup_app in Hnodup as [_ [Hdisjoint _]].
  assert (Hbefore : for_each (get_bytes W Before) switch_interface =
                    (Ok (map txb switch_interface),
                     map (GetBytes Before) switch_interface)).
  { apply for_each_ok. intros dev Hin. apply get_bytes_ok, Htx, Hin. }
  assert (Hafter : forall d,
             fold_each (measure_one (get_bytes W After) duration)
               (zip switch_interface (map txb switch_interface)) d =
             (Ok (dict_set_all (fun dev => mbps (txb dev) (txa dev) duration)
                    switch_interface d),
              map (GetBytes After) switch_interface)).
  { apply measure_loop; [exact Hduration |]. intros dev Hin.
    destruct (Htx dev Hin) as [_ [Ha [Hcount Hlt]]].
    split; [apply get_bytes_ok, Ha | split; assumption]. }
  destruct other_switch as [others |]; simpl in Hrx, Hdisjoint.
  - assert (Hbefore' : for_each (get_rx_bytes W Before) others =
                       (Ok (map rxb others), map (GetRxBytes Before) others)).
    { apply for_each_ok. intros dev Hin. apply get_rx_bytes_ok, Hrx, Hin. }
    assert (Hafter' : forall d,
               fold_each (measure_one (get_rx_bytes W After) duration)
                 (zip others (map rxb others)) d =
               (Ok (dict_set_all (fun dev => mbps (rxb dev) (rxa dev) duration)
                      others d),
                map (GetRxBytes After) others)).
    { apply measure_loop; [exact Hduration |]. intros dev Hin.
      destruct (Hrx dev Hin) as [_ [Ha [Hcount Hlt]]].
      split; [apply get_rx_bytes_ok, Ha | split; assumption]. }
    eexists (map txb switch_interface), (map rxb others), _, _, _.
    split; [| split; [| split; [| split]]].
    + unfold snapshot_before. rewrite Hbefore. cbn [bind]. rewrite Hbefore'.
      cbn [bind ret]. reflexivity.
    + unfold measure. rewrite Hafter. cbn [bind]. rewrite Hafter'. reflexivity.
    + intros dev Hin. rewrite !dict_get_set_all.
      rewrite decide_False by (intros Hin'; exact (Hdisjoint dev Hin Hin')).
      rewrite decide_True by exact Hin. reflexivity.
    + intros dev Hin. rewrite dict_get_set_all.
      rewrite decide_True by exact Hin. reflexivity.
    + split; [| intros before after seconds; apply throughput_never_divides_by_zero].
      intros before after Hcount Hlt.
      apply throughput_mbps_formula; assumption.
  - eexists (map txb switch_interface), [], _, _, _.
    split; [| split; [| split; [| split]]].
    + unfold snapshot_before. rewrite Hbefore. cbn [bind ret]. reflexivity.
    + unfold measure. rewrite Hafter. cbn [bind ret]. reflexivity.
    + intros dev Hin. rewrite dict_get_set_all.
      rewrite decide_True by exact Hin. reflexivity.
    + intros dev Hin. inversion Hin.
    + split; [| intros before after seconds; apply throughput_never_divides_by_zero].
      intros before after Hcount Hlt.
      apply throughput_mbps_formula; assumption.
Qed.

End ThroughputFacts.

(** ** The dumbbell topology and its monitored interface *)

Section TopoFacts.
Import Topo.

Lemma host_name_not_switch (i : nat) : host_name i <> "s1" /\ host_name i <> "s2".
Proof. split; discriminate. Qed.

Lemma not_switch_host (t : topo) (i : nat) :
  switches t = ["s1"; "s2"] -> isSwitch t (host_name i) = false.
Proof.
  intros Hsw. unfold isSwitch. rewrite Hsw. apply bool_decide_eq_false.
  intros Hin. repeat (apply elem_of_cons in Hin as [Hin | Hin]; [discriminate Hin |]).
  inversion Hin.
Qed.

Lemma ports_in_use_addLink (n1 n2 : string) (o : link_opts) (t : topo) (n : string) :
  ports_in_use (addLink n1 n2 o t) n =
    if decide (n2 = n) then S (ports_in_use t n2)
    else if decide (n1 = n) then S (ports_in_use t n1)
    else ports_in_use t n.
Proof.
  unfold ports_in_use at 1.
  change (ports (addLink n1 n2 o t))
    with (<[n2 := S (ports_in_use t n2)]> (<[n1 := S (ports_in_use t n1)]> (ports t))).
  destruct (decide (n2 = n)) as [-> | Hn2].
  - rewrite lookup_insert_eq. reflexivity.
  - rewrite lookup_insert_ne by exact Hn2.
    destruct (decide (n1 = n)) as [-> | Hn1].
    + rewrite lookup_insert_eq. reflexivity.
    + rewrite lookup_insert_ne by exact Hn1. reflexivity.
Qed.

Lemma add_source_attached (t : topo) (a b i : nat) :
  hosts_attached t a b -> hosts_attached (DumbbellTopo.add_source t i) (S a) b.
Proof.
  intros [Hsw [Ha [Hb Hlinks]]].
  destruct (host_name_not_switch i) as [Hs1 Hs2].
  unfold hosts_attached, DumbbellTopo.add_source.
  rewrite !ports_in_use_addLink.
  split; [exact Hsw |]. split; [| split].
  - rewrite decide_True by reflexivity. f_equal. exact Ha.
  - rewrite decide_False by discriminate.
    rewrite decide_False by exact Hs2. exact Hb.
  - apply Forall_app. split; [exact Hlinks |].
    constructor; [| constructor]. apply (not_switch_host _ i Hsw).
Qed.

Lemma add_destination_attached (t : topo) (a b i : nat) :
  hosts_attached t a b -> hosts_attached (DumbbellTopo.add_destination t i) a (S b).
Proof.
  intros [Hsw [Ha [Hb Hlinks]]].
  destruct (host_name_not_switch i) as [Hs1 Hs2].
  unfold hosts_attached, DumbbellTopo.add_destination.
  rewrite !ports_in_use_addLink.
  split; [exact Hsw |]. split; [| split].
  - rewrite decide_False by discriminate.
    rewrite decide_False by exact Hs1. exact Ha.
  - rewrite decide_True by reflexivity. f_equal. exact Hb.
  - apply Forall_app. split; [exact Hlinks |].
    constructor; [| constructor]. apply (not_switch_host _ i Hsw).
Qed.

Lemma sources_attached (len : nat) :
  forall (k : nat) (t : topo) (a b : nat),
    hosts_attached t a b ->
    hosts_attached (fold_left DumbbellTopo.add_source (seq k len) t) (a + len) b.
Proof.
  induction len as [| len IH]; intros k t a b Ht; simpl.
  - rewrite Nat.add_0_r. exact Ht.
  - rewrite <- Nat.add_succ_comm. apply IH, add_source_attached, Ht.
Qed.

Lemma destinations_attached (len : nat) :
  forall (k : nat) (t : topo) (a b : nat),
    hosts_attached t a b ->
    hosts_attached (fold_left DumbbellTopo.add_destination (seq k len) t) a (b + len).
Proof.
  induction len as [| len IH]; intros k t a b Ht; simpl.
  - rewrite Nat.add_0_r. exact Ht.
  - rewrite <- Nat.add_succ_comm. apply IH, add_destination_attached, Ht.
Qed.

(** The only link between switches is the bottleneck; its port on [s1]
    follows the ports of the [n / 2] source hosts. *)
Lemma dumbbell_bottleneck (bw : Z) (delay : string) (loss : F64.float) (n : nat) :
  inter_switch_links (DumbbellTopo.build bw delay loss n) =
    [ {| node1 := "s1"; port1 := S (n / 2);
         node2 := "s2"; port2 := S (n - n / 2);
         opts := {| Topo.bw := bw; Topo.delay := delay; Topo.loss := loss;
                    max_queue_size := Some 100 |} |} ].
Proof.
  unfold DumbbellTopo.build.
  set (t0 := addSwitch "s2" (addSwitch "s1" empty)).
  assert (H0 : hosts_attached t0 0 0).
  { repeat split. constructor. }
  pose proof (sources_attached (n / 2) 0 t0 0 0 H0) as H1.
  set (t1 := fold_left DumbbellTopo.add_source (seq 0 (n / 2)) t0) in *.
  pose proof (destinations_attached (n - n / 2) (n / 2) t1 _ _ H1) as H2.
  set (t2 := fold_left DumbbellTopo.add_destination (seq (n / 2) (n - n / 2)) t1) in *.
  destruct H2 as [Hsw [Ha [Hb Hlinks]]]. simpl in Ha, Hb.
  unfold inter_switch_links, addLink. cbn [links switches].
  rewrite filter_app.
  assert (Hs1 : isSwitch t2 "s1" = true) by (unfold isSwitch; rewrite Hsw; reflexivity).
  assert (Hs2 : isSwitch t2 "s2" = true) by (unfold isSwitch; rewrite Hsw; reflexivity).
  unfold next_port. rewrite Ha, Hb, Hs1, Hs2.
  rewrite !Nat.add_1_r.
  match goal with |- filter ?P _ ++ _ = _ =>
    assert (Hnone : filter P (links t2) = []) end.
  { clear - Hlinks Hsw. induction Hlinks as [| l ls Hl _ IH]; [reflexivity |].
    rewrite filter_cons. rewrite decide_False; [exact IH |].
    intros [Hnode _]. unfold isSwitch in *. cbn [switches] in Hnode.
    rewrite Hl in Hnode. discriminate Hnode. }
  rewrite Hnone. cbn [app]. rewrite filter_cons, filter_nil.
  rewrite decide_True; [reflexivity |].
  unfold isSwitch. cbn [switches node1 node2]. rewrite Hsw. split; reflexivity.
Qed.

Lemma intf_name_s1_inj (p q : nat) : intf_name "s1" p = intf_name "s1" q -> p = q.
Proof.
  unfold intf_name. intros Heq. injection Heq as Heq.
  exact (pretty_nat_inj p q Heq).
Qed.

(** The hard-wired name [s1-eth21] is an interface of the bottleneck exactly
    when [s1] carries 20 source hosts. *)
Lemma monitored_is_bottleneck_iff (bw : Z) (delay : string) (loss : F64.float) (n : nat) :
  (exists l, l ∈ inter_switch_links (DumbbellTopo.build bw delay loss n) /\
             Forall (fun i => i ∈ link_interfaces l) DumbbellTopo.switch_interface) <->
  (n / 2 = 20)%nat.
Proof.
  rewrite dumbbell_bottleneck. unfold DumbbellTopo.switch_interface. split.
  - intros [l [Hl Hin]]. apply list_elem_of_singleton in Hl as ->.
    apply Forall_cons in Hin as [Hin _].
    unfold link_interfaces in Hin. cbn [node1 node2 port1 port2] in Hin.
    apply elem_of_cons in Hin as [Hin | Hin].
    + change "s1-eth21" with (intf_name "s1" 21) in Hin.
      apply intf_name_s1_inj in Hin. lia.
    + apply list_elem_of_singleton in Hin. discriminate Hin.
  - intros Hmid. eexists. split; [left |].
    constructor; [| constructor]. rewrite Hmid. left.
Qed.

End TopoFacts.

Section MonitoredInterface.
Import F64 Aggregate Trace Run Driver Scenario.
Context {num : Type} `{PyNum num}.

(** C1, on the code. In the dumbbell of 4 hosts the bottleneck link has the
    interfaces [s1-eth3] and [s2-eth3], but the monitored list names
    [s1-eth21], which no switch of that network has: the first counter
    reading fails, [main] logs the error and stops the network, and no
    [switches.csv] is written.  In general the monitored name belongs to the
    bottleneck exactly when [s1] carries 20 source hosts. *)
Theorem dumbbell_four_hosts_monitors_no_interface :
  map Topo.link_interfaces (Topo.inter_switch_links (graph dumbbell4)) =
    [["s1-eth3"; "s2-eth3"]] /\
  switch_interface dumbbell4 = ["s1-eth21"] /\
  ("s1-eth21" ∉ Topo.switch_interfaces (graph dumbbell4)) /\
  (forall (counter : phase -> string -> Z) (ctrl_c : sleep_kind -> bool)
          (raw : metrics_file num) (up : sleep_kind -> Z),
      main {| tx_bytes := sysfs (graph dumbbell4) counter;
              rx_bytes := sysfs (graph dumbbell4) counter;
              sigint := ctrl_c;
              raw_metrics := raw;
              uptime := up |} dumbbell4 10 5 4 =
        (Ok tt, [NetStart; GetBytes Before "s1-eth21";
                 ErrorLogged FileNotFoundError; NetStop])) /\
  (forall (bw : Z) (delay : string) (loss : float) (n : nat),
      (exists l, l ∈ Topo.inter_switch_links (Topo.DumbbellTopo.build bw delay loss n) /\
                 Forall (fun i => i ∈ Topo.link_interfaces l)
                   Topo.DumbbellTopo.switch_interface) <->
      (n / 2 = 20)%nat).
Proof.
  split; [vm_compute; reflexivity |].
  split; [reflexivity |].
  split; [| split].
  - intros Hin. vm_compute in Hin.
    repeat (apply elem_of_cons in Hin as [Hin | Hin]; [discriminate Hin |]).
    inversion Hin.
  - intros counter ctrl_c raw up. vm_compute. reflexivity.
  - apply monitored_is_bottleneck_iff.
Qed.

End MonitoredInterface.

(** ** The order of the events of a run *)

Section OrderFacts.
Import F64 Aggregate Trace Run RunCases.
Context {num : Type} `{PyNum num}.
Variable duration : Z.

Lemma for_each_events {E A B} (f : A -> M E B) (val : A -> B) (evs : A -> list E)
    (xs : list A) :
  (forall x, x ∈ xs -> f x = (Ok (val x), evs x)) ->
  for_each f xs = (Ok (map val xs), concat (map evs xs)).
Proof.
  induction xs as [| x xs IH]; intros Hf; [reflexivity |].
  cbn [for_each map concat]. rewrite (Hf x) by left. cbn [bind].
  rewrite IH by (intros y Hy; apply Hf; right; exact Hy).
  cbn [bind ret]. rewrite app_nil_r. reflexivity.
Qed.

(** The loop of lines 185-197 from index [k] on. *)
Lemma clients_from (s1_hosts s2_hosts : list string) (rate : float) (len : nat) :
  forall k,
  exists units,
    for_each (fun i =>
       match s1_hosts !! i with
       | None => raise IndexError
       | Some source =>
           match s2_hosts !! i with
           | None => raise IndexError
           | Some dest => emit (Cmd (num := num) source (QuicClient dest rate))
           end
       end) (seq k len) =
    ((if decide (len <= length (drop k s1_hosts) /\ len <= length (drop k s2_hosts))%nat
      then Ok units else Raise IndexError),
     client_cmds (take len (drop k s1_hosts)) (take len (drop k s2_hosts)) rate).
Proof.
  induction len as [| len IH]; intros k.
  - exists []. cbn [seq for_each]. rewrite decide_True by (split; lia). reflexivity.
  - cbn [seq for_each].
    destruct (s1_hosts !! k) as [source |] eqn:Hs1.
    + destruct (s2_hosts !! k) as [dest |] eqn:Hs2.
      * destruct (IH (S k)) as [units Hrest]. rewrite Hrest.
        rewrite (drop_S _ _ _ Hs1), (drop_S _ _ _ Hs2). cbn [length take].
        unfold client_cmds. cbn [zip_with bind emit ret app].
        destruct (decide (len <= length (drop (S k) s1_hosts) /\
                          len <= length (drop (S k) s2_hosts))%nat) as [Hlen | Hlen].
        -- exists (tt :: units). rewrite decide_True by lia.
           cbn [bind ret]. rewrite app_nil_r. reflexivity.
        -- exists []. rewrite decide_False by lia. reflexivity.
      * exists []. apply lookup_ge_None in Hs2.
        rewrite (drop_ge s2_hosts k) by lia. cbn [length].
        rewrite decide_False by lia.
        unfold client_cmds. rewrite take_nil.
        destruct (take (S len) (drop k s1_hosts)); reflexivity.
    + exists []. apply lookup_ge_None in Hs1.
      rewrite (drop_ge s1_hosts k) by lia. cbn [length].
      rewrite decide_False by lia. unfold client_cmds. rewrite take_nil. reflexivity.
Qed.

Lemma client_cmds_take (s1_hosts s2_hosts : list string) (rate : float) (n : nat) :
  (length s1_hosts <= n)%nat ->
  client_cmds (num := num) s1_hosts (take n s2_hosts) rate =
    client_cmds s1_hosts s2_hosts rate.
Proof.
  unfold client_cmds. revert s2_hosts n.
  induction s1_hosts as [| source s1_hosts IH]; intros s2_hosts n Hlen; [reflexivity |].
  destruct n as [| n]; [cbn [length] in Hlen; lia |].
  destruct s2_hosts as [| dest s2_hosts]; [reflexivity |].
  cbn [take zip_with]. f_equal. apply IH. cbn [length] in Hlen. lia.
Qed.

Lemma staged_nil (lo hi : nat) : staged (num := num) duration lo hi [].
Proof. split; constructor. Qed.

Lemma staged_one (ev : event num) (lo hi : nat) :
  (lo <= stage ev <= hi)%nat -> sleeps_as_coded duration ev ->
  staged duration lo hi [ev].
Proof.
  intros Hstage Hsleep. split.
  - constructor; [split; assumption | constructor].
  - constructor; constructor.
Qed.

Lemma staged_app (lo mid hi : nat) (tr1 tr2 : list (event num)) :
  (lo <= mid <= hi)%nat ->
  staged duration lo mid tr1 -> staged duration mid hi tr2 ->
  staged duration lo hi (tr1 ++ tr2).
Proof.
  intros Hmid [Hall1 Hsorted1] [Hall2 Hsorted2].
  rewrite Forall_forall in Hall1, Hall2. split.
  - apply Forall_forall. intros ev Hin. apply elem_of_app in Hin as [Hin | Hin].
    + destruct (Hall1 ev Hin) as [Hstage Hsleep]. split; [lia | exact Hsleep].
    + destruct (Hall2 ev Hin) as [Hstage Hsleep]. split; [lia | exact Hsleep].
  - apply StronglySorted_app_2; [| assumption | assumption].
    intros x y Hx Hy.
    destruct (Hall1 x Hx) as [Hsx _]. destruct (Hall2 y Hy) as [Hsy _]. lia.
Qed.

Lemma staged_weaken (lo lo' hi hi' : nat) (tr : list (event num)) :
  (lo' <= lo)%nat -> (hi <= hi')%nat ->
  staged duration lo hi tr -> staged duration lo' hi' tr.
Proof.
  intros Hlo Hhi [Hall Hsorted]. split; [| exact Hsorted].
  eapply Forall_impl; [exact Hall |]. intros ev [Hstage Hsleep].
  split; [lia | exact Hsleep].
Qed.

(** Sequencing: the stages of [m] lie below the stages of what follows. *)
Lemma staged_bind {A B} (mid lo hi : nat) (m : M (event num) A)
    (f : A -> M (event num) B) :
  (lo <= mid <= hi)%nat ->
  staged duration lo mid m.2 ->
  (forall a, staged duration mid hi (f a).2) ->
  staged duration lo hi (bind m f).2.
Proof.
  intros Hmid Hm Hf. destruct m as [[a | e] tr]; simpl in *.
  - specialize (Hf a). destruct (f a) as [r tr']. simpl in *.
    eapply staged_app; [exact Hmid | exact Hm | exact Hf].
  - eapply staged_weaken; [| | exact Hm]; lia.
Qed.

Lemma staged_emit (ev : event num) (lo hi : nat) :
  (lo <= stage ev <= hi)%nat -> sleeps_as_coded duration ev ->
  staged duration lo hi (emit ev).2.
Proof. apply staged_one. Qed.

Lemma staged_for_each {A B} (k : nat) (f : A -> M (event num) B) (xs : list A) :
  (forall x, staged duration k k (f x).2) ->
  staged duration k k (for_each f xs).2.
Proof.
  intros Hf. induction xs as [| x xs IH]; [apply staged_nil |].
  cbn [for_each]. apply (staged_bind k); [lia | apply Hf |].
  intros y. apply (staged_bind k); [lia | exact IH |].
  intros ys. apply staged_nil.
Qed.

Lemma staged_fold_each {A S} (k : nat) (f : S -> A -> M (event num) S) (xs : list A) :
  (forall s x, staged duration k k (f s x).2) ->
  forall s, staged duration k k (fold_each f xs s).2.
Proof.
  intros Hf. induction xs as [| x xs IH]; intros s; [apply staged_nil |].
  cbn [fold_each]. apply (staged_bind k); [lia | apply Hf | exact IH].
Qed.

Lemma staged_get_bytes (W : world num) (p : phase) (dev : string) :
  staged duration (stage (GetBytes (num := num) p dev))
    (stage (GetBytes (num := num) p dev)) (get_bytes W p dev).2.
Proof.
  unfold get_bytes. eapply staged_bind; [| apply staged_emit | intros; apply staged_nil].
  - split; reflexivity.
  - split; reflexivity.
  - destruct p; exact I.
Qed.

Lemma staged_get_rx_bytes (W : world num) (p : phase) (dev : string) :
  staged duration (stage (GetRxBytes (num := num) p dev))
    (stage (GetRxBytes (num := num) p dev)) (get_rx_bytes W p dev).2.
Proof.
  unfold get_rx_bytes.
  eapply staged_bind; [| apply staged_emit | intros; apply staged_nil].
  - split; reflexivity.
  - split; reflexivity.
  - destruct p; exact I.
Qed.

Lemma staged_snapshot_before (W : world num) (ifaces : list string)
    (others : option (list string)) :
  staged duration 0 0 (snapshot_before W ifaces others).2.
Proof.
  unfold snapshot_before. apply (staged_bind 0%nat); [lia | |].
  - apply staged_for_each. intros dev. apply (staged_get_bytes W Before).
  - intros tx1. apply (staged_bind 0%nat); [lia | | intros; apply staged_nil].
    destruct others as [others |]; [| apply staged_nil].
    apply staged_for_each. intros dev. apply (staged_get_rx_bytes W Before).
Qed.

Lemma staged_time_sleep (W : world num) (k : sleep_kind) (seconds : Z) :
  sleeps_as_coded duration (TimeSleep (num := num) k seconds) ->
  staged duration (stage (TimeSleep (num := num) k seconds))
    (stage (TimeSleep (num := num) k seconds)) (time_sleep W k seconds).2.
Proof.
  intros Hsleep.
  destruct (time_sleep_cases W k seconds) as [[e ->] | [-> | [-> _]]];
    [apply staged_nil | |]; apply staged_one; try exact Hsleep; split; reflexivity.
Qed.

Lemma staged_start_servers (W : world num) (s2_hosts : list string) :
  staged duration 1 3 (start_servers W s2_hosts).2.
Proof.
  unfold start_servers. apply (staged_bind 1%nat); [lia | |].
  - apply staged_for_each. intros h. unfold generate_certificates.
    apply (staged_bind 1%nat); [lia | |]; intros; apply staged_emit;
      (split; [reflexivity | reflexivity]) || exact I.
  - intros _. apply (staged_bind 2%nat); [lia | |].
    + eapply staged_weaken; [| | apply (staged_for_each 2%nat)]; [lia | lia |].
      intros h. apply staged_emit; [split; reflexivity | exact I].
    + intros _. eapply staged_weaken; [| | apply (staged_time_sleep W Settle 2)];
        [simpl; lia | simpl; lia | reflexivity].
Qed.

Lemma staged_start_clients (mid : nat) (s1_hosts s2_hosts : list string) (rate : float) :
  staged (num := num) duration 5 5 (start_clients mid s1_hosts s2_hosts rate).2.
Proof.
  unfold start_clients. apply (staged_bind 5%nat); [lia | | intros; apply staged_nil].
  apply staged_for_each. intros i.
  destruct (s1_hosts !! i) as [source |]; [| apply staged_nil].
  destruct (s2_hosts !! i) as [dest |]; [| apply staged_nil].
  apply staged_emit; [split; reflexivity | exact I].
Qed.

Lemma staged_measure_one (read : string -> M (event num) Z)
    (d : list (string * float)) (dev_before : string * Z) :
  (forall dev, staged duration 7 7 (read dev).2) ->
  staged duration 7 7 (measure_one read duration d dev_before).2.
Proof.
  intros Hread. destruct dev_before as [dev before]. unfold measure_one.
  apply (staged_bind 7%nat); [lia | apply Hread |].
  intros after. apply (staged_bind 7%nat); [lia | apply staged_nil |].
  intros throughput. apply staged_nil.
Qed.

Lemma staged_measure (W : world num) (ifaces : list string) (tx1 : list Z)
    (others : option (list string)) (rx1 : list Z) :
  staged duration 7 7 (measure W ifaces tx1 others rx1 duration).2.
Proof.
  unfold measure. apply (staged_bind 7%nat); [lia | |].
  - apply staged_fold_each. intros d dev_before. apply staged_measure_one.
    intros dev. apply (staged_get_bytes W After).
  - intros d. destruct others as [others |]; [| apply staged_nil].
    apply staged_fold_each. intros d' dev_before. apply staged_measure_one.
    intros dev. apply (staged_get_rx_bytes W After).
Qed.

Lemma staged_teardown (hosts s2_hosts : list string) :
  staged (num := num) duration 10 12 (teardown hosts s2_hosts).2.
Proof.
  unfold teardown. apply (staged_bind 10%nat); [lia | |].
  - apply staged_for_each. intros h.
    apply staged_emit; [split; reflexivity | exact I].
  - intros _. apply (staged_bind 11%nat); [lia | |].
    + eapply staged_weaken; [| | apply (staged_for_each 11%nat)]; [lia | lia |].
      intros h. apply staged_emit; [split; reflexivity | exact I].
    + intros _. apply staged_emit; [split; simpl; lia | exact I].
Qed.

(** The events of a run come in stage order, whatever the world does and
    wherever the run stops. *)
Lemma staged_run (W : world num) (hosts : list string) (number_of_hosts : nat)
    (ifaces : list string) (others : option (list string)) (bandwidth : Z) :
  staged duration 0 12
    (run_quic_experiments W hosts number_of_hosts ifaces duration others bandwidth).2.
Proof.
  unfold run_quic_experiments.
  apply (staged_bind 0%nat); [lia | apply staged_snapshot_before |].
  intros [tx1 rx1].
  apply (staged_bind 3%nat); [lia | |].
  { eapply staged_weaken; [| | apply staged_start_servers]; lia. }
  intros _. apply (staged_bind 4%nat); [lia | |].
  { apply staged_emit; [split; simpl; lia | exact I]. }
  intros _. apply (staged_bind 4%nat); [lia | apply staged_nil |].
  intros rate. apply (staged_bind 5%nat); [lia | |].
  { eapply staged_weaken; [| | apply staged_start_clients]; lia. }
  intros _. apply (staged_bind 6%nat); [lia | |].
  { eapply staged_weaken; [| | apply (staged_time_sleep W Window (duration + 4))];
      [simpl; lia | simpl; lia | reflexivity]. }
  intros _. apply (staged_bind 7%nat); [lia | |].
  { eapply staged_weaken; [| | apply staged_measure]; lia. }
  intros d. apply (staged_bind 7%nat); [lia | apply staged_nil |].
  intros r. apply (staged_bind 8%nat); [lia | |].
  { apply staged_emit; [split; simpl; lia | exact I]. }
  intros _. apply (staged_bind 9%nat); [lia | |].
  { apply staged_emit; [split; simpl; lia | exact I]. }
  intros _. apply (staged_bind 12%nat); [lia | |].
  { eapply staged_weaken; [| | apply staged_teardown]; lia. }
  intros _. apply staged_nil.
Qed.

Lemma StronglySorted_lookup {A} (R : relation A) (l : list A) :
  StronglySorted R l ->
  forall i j x y, (i < j)%nat -> l !! i = Some x -> l !! j = Some y -> R x y.
Proof.
  induction 1 as [| a l Hsorted IH Hall]; intros i j x y Hlt Hi Hj.
  - rewrite lookup_nil in Hi. discriminate Hi.
  - destruct j as [| j]; [lia |]. simpl in Hj. destruct i as [| i].
    + injection Hi as <-. rewrite Forall_forall in Hall.
      apply Hall. eapply list_elem_of_lookup_2. exact Hj.
    + simpl in Hi. apply (IH i j); [lia | exact Hi | exact Hj].
Qed.

Lemma staged_precedes (lo hi : nat) (P Q : event num -> Prop) (tr : list (event num)) :
  staged duration lo hi tr ->
  (forall x y, P x -> Q y -> (stage x < stage y)%nat) ->
  precedes P Q tr.
Proof.
  intros [_ Hsorted] Hstages i j x y Hi Hj Hx Hy.
  specialize (Hstages x y Hx Hy).
  destruct (Nat.lt_trichotomy i j) as [Hlt | [-> | Hgt]]; [exact Hlt | |].
  - rewrite Hi in Hj. injection Hj as ->. lia.
  - pose proof (StronglySorted_lookup _ _ Hsorted j i y x Hgt Hj Hi) as Hle.
    simpl in Hle. lia.
Qed.

(** *** How far a run has got

    Each step of the run leaves the same events behind whenever it returns,
    so the trace of a run that went past a step starts with them. *)

Lemma for_each_trace {A B} (f : A -> M (event num) B) (ev : A -> event num)
    (xs : list A) :
  (forall x, exists r, f x = (r, [ev x])) ->
  forall ys tr, for_each f xs = (Ok ys, tr) -> tr = map ev xs.
Proof.
  intros Hf. induction xs as [| x xs IH]; intros ys tr Hrun.
  - injection Hrun as _ <-. reflexivity.
  - cbn [for_each] in Hrun. destruct (Hf x) as [[y | e] Hx]; rewrite Hx in Hrun;
      cbn [bind] in Hrun; [| discriminate Hrun].
    destruct (for_each f xs) as [[ys' | e] tr'] eqn:Hxs; cbn [bind ret] in Hrun;
      [| discriminate Hrun].
    injection Hrun as _ <-. rewrite (IH ys' tr' eq_refl), app_nil_r. reflexivity.
Qed.

Lemma snapshot_trace (W : world num) (ifaces : list string)
    (others : option (list string)) (p : list Z * list Z) (tr : list (event num)) :
  snapshot_before W ifaces others = (Ok p, tr) ->
  tr = first_snapshot ifaces (default [] others).
Proof.
  unfold snapshot_before, first_snapshot. intros Hrun.
  destruct (for_each (get_bytes W Before) ifaces) as [[tx1 | e] tr1] eqn:Htx;
    cbn [bind] in Hrun; [| discriminate Hrun].
  apply (for_each_trace _ (GetBytes Before)) in Htx;
    [| intros dev; eexists; reflexivity].
  destruct others as [others |]; cbn [default map].
  - destruct (for_each (get_rx_bytes W Before) others) as [[rx1 | e] tr2] eqn:Hrx;
      cbn [bind ret] in Hrun; [| discriminate Hrun].
    apply (for_each_trace _ (GetRxBytes Before)) in Hrx;
      [| intros dev; eexists; reflexivity].
    injection Hrun as _ <-. rewrite Htx, Hrx, app_nil_r. reflexivity.
  - cbn [bind ret] in Hrun. injection Hrun as _ <-. rewrite Htx. reflexivity.
Qed.

Lemma servers_trace (W : world num) (s2_hosts : list string) (tr : list (event num)) :
  start_servers W s2_hosts = (Ok tt, tr) ->
  tr = servers_started s2_hosts /\ sigint W Settle = false.
Proof.
  unfold start_servers, servers_started.
  rewrite (for_each_events _ (fun _ => tt)
             (fun h => [Cmd h MkdirCerts; Cmd h OpensslReq])) by reflexivity.
  cbn [bind].
  rewrite (for_each_ok _ (fun _ => tt) (fun h => Cmd (num := num) h QuicServer))
    by reflexivity.
  cbn [bind].
  destruct (time_sleep_cases W Settle 2) as [[e ->] | [-> | [-> (_ & _ & Hquiet)]]];
    intros [= <-]. split; [reflexivity | exact Hquiet].
Qed.

Lemma clients_trace (mid : nat) (s1_hosts s2_hosts : list string) (rate : float) :
  start_clients (num := num) mid s1_hosts s2_hosts rate =
    ((if decide (mid <= length s1_hosts /\ mid <= length s2_hosts)%nat
      then Ok tt else Raise IndexError),
     client_cmds (take mid s1_hosts) (take mid s2_hosts) rate).
Proof.
  unfold start_clients.
  destruct (clients_from s1_hosts s2_hosts rate mid 0) as [units Hloop].
  rewrite Hloop. rewrite !drop_0.
  destruct (decide (mid <= length s1_hosts /\ mid <= length s2_hosts)%nat);
    cbn [bind ret]; rewrite ?app_nil_r; reflexivity.
Qed.

Lemma staged_after_window (W : world num) (hosts s2_hosts ifaces : list string)
    (tx1 rx1 : list Z) (others : option (list string)) :
  staged duration 7 12
    (bind (measure W ifaces tx1 others rx1 duration) (fun switch_throughput =>
     bind (lift (aggregate_metrics (raw_metrics W))) (fun r =>
     bind (emit (Aggregated r)) (fun _ =>
     bind (save_switch_throughput switch_throughput duration) (fun _ =>
     bind (teardown hosts s2_hosts) (fun _ =>
     ret switch_throughput)))))).2.
Proof.
  apply (staged_bind 7%nat); [lia | apply staged_measure |].
  intros d. apply (staged_bind 7%nat); [lia | apply staged_nil |].
  intros r. apply (staged_bind 8%nat); [lia | |].
  { apply staged_emit; [split; simpl; lia | exact I]. }
  intros _. apply (staged_bind 9%nat); [lia | |].
  { apply staged_emit; [split; simpl; lia | exact I]. }
  intros _. apply (staged_bind 12%nat); [lia | |].
  { eapply staged_weaken; [| | apply staged_teardown]; lia. }
  intros _. apply staged_nil.
Qed.

(** A run stops in its first snapshot; or after it, before a sender is
    started; or among the senders and the sleep of [duration + 4]; or it
    gets past that sleep. *)
Lemma run_cases (W : world num) (hosts : list string) (number_of_hosts : nat)
    (ifaces : list string) (others : option (list string)) (bandwidth : Z) :
  let tr := (run_quic_experiments W hosts number_of_hosts ifaces duration others
               bandwidth).2 in
  let mid := (number_of_hosts / 2)%nat in
  let s1_hosts := take mid hosts in
  let s2_hosts := drop mid hosts in
  staged duration 0 0 tr \/
  (exists rest,
      tr = first_snapshot ifaces (default [] others) ++ rest /\
      staged duration 1 4 rest) \/
  (exists rest,
      sigint W Settle = false /\
      tr = first_snapshot ifaces (default [] others) ++ servers_started s2_hosts ++
           [MakeDirs] ++ rest /\
      staged duration 5 6 rest) \/
  (exists rate rest,
      sigint W Settle = false /\ sigint W Window = false /\
      truediv_ii bandwidth (Z.of_nat (length s1_hosts)) = Ok rate /\
      length (client_cmds (num := num) s1_hosts s2_hosts rate) = mid /\
      tr = first_snapshot ifaces (default [] others) ++ servers_started s2_hosts ++
           [MakeDirs] ++ client_cmds s1_hosts s2_hosts rate ++
           [TimeSleep Window (duration + 4)] ++ rest /\
      staged duration 7 12 rest).
Proof.
  intros tr mid s1_hosts s2_hosts.
  assert (Htr : tr = (run_quic_experiments W hosts number_of_hosts ifaces duration
                        others bandwidth).2) by reflexivity.
  clearbody tr. unfold run_quic_experiments in Htr.
  pose proof (staged_snapshot_before W ifaces others) as H0.
  destruct (snapshot_before W ifaces others) as [[[tx1 rx1] | e] tr0] eqn:Hsnap;
    [| left; subst tr; exact H0].
  unfold bind at 1 in Htr. cbv beta iota zeta in Htr.
  fold mid in Htr. fold s1_hosts in Htr. fold s2_hosts in Htr.
  pose proof (staged_after_window W hosts s2_hosts ifaces tx1 rx1 others) as Hrest.
  match type of Hrest with staged _ _ _ (snd ?m) => destruct m as [r rest] end.
  cbn [snd] in Hrest, H0.
  apply snapshot_trace in Hsnap. subst tr0. right.
  pose proof (staged_start_servers W s2_hosts) as H1.
  destruct (start_servers W s2_hosts) as [[[] | e] tr1] eqn:Hservers;
    cbn [bind snd emit] in Htr, H1.
  2:{ left. exists tr1. split; [exact Htr |].
      eapply staged_weaken; [| | exact H1]; lia. }
  apply servers_trace in Hservers as [-> Hsettle].
  destruct (truediv_ii bandwidth (Z.of_nat (length s1_hosts))) as [rate | e] eqn:Hrate;
    cbn [bind lift snd raise ret app] in Htr.
  2:{ left. eexists. split; [exact Htr |].
      apply (staged_app 1 3 4); [lia | |].
      - eapply staged_weaken; [| | exact H1]; lia.
      - apply staged_one; [cbn; lia | exact I]. }
  right. rewrite clients_trace in Htr.
  assert (Hclients : staged duration 5 5
                       (client_cmds (num := num) (take mid s1_hosts) (take mid s2_hosts)
                          rate)).
  { pose proof (staged_start_clients mid s1_hosts s2_hosts rate) as Hc.
    rewrite clients_trace in Hc. exact Hc. }
  destruct (decide (mid <= length s1_hosts /\ mid <= length s2_hosts)%nat)
    as [Hlen | Hlen]; cbn [bind snd app] in Htr.
  2:{ left. eexists. split; [exact Hsettle |]. split.
      - rewrite Htr, <- ?app_assoc. reflexivity.
      - eapply staged_weaken; [| | exact Hclients]; lia. }
  assert (Htake : client_cmds (num := num) (take mid s1_hosts) (take mid s2_hosts) rate =
                  client_cmds s1_hosts s2_hosts rate).
  { rewrite (take_ge s1_hosts) by (subst s1_hosts; rewrite length_take; lia).
    apply client_cmds_take. subst s1_hosts. rewrite length_take. lia. }
  rewrite Htake in Htr, Hclients.
  destruct (time_sleep_cases W Window (duration + 4))
    as [[e Hsleep] | [Hsleep | [Hsleep (_ & _ & Hwindow)]]]; rewrite Hsleep in Htr;
    cbn [bind snd app] in Htr.
  - left. eexists. split; [exact Hsettle |]. split.
    + rewrite Htr, <- ?app_assoc. reflexivity.
    + rewrite app_nil_r. eapply staged_weaken; [| | exact Hclients]; lia.
  - left. eexists. split; [exact Hsettle |]. split.
    + rewrite Htr, <- ?app_assoc. reflexivity.
    + apply (staged_app 5 5 6); [lia | exact Hclients |].
      apply staged_one; [cbn; lia | reflexivity].
  - right. exists rate, rest.
    split; [exact Hsettle |]. split; [exact Hwindow |]. split; [reflexivity |].
    split; [| split; [| exact Hrest]].
    + unfold client_cmds. rewrite length_zip_with.
      subst s1_hosts. rewrite length_take in *. lia.
    + rewrite Htr, <- ?app_assoc. reflexivity.
Qed.

Lemma staged_stage (lo hi : nat) (tr : list (event num)) (ev : event num) :
  staged duration lo hi tr -> ev ∈ tr -> (lo <= stage ev <= hi)%nat.
Proof.
  intros [Hall _] Hin. rewrite Forall_forall in Hall. apply (Hall ev Hin).
Qed.

(** C6, amended. In every run, complete or cut short, the first snapshot of
    the counters is taken at the very start: before any receiver is started,
    before the settle interval of 2 seconds and before any sender is started.
    The second snapshot is taken after every sender was started and after the
    sleep of [duration + 4] seconds.  These steps do take place: anything
    that follows the first snapshot finds every counter read; a sender is
    started only once certificates and a server are on every destination
    and the settle interval of 2 seconds has ended; and a counter is read a
    second time only once every source has its sender and the sleep of
    [duration + 4] seconds has ended, uninterrupted. *)
Theorem snapshot_order (W : world num) (hosts : list string) (number_of_hosts : nat)
    (switch_interface : list string) (other_switch : option (list string))
    (bandwidth : Z) :
  let tr := (run_quic_experiments W hosts number_of_hosts switch_interface
               duration other_switch bandwidth).2 in
  let mid := (number_of_hosts / 2)%nat in
  let s1_hosts := take mid hosts in
  let s2_hosts := drop mid hosts in
  let snapshot := first_snapshot switch_interface (default [] other_switch) in
  precedes before_snapshot receiver_start tr /\
  precedes before_snapshot settle_sleep tr /\
  precedes before_snapshot sender_start tr /\
  precedes sender_start window_sleep tr /\
  precedes sender_start after_snapshot tr /\
  precedes window_sleep after_snapshot tr /\
  Forall (sleeps_as_coded duration) tr /\
  (forall ev, ev ∈ tr -> (1 <= stage ev)%nat ->
     exists rest, tr = snapshot ++ rest) /\
  (forall ev, ev ∈ tr -> sender_start ev ->
     sigint W Settle = false /\
     exists rest, tr = snapshot ++ servers_started s2_hosts ++ [MakeDirs] ++ rest) /\
  (forall ev, ev ∈ tr -> after_snapshot ev ->
     sigint W Settle = false /\ sigint W Window = false /\
     exists rate rest,
       truediv_ii bandwidth (Z.of_nat (length s1_hosts)) = Ok rate /\
       length (client_cmds (num := num) s1_hosts s2_hosts rate) = mid /\
       tr = snapshot ++ servers_started s2_hosts ++ [MakeDirs] ++
            client_cmds s1_hosts s2_hosts rate ++
            [TimeSleep Window (duration + 4)] ++ rest /\
       Forall (fun ev' => ~ before_snapshot ev' /\ ~ sender_start ev' /\
                          ~ window_sleep ev') rest).
Proof.
  intros tr mid s1_hosts s2_hosts snapshot.
  pose proof (staged_run W hosts number_of_hosts switch_interface other_switch
                bandwidth) as Hstaged.
  pose proof (run_cases W hosts number_of_hosts switch_interface other_switch
                bandwidth) as Hcases.
  fold tr in Hstaged. cbv zeta in Hcases.
  fold tr mid in Hcases. fold s1_hosts s2_hosts in Hcases. fold snapshot in Hcases.
  split; [| split; [| split; [| split; [| split; [| split; [| split]]]]]];
    try (eapply staged_precedes; [exact Hstaged |];
         intros [[] dev | [] dev | h [] | [] s | | r | rows | | | | | e]
                [[] dev' | [] dev' | h' [] | [] s' | | r' | rows' | | | | | e'] Hx Hy;
         simpl in *; try contradiction; lia).
  { destruct Hstaged as [Hall _]. eapply Forall_impl; [exact Hall |].
    intros ev [_ Hsleep]. exact Hsleep. }
  split; [| split].
  - intros ev Hin Hstage.
    destruct Hcases as [H0 | [(rest & Htr & _) | [(rest & _ & Htr & _) |
                        (rate & rest & _ & _ & _ & _ & Htr & _)]]]; eauto.
    pose proof (staged_stage 0 0 tr ev H0 Hin). lia.
  - intros ev Hin Hsender.
    assert (Hstage : stage ev = 5%nat).
    { destruct ev as [| | h [] | | | | | | | | |]; cbn in Hsender; try contradiction.
      reflexivity. }
    destruct Hcases as [H0 | [(rest & Htr & Hrest) | [(rest & Hsettle & Htr & _) |
                        (rate & rest & Hsettle & _ & _ & _ & Htr & _)]]]; eauto.
    + pose proof (staged_stage 0 0 tr ev H0 Hin). lia.
    + exfalso. rewrite Htr in Hin. apply elem_of_app in Hin as [Hin | Hin].
      * unfold snapshot, first_snapshot in Hin.
        apply elem_of_app in Hin as [Hin | Hin];
          apply list_elem_of_fmap in Hin as [dev [-> _]]; discriminate Hstage.
      * pose proof (staged_stage 1 4 rest ev Hrest Hin). lia.
  - intros ev Hin Hafter.
    assert (Hstage : stage ev = 7%nat).
    { destruct ev as [[] dev | [] dev | | | | | | | | | |]; cbn in Hafter;
        try contradiction; reflexivity. }
    assert (Hsnap : forall ev', ev' ∈ snapshot -> stage ev' = 0%nat).
    { intros ev' Hin'. unfold snapshot, first_snapshot in Hin'.
      apply elem_of_app in Hin' as [Hin' | Hin'];
        apply list_elem_of_fmap in Hin' as [dev [-> _]]; reflexivity. }
    assert (Hservers : forall ev', ev' ∈ servers_started (num := num) s2_hosts ++ [MakeDirs] ->
                                   (stage ev' <= 4)%nat).
    { intros ev' Hin'. unfold servers_started in Hin'.
      rewrite !elem_of_app in Hin'.
      destruct Hin' as [[Hin' | [Hin' | Hin']] | Hin'].
      - apply list_elem_of_In, in_concat in Hin' as (l & Hl & Hev).
        apply in_map_iff in Hl as (h & <- & _).
        destruct Hev as [<- | [<- | []]]; cbn; lia.
      - apply list_elem_of_fmap in Hin' as [h [-> _]]. cbn. lia.
      - apply list_elem_of_singleton in Hin' as ->. cbn. lia.
      - apply list_elem_of_singleton in Hin' as ->. cbn. lia. }
    destruct Hcases as [H0 | [(rest & Htr & Hrest) | [(rest & Hsettle & Htr & Hrest) |
                        (rate & rest & Hsettle & Hwindow & Hrate & Hlen & Htr & Hrest)]]].
    + pose proof (staged_stage 0 0 tr ev H0 Hin). lia.
    + exfalso. rewrite Htr in Hin. apply elem_of_app in Hin as [Hin | Hin].
      * specialize (Hsnap ev Hin). lia.
      * pose proof (staged_stage 1 4 rest ev Hrest Hin). lia.
    + exfalso. rewrite Htr, !app_assoc, <- (app_assoc snapshot) in Hin.
      apply elem_of_app in Hin as [Hin | Hin];
        [apply elem_of_app in Hin as [Hin | Hin] |].
      * specialize (Hsnap ev Hin). lia.
      * specialize (Hservers ev Hin). lia.
      * pose proof (staged_stage 5 6 rest ev Hrest Hin). lia.
    + split; [exact Hsettle |]. split; [exact Hwindow |].
      exists rate, rest. split; [exact Hrate |]. split; [exact Hlen |].
      split; [exact Htr |].
      apply Forall_forall. intros ev' Hin'.
      pose proof (staged_stage 7 12 rest ev' Hrest Hin') as Hstage'.
      destruct ev' as [[] dev | [] dev | h [] | [] sec | | | | | | | |];
        cbn in *; repeat split; try tauto; try lia.
Qed.

End OrderFacts.

Section OrderOnScenario.
Import F64 Aggregate Trace Run Driver Scenario.

(** C6 as stated fails: in the run of the 40-host dumbbell the first counter
    reading is the second event of the trace, the first receiver is started
    40 events later and the settle sleep comes after the last receiver. *)
Lemma before_snapshot_precedes_settle :
  let tr := (main (quiet (graph dumbbell40)) dumbbell40 10 5 40).2 in
  tr !! 1%nat = Some (GetBytes Before "s1-eth21") /\
  tr !! 42%nat = Some (Cmd "h20" QuicServer) /\
  tr !! 62%nat = Some (TimeSleep Settle 2) /\
  ~ precedes settle_sleep before_snapshot tr /\
  ~ precedes receiver_start before_snapshot tr.
Proof.
  intros tr.
  assert (H1 : tr !! 1%nat = Some (GetBytes Before "s1-eth21")) by (vm_compute; reflexivity).
  assert (H42 : tr !! 42%nat = Some (Cmd "h20" QuicServer)) by (vm_compute; reflexivity).
  assert (H62 : tr !! 62%nat = Some (TimeSleep Settle 2)) by (vm_compute; reflexivity).
  repeat split; try assumption.
  - intros Hprec. specialize (Hprec 62%nat 1%nat _ _ H62 H1 I I). lia.
  - intros Hprec. specialize (Hprec 42%nat 1%nat _ _ H42 H1 I I). lia.
Qed.

(** In that run the second reading of [s1-eth21] follows the clients of
    all 20 sources and the sleep of 9 seconds. *)
Lemma snapshot_order_witness :
  let hosts := map Topo.host_name (seq 0 40) in
  let tr := (run_quic_experiments (quiet (graph dumbbell40)) hosts 40 ["s1-eth21"] 5
               None 10).2 in
  exists rate rest,
    length (RunCases.client_cmds (num := number) (take 20 hosts) (drop 20 hosts) rate)
      = 20%nat /\
    tr = RunCases.first_snapshot ["s1-eth21"] [] ++
         RunCases.servers_started (drop 20 hosts) ++ [MakeDirs] ++
         RunCases.client_cmds (take 20 hosts) (drop 20 hosts) rate ++
         [TimeSleep Window 9] ++ rest.
Proof.
  intros hosts tr.
  destruct (proj2 (proj2 (proj2 (proj2 (proj2 (proj2 (proj2 (proj2 (proj2
              (snapshot_order 5 (quiet (graph dumbbell40)) hosts 40 ["s1-eth21"]
                 None 10))))))))) (GetBytes After "s1-eth21"))
    as (_ & _ & rate & rest & _ & Hlen & Htr & _).
  - apply list_elem_of_In. vm_compute.
    repeat (first [left; reflexivity | right]).
  - exact I.
  - exists rate, rest. split; [exact Hlen | exact Htr].
Defined.

End OrderOnScenario.

(** ** Teardown *)

Section TeardownFacts.
Import F64 Aggregate Trace Run Driver.
Context {num : Type} `{PyNum num}.

Lemma bind_Ok_inv {E A B} (m : M E A) (f : A -> M E B) (b : B) (tr : list E) :
  bind m f = (Ok b, tr) ->
  exists a tr1 tr2, m = (Ok a, tr1) /\ f a = (Ok b, tr2) /\ tr = tr1 ++ tr2.
Proof.
  destruct m as [[a | e] tr1]; simpl; [| discriminate].
  destruct (f a) as [r tr2] eqn:Hf. intros [= -> <-]. eauto 6.
Qed.

Lemma for_each_pure {E A B} (f : A -> M E B) (val : A -> B) (xs : list A) :
  (forall x, x ∈ xs -> f x = (Ok (val x), [])) ->
  for_each f xs = (Ok (map val xs), []).
Proof.
  induction xs as [| x xs IH]; intros Hf; [reflexivity |].
  simpl. rewrite (Hf x) by left. simpl.
  rewrite IH by (intros y Hy; apply Hf; right; exact Hy). reflexivity.
Qed.

Lemma teardown_trace (hosts s2_hosts : list string) :
  teardown (num := num) hosts s2_hosts =
    (Ok tt, map (fun h => Cmd h PkillServer) s2_hosts ++
            map (fun h => Cmd h PkillClient) hosts ++ [RemoveRawMetrics]).
Proof.
  unfold teardown.
  rewrite (for_each_ok _ (fun _ => tt) (fun h => Cmd h PkillServer)) by reflexivity.
  cbn [bind].
  rewrite (for_each_ok _ (fun _ => tt) (fun h => Cmd h PkillClient)) by reflexivity.
  reflexivity.
Qed.

(** Up to the point where a computation raises, its events stay within
    the stages of what has been started. *)
Lemma raised_bind {A B} (duration : Z) (mid lo hi : nat) (m : M (event num) A)
    (f : A -> M (event num) B) (e : exn) :
  (lo <= mid <= hi)%nat ->
  staged duration lo mid m.2 ->
  (forall a, (f a).1 = Raise e -> staged duration mid hi (f a).2) ->
  (bind m f).1 = Raise e -> staged duration lo hi (bind m f).2.
Proof.
  intros Hmid Hm Hf. destruct m as [[a | e'] tr]; simpl in *.
  - specialize (Hf a). destruct (f a) as [r tr']. simpl in *.
    intros Hr. eapply staged_app; [exact Hmid | exact Hm | exact (Hf Hr)].
  - intros _. eapply staged_weaken; [| | exact Hm]; lia.
Qed.

(** A run that raises has not reached its teardown. *)
Lemma raised_run_staged (W : world num) (hosts : list string) (number_of_hosts : nat)
    (ifaces : list string) (duration : Z) (others : option (list string))
    (bandwidth : Z) (e : exn) :
  (run_quic_experiments W hosts number_of_hosts ifaces duration others bandwidth).1
    = Raise e ->
  staged duration 0 9
    (run_quic_experiments W hosts number_of_hosts ifaces duration others bandwidth).2.
Proof.
  unfold run_quic_experiments.
  apply (raised_bind duration 0%nat); [lia | apply staged_snapshot_before |].
  intros [tx1 rx1].
  apply (raised_bind duration 3%nat); [lia | |].
  { eapply staged_weaken; [| | apply staged_start_servers]; lia. }
  intros _. apply (raised_bind duration 4%nat); [lia | |].
  { apply staged_emit; [split; simpl; lia | exact I]. }
  intros _. apply (raised_bind duration 4%nat); [lia | apply staged_nil |].
  intros rate. apply (raised_bind duration 5%nat); [lia | |].
  { eapply staged_weaken; [| | apply staged_start_clients]; lia. }
  intros _. apply (raised_bind duration 6%nat); [lia | |].
  { eapply staged_weaken; [| | apply (staged_time_sleep duration W Window (duration + 4))];
      [simpl; lia | simpl; lia | reflexivity]. }
  intros _. apply (raised_bind duration 7%nat); [lia | |].
  { eapply staged_weaken; [| | apply staged_measure]; lia. }
  intros d. apply (raised_bind duration 7%nat); [lia | apply staged_nil |].
  intros r. apply (raised_bind duration 8%nat); [lia | |].
  { apply staged_emit; [split; simpl; lia | exact I]. }
  intros _. apply (raised_bind duration 9%nat); [lia | |].
  { apply staged_emit; [split; simpl; lia | exact I]. }
  intros _. rewrite teardown_trace. cbn [bind ret fst]. discriminate.
Qed.

(** A run that returns has gone through its teardown. *)
Lemma returned_run_teardown (W : world num) (hosts : list string) (number_of_hosts : nat)
    (ifaces : list string) (duration : Z) (others : option (list string))
    (bandwidth : Z) (d : list (string * float)) (tr : list (event num)) :
  run_quic_experiments W hosts number_of_hosts ifaces duration others bandwidth
    = (Ok d, tr) ->
  exists tr0,
    tr = tr0 ++ map (fun h => Cmd h PkillServer) (drop (number_of_hosts / 2) hosts) ++
                map (fun h => Cmd h PkillClient) hosts ++ [RemoveRawMetrics].
Proof.
  unfold run_quic_experiments. intros Hrun.
  apply bind_Ok_inv in Hrun as ([tx1 rx1] & t1 & r1 & _ & Hrun & ->).
  apply bind_Ok_inv in Hrun as (? & t2 & r2 & _ & Hrun & ->).
  apply bind_Ok_inv in Hrun as (? & t3 & r3 & _ & Hrun & ->).
  apply bind_Ok_inv in Hrun as (? & t4 & r4 & _ & Hrun & ->).
  apply bind_Ok_inv in Hrun as (? & t5 & r5 & _ & Hrun & ->).
  apply bind_Ok_inv in Hrun as (? & t6 & r6 & _ & Hrun & ->).
  apply bind_Ok_inv in Hrun as (? & t7 & r7 & _ & Hrun & ->).
  apply bind_Ok_inv in Hrun as (? & t8 & r8 & _ & Hrun & ->).
  apply bind_Ok_inv in Hrun as (? & t9 & r9 & _ & Hrun & ->).
  apply bind_Ok_inv in Hrun as (? & t10 & r10 & _ & Hrun & ->).
  rewrite teardown_trace in Hrun. cbn [bind ret] in Hrun.
  injection Hrun as _ <-.
  exists (t1 ++ t2 ++ t3 ++ t4 ++ t5 ++ t6 ++ t7 ++ t8 ++ t9 ++ t10).
  rewrite app_nil_r, <- !app_assoc. reflexivity.
Qed.

(** C7, amended. Whatever happens inside the run, [main] catches it, logs
    it, and stops the network: the topology is always released.  The
    termination of the receivers and senders and the deletion of the raw
    metrics file are the last steps of the run itself: they are performed
    when the run returns, and none of them when a step before them raises. *)
Theorem network_always_stopped (W : world num) (topo : topology)
    (bw duration : Z) (hosts : nat) :
  (forall i, (i < hosts)%nat -> Topo.host_name i ∈ map fst (Topo.hosts (graph topo))) ->
  let hs := map Topo.host_name (seq 0 hosts) in
  exists (r : result (list (string * float))) (tr : list (event num)),
    run_quic_experiments W hs hosts (switch_interface topo) duration
      (match name topo with
       | multibottleneck => Some (other_interfaces topo)
       | _ => None
       end) bw = (r, tr) /\
    main W topo bw duration hosts = (Ok tt, [NetStart] ++ tr ++ logged r ++ [NetStop]) /\
    match r with
    | Ok _ =>
        exists tr0,
          tr = tr0 ++ map (fun h => Cmd h PkillServer) (drop (hosts / 2) hs) ++
                      map (fun h => Cmd h PkillClient) hs ++ [RemoveRawMetrics]
    | Raise _ => Forall (fun ev => ~ teardown_event ev) tr
    end.
Proof.
  intros Hhosts hs.
  assert (Hget : for_each (fun i => net_get (num := num) (graph topo) (Topo.host_name i))
                   (seq 0 hosts) = (Ok hs, [])).
  { apply for_each_pure. intros i Hi. apply elem_of_seq in Hi.
    unfold net_get. rewrite bool_decide_eq_true_2 by (apply Hhosts; lia). reflexivity. }
  destruct (run_quic_experiments W hs hosts (switch_interface topo) duration
              (match name topo with
               | multibottleneck => Some (other_interfaces topo)
               | _ => None
               end) bw) as [r tr] eqn:Hrun.
  exists r, tr. split; [reflexivity |]. split.
  - unfold main. cbn [bind emit]. rewrite Hget. cbn [bind].
    assert (Hbranch :
      (match name topo with
       | multibottleneck =>
           run_quic_experiments W hs hosts (switch_interface topo) duration
             (Some (other_interfaces topo)) bw
       | _ => run_quic_experiments W hs hosts (switch_interface topo) duration None bw
       end) = (r, tr)).
    { rewrite <- Hrun. destruct (name topo); reflexivity. }
    fold hs. rewrite Hbranch.
    destruct r as [d | []]; cbn [bind emit try_except logged app];
      rewrite ?app_nil_r, <- ?app_assoc; reflexivity.
  - destruct r as [d | e].
    + exact (returned_run_teardown _ _ _ _ _ _ _ _ _ Hrun).
    + pose proof (raised_run_staged W hs hosts (switch_interface topo) duration
                    (match name topo with
                     | multibottleneck => Some (other_interfaces topo)
                     | _ => None
                     end) bw e) as Hstaged.
      rewrite Hrun in Hstaged. destruct (Hstaged eq_refl) as [Hall _].
      eapply Forall_impl; [exact Hall |].
      intros ev [Hstage _]. unfold teardown_event.
      destruct ev as [[] dev | [] dev | h [] | [] s | | r | rows | | | | | e'];
        simpl in *; try discriminate; lia.
Qed.

End TeardownFacts.

Section TeardownOnScenario.
Import F64 Aggregate Trace Run Driver Scenario.

Lemma hosts_of_dumbbell40 (i : nat) :
  (i < 40)%nat -> Topo.host_name i ∈ map fst (Topo.hosts (graph dumbbell40)).
Proof.
  intros Hi.
  do 40 (destruct i as [| i]; [apply (bool_decide_unpack _); vm_compute; exact I |]).
  lia.
Qed.

Lemma network_always_stopped_witness :
  exists (r : result (list (string * float))) (tr : list (event number)),
    main (counters_vanish (graph dumbbell40)) dumbbell40 10 5 40 =
      (Ok tt, [NetStart] ++ tr ++ logged r ++ [NetStop]) /\
    r = Raise FileNotFoundError.
Proof.
  destruct (network_always_stopped (counters_vanish (graph dumbbell40)) dumbbell40
              10 5 40 hosts_of_dumbbell40) as (r & tr & Hrun & Hmain & _).
  exists r, tr. split; [exact Hmain |].
  vm_compute in Hrun. injection Hrun as <- _. reflexivity.
Defined.

(** C7 as stated fails: when the second reading of the counters fails, the
    20 receivers and the 20 senders have been started, the error is logged
    and the network is stopped, but no process is terminated by the run and
    the raw metrics file is not deleted. *)
Lemma failed_sampling_skips_teardown :
  let tr := (main (counters_vanish (graph dumbbell40)) dumbbell40 10 5 40).2 in
  tr !! 42%nat = Some (Cmd "h20" QuicServer) /\
  tr !! 64%nat = Some (Cmd "h0" (QuicClient "h20" (S754_finite false 4503599627370496 (-53)))) /\
  tr !! 85%nat = Some (GetBytes After "s1-eth21") /\
  tr !! 86%nat = Some (ErrorLogged FileNotFoundError) /\
  tr !! 87%nat = Some NetStop /\
  length tr = 88%nat /\
  existsb is_teardown tr = false.
Proof. vm_compute. repeat split. Qed.

End TeardownOnScenario.

Section ThroughputOnScenario.
Import F64 Aggregate Trace Run Driver Scenario.

Lemma throughput_of_counters_witness :
  exists tx1 rx1 tr0 d tr,
    snapshot_before (quiet (graph dumbbell40)) ["s1-eth21"] None = (Ok (tx1, rx1), tr0) /\
    measure (quiet (graph dumbbell40)) ["s1-eth21"] tx1 None rx1 5 = (Ok d, tr) /\
    dict_get "s1-eth21" d = Some (mbps 1000000 7250000 5).
Proof.
  destruct (throughput_of_counters (quiet (graph dumbbell40)) ["s1-eth21"] None 5
              (counter Before) (counter After) (counter Before) (counter After))
    as (tx1 & rx1 & tr0 & d & tr & Hsnap & Hmeasure & Htx & _).
  - split; reflexivity.
  - repeat constructor. intros Hin. inversion Hin.
  - intros dev Hdev. apply list_elem_of_singleton in Hdev as ->.
    repeat split; vm_compute; reflexivity || discriminate.
  - intros dev Hdev. inversion Hdev.
  - exists tx1, rx1, tr0, d, tr. repeat split; try assumption.
    apply Htx. left.
Defined.

End ThroughputOnScenario.

(** ** The sweep *)

Section SweepFacts.
Import Trace Sweep.

Lemma launches_app (tr1 tr2 : list event) :
  launches (tr1 ++ tr2) = launches tr1 ++ launches tr2.
Proof. unfold launches. apply omap_app. Qed.

(** A run whose outcome has a branch in [run_experiment] never raises. *)
Lemma run_point_handled (W : world) (d : dimension)
    (results : list (point * metrics)) (p : point) :
  handled (subprocess_run W d p) ->
  exists results' tr,
    run_point W d results p = (Ok results', tr) /\ launches tr = [(d, p)].
Proof.
  intros Hhandled. unfold run_point, run_experiment.
  destruct (subprocess_run W d p) as [[] | []]; simpl in Hhandled;
    try contradiction; cbn [bind emit ret app];
    destruct (extract_results W d p); cbn [bind emit ret app]; eauto.
Qed.

Lemma run_varying_handled (W : world) (d : dimension) (points : list point) :
  (forall p, handled (subprocess_run W d p)) ->
  exists tr, run_varying W d points = (Ok tt, tr) /\
             launches tr = map (fun p => (d, p)) points.
Proof.
  intros Hhandled. unfold run_varying.
  assert (Hloop : forall results,
             exists results' tr,
               fold_each (run_point W d) points results = (Ok results', tr) /\
               launches tr = map (fun p => (d, p)) points).
  { induction points as [| p points IH]; intros results.
    - exists results, []. split; reflexivity.
    - destruct (run_point_handled W d results p (Hhandled p))
        as (results1 & tr1 & Hpoint & Hlaunch1).
      destruct (IH results1) as (results2 & tr2 & Hrest & Hlaunch2).
      exists results2, (tr1 ++ tr2). cbn [fold_each]. rewrite Hpoint. cbn [bind].
      rewrite Hrest. split; [reflexivity |].
      rewrite launches_app, Hlaunch1, Hlaunch2. reflexivity. }
  destruct (Hloop []) as (results & tr & Hfold & Hlaunch).
  exists (tr ++ [Summary d results]). rewrite Hfold. cbn [bind emit]. split; [reflexivity |].
  rewrite launches_app, Hlaunch. cbn. rewrite app_nil_r. reflexivity.
Qed.

(** C8, on the code. When every run ends in a way [run_experiment] has a
    branch for (success, failure, or interruption by Ctrl-C), [main] returns
    normally after launching all twelve points of the three sweeps, in
    order: an interruption during a run does not abort the sweep. *)
Theorem interrupted_run_does_not_abort_sweep (W : world) :
  runner_exists W = true ->
  (forall d p, handled (subprocess_run W d p)) ->
  exists tr, main W = (Returned, tr) /\ launches tr = all_points.
Proof.
  intros Hrunner Hhandled. unfold main. rewrite Hrunner.
  destruct (run_varying_handled W bw_vary
              (map (fun bw => {| p_bw := bw; p_delay := FIXED_DELAY; p_loss := FIXED_LOSS |})
                 BANDWIDTHS) (Hhandled bw_vary)) as (tr1 & Hbw & Hl1).
  destruct (run_varying_handled W delay_vary
              (map (fun delay => {| p_bw := FIXED_BW; p_delay := delay; p_loss := FIXED_LOSS |})
                 DELAYS) (Hhandled delay_vary)) as (tr2 & Hdelay & Hl2).
  destruct (run_varying_handled W loss_vary
              (map (fun loss => {| p_bw := FIXED_BW; p_delay := FIXED_DELAY; p_loss := loss |})
                 LOSSES) (Hhandled loss_vary)) as (tr3 & Hloss & Hl3).
  unfold run_varying_bandwidth, run_varying_delay, run_varying_loss.
  rewrite Hbw. cbn [bind]. rewrite Hdelay. cbn [bind]. rewrite Hloss. cbn [bind emit].
  eexists. split; [reflexivity |].
  rewrite !launches_app, Hl1, Hl2, Hl3. cbn. reflexivity.
Qed.

Lemma interrupted_run_does_not_abort_sweep_witness :
  subprocess_run interrupted_first bw_vary
    {| p_bw := 10; p_delay := FIXED_DELAY; p_loss := FIXED_LOSS |} = Raise KeyboardInterrupt /\
  exists tr, main interrupted_first = (Returned, tr) /\ launches tr = all_points.
Proof.
  split; [reflexivity |].
  apply (interrupted_run_does_not_abort_sweep interrupted_first); [reflexivity |].
  intros d p. unfold handled, interrupted_first. cbn [subprocess_run].
  destruct d; [destruct (p_bw p =? 10) | |]; exact I.
Defined.

End SweepFacts.

(* ===================================================================== *)
(** * Part III: further properties of the code                            *)
(* ===================================================================== *)

(** ** Aggregation: what a line can and cannot do *)

Section AggregateMore.
Import Aggregate.
Context {num : Type} `{PyNum num}.

Lemma read_line_ok (m : gmap Z (entry num)) (l : line num) :
  well_formed l -> exists m', read_line m l = Ok m'.
Proof.
  intros Hl. destruct l as [| | [t |] [r |] [c |]]; simpl; eauto.
  exfalso. apply Hl. reflexivity.
Qed.

Lemma read_lines_raises (ls : list (line num)) :
  NotObject ∈ ls -> forall m, read_lines m ls = Raise TypeError.
Proof.
  induction ls as [| l ls IH]; intros Hin m; [inversion Hin |].
  apply elem_of_cons in Hin as [<- | Hin]; [reflexivity |].
  cbn [read_lines].
  destruct l as [| | [t |] [r |] [c |]]; simpl; try apply (IH Hin). reflexivity.
Qed.

Lemma read_lines_returns (ls : list (line num)) :
  forall m m', read_lines m ls = Ok m' -> Forall well_formed ls.
Proof.
  induction ls as [| l ls IH]; intros m m' Hrun; [constructor |].
  cbn [read_lines] in Hrun.
  destruct (read_line m l) as [m1 | e] eqn:Hline; [| discriminate Hrun].
  constructor; [| exact (IH _ _ Hrun)].
  intros ->. discriminate Hline.
Qed.

Lemma not_elem_well_formed (ls : list (line num)) :
  NotObject ∉ ls -> Forall well_formed ls.
Proof.
  intros Hnotin. apply Forall_forall. intros l Hl ->. exact (Hnotin Hl).
Qed.

(** A call that returns has computed the mean of every second. *)
Lemma written_means_defined (ls : list (line num)) (m : gmap Z (entry num))
    (rtt_csv : list (Z * num)) (cwnd_csv : list (Z * Z)) :
  read_lines ∅ ls = Ok m -> rtt_rows m = Ok rtt_csv -> cwnd_rows m = Ok cwnd_csv ->
  means_defined ls.
Proof.
  intros Hm Hrtt Hcwnd.
  apply rows_Ok in Hrtt as [Hrtt _]. apply rows_Ok in Hcwnd as [Hcwnd _].
  rewrite Forall_forall in Hrtt, Hcwnd. split.
  - intros t Hne.
    assert (Hkey : t ∈ sorted_keys m).
    { apply lookup_entry_key. rewrite (read_entries ls m t Hm).
      intros [= Heq _]. contradiction. }
    destruct (Hrtt t Hkey) as [r Hr].
    rewrite (read_entries ls m t Hm) in Hr. cbn [fst] in Hr. unfold rtt_row in Hr.
    destruct (rtt_samples t ls) as [| x xs]; [contradiction |].
    destruct (average (x :: xs)) as [avg | e]; [eauto | discriminate Hr].
  - intros t Hne.
    assert (Hkey : t ∈ sorted_keys m).
    { apply lookup_entry_key. rewrite (read_entries ls m t Hm).
      intros [= _ Heq]. contradiction. }
    destruct (Hcwnd t Hkey) as [r Hr].
    rewrite (read_entries ls m t Hm) in Hr. cbn [snd] in Hr. unfold cwnd_row in Hr.
    destruct (cwnd_samples t ls) as [| x xs]; [contradiction |].
    destruct (average (x :: xs)) as [avg | e]; [| discriminate Hr].
    cbn in Hr. destruct (py_int avg) as [window | e] eqn:Hint; [eauto | discriminate Hr].
Qed.

(** X1. A line that parses to a JSON value other than an object is not skipped:
    subscripting it raises [TypeError], which no handler of
    [aggregate_metrics] catches, before either file is opened.  Without
    such a line the function returns, with both files written, exactly
    when the mean of every second (and the [int] of every mean of
    congestion windows) can be computed; otherwise the exception of that
    operation leaves the function. *)
Theorem non_object_line_raises (ls : list (line num)) :
  (NotObject ∈ ls -> aggregate_metrics (Lines ls) = Raise TypeError) /\
  (NotObject ∉ ls -> means_defined ls ->
   exists rtt_csv cwnd_csv, aggregate_metrics (Lines ls) = Ok (Written rtt_csv cwnd_csv)) /\
  (NotObject ∉ ls -> ~ means_defined ls ->
   exists e, aggregate_metrics (Lines ls) = Raise e).
Proof.
  split; [| split].
  - intros Hin. unfold aggregate_metrics. rewrite (read_lines_raises ls Hin). reflexivity.
  - intros Hnotin Hmeans.
    destruct (read_lines_total ls (not_elem_well_formed ls Hnotin) ∅) as [m Hm].
    destruct (rows_defined ls m Hm Hmeans) as (rtt_csv & cwnd_csv & Hrtt & Hcwnd).
    exists rtt_csv, cwnd_csv. unfold aggregate_metrics.
    rewrite Hm. cbn. rewrite Hrtt. cbn. rewrite Hcwnd. reflexivity.
  - intros Hnotin Hmeans.
    destruct (read_lines_total ls (not_elem_well_formed ls Hnotin) ∅) as [m Hm].
    unfold aggregate_metrics. rewrite Hm. cbn.
    destruct (rtt_rows m) as [rtt_csv | e] eqn:Hrtt; [| eauto]. cbn.
    destruct (cwnd_rows m) as [cwnd_csv | e] eqn:Hcwnd; [| eauto].
    exfalso. exact (Hmeans (written_means_defined ls m _ _ Hm Hrtt Hcwnd)).
Qed.

(** Rows in strictly increasing order of their key are determined by the
    set of rows. *)
Lemma keys_with_samples (sel : entry num -> list num) (m m' : gmap Z (entry num)) :
  (forall t, lookup_entry m t = lookup_entry m' t) ->
  let p t := match sel (lookup_entry m t) with [] => false | _ => true end in
  sel ([], []) = [] ->
  List.filter p (sorted_keys m) = List.filter p (sorted_keys m').
Proof.
  intros Hsame p Hsel.
  apply increasing_unique; try (apply filter_increasing, sorted_keys_increasing).
  assert (Hkey : forall t, p t = true -> t ∈ sorted_keys m /\ t ∈ sorted_keys m').
  { intros t Hp. subst p. cbn in Hp.
    split; apply lookup_entry_key; intros Heq; [| rewrite <- Hsame in Heq];
      rewrite Heq, Hsel in Hp; discriminate. }
  intros t. rewrite !list_elem_of_In, !List.filter_In, <- !list_elem_of_In.
  split; intros [_ Hp]; (split; [apply (Hkey t Hp) | exact Hp]).
Qed.

(** What is written depends on the entries only, not on which empty keys the
    defaultdict holds. *)
Lemma rows_of_entries (m m' : gmap Z (entry num)) :
  (forall t, lookup_entry m t = lookup_entry m' t) ->
  rtt_rows m = rtt_rows m' /\ cwnd_rows m = cwnd_rows m'.
Proof.
  intros Hsame. split.
  - unfold rtt_rows.
    rewrite <- (rows_skip _ (fun t => match (lookup_entry m t).1 with
                                       | [] => false | _ => true end) (sorted_keys m))
      by (intros t Hp; destruct (lookup_entry m t).1; [reflexivity | discriminate]).
    rewrite <- (rows_skip _ (fun t => match (lookup_entry m t).1 with
                                       | [] => false | _ => true end) (sorted_keys m'))
      by (intros t Hp; rewrite <- Hsame;
          destruct (lookup_entry m t).1; [reflexivity | discriminate]).
    rewrite (keys_with_samples fst m m' Hsame eq_refl).
    apply rows_ext. intros t. rewrite Hsame. reflexivity.
  - unfold cwnd_rows.
    rewrite <- (rows_skip _ (fun t => match (lookup_entry m t).2 with
                                       | [] => false | _ => true end) (sorted_keys m))
      by (intros t Hp; destruct (lookup_entry m t).2; [reflexivity | discriminate]).
    rewrite <- (rows_skip _ (fun t => match (lookup_entry m t).2 with
                                       | [] => false | _ => true end) (sorted_keys m'))
      by (intros t Hp; rewrite <- Hsame;
          destruct (lookup_entry m t).2; [reflexivity | discriminate]).
    rewrite (keys_with_samples snd m m' Hsame eq_refl).
    apply rows_ext. intros t. rewrite Hsame. reflexivity.
Qed.

(** X2. The two files are a function of the samples of each second: two inputs
    that give every second the same [rtt_ms] samples and the same
    [cwnd_bytes] samples, in the same order within the second, aggregate to
    the same files, however the seconds are interleaved. *)
Theorem aggregate_depends_on_samples (ls ls' : list (line num)) :
  Forall well_formed ls -> Forall well_formed ls' ->
  (forall t, rtt_samples t ls = rtt_samples t ls' /\
             cwnd_samples t ls = cwnd_samples t ls') ->
  aggregate_metrics (Lines ls) = aggregate_metrics (Lines ls').
Proof.
  intros Hls Hls' Hsame.
  destruct (read_lines_total ls Hls ∅) as [m Hm].
  destruct (read_lines_total ls' Hls' ∅) as [m' Hm'].
  unfold aggregate_metrics. rewrite Hm, Hm'. cbn.
  destruct (rows_of_entries m m') as [-> ->]; [| reflexivity].
  intros t. rewrite (read_lines_entry ls _ _ t Hm), (read_lines_entry ls' _ _ t Hm').
  destruct (Hsame t) as [-> ->]. reflexivity.
Qed.

Lemma decide_not_object (ls : list (line num)) : NotObject ∈ ls \/ NotObject ∉ ls.
Proof.
  induction ls as [| l ls [IH | IH]].
  - right. apply not_elem_of_nil.
  - left. right. exact IH.
  - destruct l as [| | t r c].
    + right. intros Hin. apply elem_of_cons in Hin as [Heq | Hin];
        [discriminate Heq | exact (IH Hin)].
    + left. left.
    + right. intros Hin. apply elem_of_cons in Hin as [Heq | Hin];
        [discriminate Heq | exact (IH Hin)].
Qed.

(** X3. A record without ['time'], and a record with ['time'] but without
    ['rtt_ms'], leave both files as they are without it, whatever else the
    record holds (its ['cwnd_bytes'] included) and whatever the other lines
    are. *)
Theorem partial_record_ignored (ls1 ls2 : list (line num)) (t : Z)
    (r c : option num) :
  aggregate_metrics (Lines (ls1 ++ Object None r c :: ls2)) =
    aggregate_metrics (Lines (ls1 ++ ls2)) /\
  aggregate_metrics (Lines (ls1 ++ Object (Some t) None c :: ls2)) =
    aggregate_metrics (Lines (ls1 ++ ls2)).
Proof.
  split.
  - unfold aggregate_metrics. rewrite !read_lines_app.
    destruct (read_lines ∅ ls1) as [m | e]; reflexivity.
  - destruct (read_lines ∅ (ls1 ++ ls2)) as [m | e] eqn:Hrun.
    + pose proof (read_lines_returns _ _ _ Hrun) as Hwf.
      apply Forall_app in Hwf as [Hwf1 Hwf2].
      assert (Hwf : Forall well_formed (ls1 ++ Object (Some t) None c :: ls2)).
      { apply Forall_app. split; [exact Hwf1 |]. constructor; [discriminate | exact Hwf2]. }
      destruct (read_lines_total _ Hwf ∅) as [m' Hm'].
      unfold aggregate_metrics. rewrite Hm', Hrun. cbn.
      destruct (rows_of_entries m' m) as [-> ->]; [| reflexivity].
      intros t'. rewrite (read_lines_entry _ _ _ t' Hm'), (read_lines_entry _ _ _ t' Hrun).
      unfold rtt_samples, cwnd_samples. rewrite !omap_app. reflexivity.
    + assert (Hin : NotObject ∈ ls1 ++ ls2).
      { destruct (decide_not_object (ls1 ++ ls2)) as [Hin | Hnotin]; [exact Hin |].
        destruct (read_lines_total _ (not_elem_well_formed _ Hnotin) ∅) as [m Hm].
        rewrite Hm in Hrun. discriminate Hrun. }
      unfold aggregate_metrics.
      rewrite (read_lines_raises (ls1 ++ ls2) Hin).
      rewrite (read_lines_raises (ls1 ++ Object (Some t) None c :: ls2)); [reflexivity |].
      apply elem_of_app in Hin as [Hin | Hin]; apply elem_of_app;
        [left; exact Hin | right; right; exact Hin].
Qed.

(** X4. The rows of [cwnd.csv], when the function returns: second [t] has a
    row exactly when a record of [t] holds ['rtt_ms'] and ['cwnd_bytes']
    both; the value is the mean of those [cwnd_bytes], truncated by [int];
    rows come in increasing order.  When [int] raises on the mean of a
    second (a NaN or an infinity), no row stands for it: the function
    raises. *)
Theorem cwnd_rows_are_truncated_means (ls : list (line num)) :
  (forall rtt_csv cwnd_csv,
    aggregate_metrics (Lines ls) = Ok (Written rtt_csv cwnd_csv) ->
    (forall t w, (t, w) ∈ cwnd_csv <->
                 cwnd_samples t ls <> [] /\
                 exists avg, average (cwnd_samples t ls) = Ok avg /\
                             py_int avg = Ok w) /\
    StronglySorted Z.lt (cwnd_csv.*1)) /\
  (forall t avg e,
    cwnd_samples t ls <> [] ->
    average (cwnd_samples t ls) = Ok avg -> py_int avg = Raise e ->
    exists e', aggregate_metrics (Lines ls) = Raise e').
Proof.
  split.
  - intros rtt_csv cwnd_csv. unfold aggregate_metrics.
    destruct (read_lines ∅ ls) as [m | e] eqn:Hm; [| discriminate]. cbn.
    destruct (rtt_rows m) as [rtt_csv' | e] eqn:Hrtt; [| discriminate]. cbn.
    destruct (cwnd_rows m) as [cwnd_csv' | e] eqn:Hcwnd; [| discriminate]. cbn.
    intros [= <- <-]. split; [| exact (cwnd_rows_increasing m _ Hcwnd)].
    intros t w. rewrite (elem_of_cwnd_rows m _ t w Hcwnd).
    rewrite (read_entries ls m t Hm). reflexivity.
  - intros t avg e Hne Havg Hint. unfold aggregate_metrics.
    destruct (read_lines ∅ ls) as [m | e1] eqn:Hm; [| eauto]. cbn.
    destruct (rtt_rows m) as [rtt_csv | e1]; [| eauto]. cbn.
    destruct (rows_raises (fun t => cwnd_row t (lookup_entry m t).2) (sorted_keys m) t e)
      as [e' Hraise].
    + apply lookup_entry_key. rewrite (read_entries ls m t Hm).
      intros [= _ Heq]. contradiction.
    + rewrite (read_entries ls m t Hm). cbn [snd]. unfold cwnd_row.
      destruct (cwnd_samples t ls) as [| x xs]; [contradiction |].
      rewrite Havg. cbn. rewrite Hint. reflexivity.
    + unfold cwnd_rows. rewrite Hraise. eauto.
Qed.

End AggregateMore.

Section AggregateMoreOnNumbers.
Import F64 Aggregate AggregateCases.

(** The samples the means of [four_samples] are taken of. *)
Lemma four_samples_defined : means_defined four_samples.
Proof.
  split.
  - intros t Hne. destruct (Z.eqb_spec 1 t) as [<- | Hneq].
    + eexists. vm_compute. reflexivity.
    + exfalso. apply Hne. unfold four_samples, rtt_samples. cbn -[Z.eqb].
      rewrite (proj2 (Z.eqb_neq 1 t) Hneq). reflexivity.
  - intros t Hne. exfalso. apply Hne. reflexivity.
Defined.

(** [json.loads] reads [NaN], [Infinity] and integers of any size: a
    congestion window that is NaN, two windows whose sum is infinite, and
    an integer too large for a float among floats make the aggregation
    raise. *)
Example unusual_numbers_raise :
  aggregate_metrics (Lines with_nan_cwnd) = Raise ValueError /\
  aggregate_metrics (Lines with_huge_cwnd) = Raise OverflowError /\
  aggregate_metrics (Lines with_huge_int) = Raise OverflowError.
Proof. vm_compute. repeat split. Qed.

Lemma non_object_line_raises_witness :
  NotObject ∈ with_a_number /\
  aggregate_metrics (Lines with_a_number) = Raise TypeError /\
  (exists rtt_csv cwnd_csv,
     aggregate_metrics (Lines four_samples) = Ok (Written rtt_csv cwnd_csv)) /\
  (exists e, aggregate_metrics (Lines with_nan_cwnd) = Raise e).
Proof.
  assert (Hin : NotObject ∈ with_a_number).
  { unfold with_a_number. apply elem_of_app. right. left. }
  split; [exact Hin |]. split; [| split].
  - exact (proj1 (non_object_line_raises with_a_number) Hin).
  - apply (proj1 (proj2 (non_object_line_raises four_samples))).
    + intros Hnot. unfold four_samples in Hnot.
      repeat (apply elem_of_cons in Hnot as [Hnot | Hnot]; [discriminate Hnot |]).
      inversion Hnot.
    + exact four_samples_defined.
  - apply (proj2 (proj2 (non_object_line_raises with_nan_cwnd))).
    + intros Hnot. unfold with_nan_cwnd in Hnot.
      repeat (apply elem_of_cons in Hnot as [Hnot | Hnot]; [discriminate Hnot |]).
      inversion Hnot.
    + intros [_ Hcwnd]. destruct (Hcwnd 1) as (avg & window & Havg & Hint).
      * discriminate.
      * vm_compute in Havg. injection Havg as <-. discriminate Hint.
Defined.

Lemma aggregate_depends_on_samples_witness :
  aggregate_metrics (Lines with_partial_records) = aggregate_metrics (Lines four_samples).
Proof.
  apply aggregate_depends_on_samples.
  - unfold with_partial_records. repeat constructor; discriminate.
  - unfold four_samples. repeat constructor; discriminate.
  - intros t. unfold rtt_samples, cwnd_samples, with_partial_records, four_samples.
    simpl. destruct (1 =? t); split; reflexivity.
Defined.

Lemma cwnd_rows_are_truncated_means_witness :
  aggregate_metrics (Lines with_cwnd) =
    Ok (Written [(1, Float f10); (2, Float f10)] [(1, 14600); (2, 29200)]) /\
  (forall t w, (t, w) ∈ [(1, 14600); (2, 29200)] <->
               cwnd_samples t with_cwnd <> [] /\
               exists avg, average (cwnd_samples t with_cwnd) = Ok avg /\
                           py_int avg = Ok w) /\
  (exists e, aggregate_metrics (Lines with_nan_cwnd) = Raise e).
Proof.
  assert (Hagg : aggregate_metrics (Lines with_cwnd) =
                 Ok (Written [(1, Float f10); (2, Float f10)] [(1, 14600); (2, 29200)])).
  { vm_compute. reflexivity. }
  split; [exact Hagg |]. split.
  - exact (proj1 (proj1 (cwnd_rows_are_truncated_means with_cwnd) _ _ Hagg)).
  - apply (proj2 (cwnd_rows_are_truncated_means with_nan_cwnd) 1 (Float S754_nan)
             ValueError).
    + discriminate.
    + vm_compute. reflexivity.
    + reflexivity.
Defined.

End AggregateMoreOnNumbers.

(** ** The sweep: which points reach the summary *)

Section SweepMore.
Import Trace Sweep SweepCases.

Lemma run_point_row (W : world) (d : dimension) (results : list (point * metrics))
    (p : point) :
  handled (subprocess_run W d p) ->
  exists tr,
    run_point W d results p = (Ok (results ++ summary_rows W d [p]), tr) /\
    launches tr = [(d, p)] /\ existsb is_summary tr = false.
Proof.
  intros Hhandled. unfold run_point, run_experiment, summary_rows. cbn [omap list_omap].
  destruct (subprocess_run W d p) as [[] | []]; simpl in Hhandled;
    try contradiction; cbn [bind emit ret app];
    try destruct (extract_results W d p); cbn [bind emit ret app];
    rewrite ?app_nil_r; eexists; repeat split.
Qed.

Lemma summary_rows_cons (W : world) (d : dimension) (p : point) (ps : list point) :
  summary_rows W d (p :: ps) = summary_rows W d [p] ++ summary_rows W d ps.
Proof. exact (omap_app _ [p] ps). Qed.

Lemma existsb_app_false {A} (f : A -> bool) (l1 l2 : list A) :
  existsb f l1 = false -> existsb f l2 = false -> existsb f (l1 ++ l2) = false.
Proof. intros H1 H2. rewrite existsb_app, H1, H2. reflexivity. Qed.

Lemma run_points_rows (W : world) (d : dimension) (points : list point) :
  Forall (fun p => handled (subprocess_run W d p)) points ->
  forall results,
  exists tr,
    fold_each (run_point W d) points results =
      (Ok (results ++ summary_rows W d points), tr) /\
    launches tr = map (fun p => (d, p)) points /\ existsb is_summary tr = false.
Proof.
  induction 1 as [| p points Hp _ IH]; intros results.
  - exists []. cbn. rewrite app_nil_r. repeat split.
  - destruct (run_point_row W d results p Hp) as (tr1 & Hpoint & Hl1 & Hs1).
    destruct (IH (results ++ summary_rows W d [p])) as (tr2 & Hrest & Hl2 & Hs2).
    exists (tr1 ++ tr2). cbn [fold_each]. rewrite Hpoint. cbn [bind]. rewrite Hrest.
    rewrite (summary_rows_cons W d p points), app_assoc. split; [reflexivity |]. split.
    + rewrite launches_app, Hl1, Hl2. reflexivity.
    + apply existsb_app_false; assumption.
Qed.

(** X5. A sweep whose runs all end as [run_experiment] expects opens its
    summary exactly once, after the last run; its rows are the points whose run
    succeeded and left readable result files, in the order of the sweep.
    Failed and interrupted points are left out, and so are points without
    result files. *)
Theorem summary_keeps_successful_points (W : world) (d : dimension)
    (points : list point) :
  Forall (fun p => handled (subprocess_run W d p)) points ->
  exists tr,
    run_varying W d points = (Ok tt, tr ++ [Summary d (summary_rows W d points)]) /\
    launches tr = map (fun p => (d, p)) points /\
    existsb is_summary tr = false.
Proof.
  intros Hhandled.
  destruct (run_points_rows W d points Hhandled []) as (tr & Hfold & Hlaunch & Hsum).
  exists tr. unfold run_varying. rewrite Hfold. cbn [bind emit app]. repeat split; assumption.
Qed.

Lemma summary_keeps_successful_points_witness :
  exists tr,
    run_varying one_failure bw_vary (map bandwidth_point [10; 15; 20]) =
      (Ok tt, tr ++ [Summary bw_vary [(bandwidth_point 10, some_metrics);
                                      (bandwidth_point 20, some_metrics)]]) /\
    launches tr = map (fun p => (bw_vary, p)) (map bandwidth_point [10; 15; 20]).
Proof.
  destruct (summary_keeps_successful_points one_failure bw_vary
              (map bandwidth_point [10; 15; 20])) as (tr & Hrun & Hlaunch & _).
  { repeat constructor. }
  exists tr. split; [exact Hrun | exact Hlaunch].
Defined.

(** X6. An exception of [subprocess.run] for which [run_experiment] has no
    branch leaves the loop at once: the points after it are never launched
    and the summary of the sweep is not written. *)
Theorem unhandled_exception_stops_sweep (W : world) (d : dimension)
    (before : list point) (p : point) (after : list point) (e : exn) :
  Forall (fun q => handled (subprocess_run W d q)) before ->
  subprocess_run W d p = Raise e -> ~ handled (Raise e) ->
  exists tr,
    run_varying W d (before ++ p :: after) = (Raise e, tr) /\
    launches tr = map (fun q => (d, q)) (before ++ [p]) /\
    existsb is_summary tr = false.
Proof.
  intros Hbefore Hp Hunhandled.
  assert (Hpoint : forall results,
             run_point W d results p = (Raise e, [Launch d p DURATION])).
  { intros results. unfold run_point, run_experiment. rewrite Hp.
    destruct e; simpl in Hunhandled; try (exfalso; apply Hunhandled; exact I);
      reflexivity. }
  assert (Hloop : forall results,
             exists tr,
               fold_each (run_point W d) (before ++ p :: after) results = (Raise e, tr) /\
               launches tr = map (fun q => (d, q)) (before ++ [p]) /\
               existsb is_summary tr = false).
  { induction Hbefore as [| q before Hq _ IH]; intros results.
    - exists [Launch d p DURATION]. cbn [app fold_each]. rewrite Hpoint.
      repeat split.
    - destruct (run_point_row W d results q Hq) as (tr1 & Hrun & Hl1 & Hs1).
      destruct (IH (results ++ summary_rows W d [q])) as (tr2 & Hrest & Hl2 & Hs2).
      exists (tr1 ++ tr2). cbn [app fold_each]. rewrite Hrun. cbn [bind]. rewrite Hrest.
      split; [reflexivity |]. split.
      + rewrite launches_app, Hl1, Hl2. reflexivity.
      + apply existsb_app_false; assumption. }
  destruct (Hloop []) as (tr & Hfold & Hlaunch & Hsum).
  exists tr. unfold run_varying. rewrite Hfold. repeat split; assumption.
Qed.

Lemma unhandled_exception_stops_sweep_witness :
  exists tr,
    run_varying cannot_launch bw_vary (map bandwidth_point [10; 15; 20; 35]) =
      (Raise OSError, tr) /\
    launches tr = map (fun p => (bw_vary, p)) (map bandwidth_point [10; 15; 20]).
Proof.
  destruct (unhandled_exception_stops_sweep cannot_launch bw_vary
              (map bandwidth_point [10; 15]) (bandwidth_point 20)
              (map bandwidth_point [35]) OSError) as (tr & Hrun & Hlaunch & _).
  - repeat constructor.
  - reflexivity.
  - intros Hhandled. exact Hhandled.
  - exists tr. split; [exact Hrun | exact Hlaunch].
Defined.

End SweepMore.

(** ** The run orchestrator: pairing, edge cases and the undisturbed run *)

Section RunMore.
Import F64 Aggregate Trace Run RunCases.
Context {num : Type} `{PyNum num}.

(** X7. Lines 185-197: the clients are started for the indices [0 .. mid-1] in
    order, the [i]-th source sending to the [i]-th destination, all at the
    same rate.  When one of the two lists has fewer than [mid] hosts, the
    clients of the indices both lists have are started and the loop then
    raises [IndexError]. *)
Theorem clients_paired_by_index (mid : nat) (s1_hosts s2_hosts : list string)
    (rate : float) :
  start_clients (num := num) mid s1_hosts s2_hosts rate =
    ((if decide (mid <= length s1_hosts /\ mid <= length s2_hosts)%nat
      then Ok tt else Raise IndexError),
     client_cmds (take mid s1_hosts) (take mid s2_hosts) rate).
Proof.
  unfold start_clients.
  destruct (clients_from (num := num) s1_hosts s2_hosts rate mid 0) as [units Hloop].
  rewrite Hloop. rewrite !drop_0.
  destruct (decide (mid <= length s1_hosts /\ mid <= length s2_hosts)%nat);
    cbn [bind ret]; rewrite ?app_nil_r; reflexivity.
Qed.

Lemma start_servers_ok (W : world num) (s2_hosts : list string) :
  sigint W Settle = false ->
  start_servers W s2_hosts =
    (Ok tt, concat (map (fun h => [Cmd h MkdirCerts; Cmd h OpensslReq]) s2_hosts) ++
            map (fun h => Cmd h QuicServer) s2_hosts ++ [TimeSleep Settle 2]).
Proof.
  intros Hquiet. unfold start_servers.
  rewrite (for_each_events _ (fun _ => tt)
             (fun h => [Cmd h MkdirCerts; Cmd h OpensslReq])) by reflexivity.
  cbn [bind].
  rewrite (for_each_ok _ (fun _ => tt) (fun h => Cmd h QuicServer)) by reflexivity.
  cbn [bind]. rewrite (settle_sleep_ok W Hquiet). reflexivity.
Qed.

(** A key that is not in the dict is appended at its end. *)
Lemma dict_set_fresh {V} (k : string) (v : V) (d : list (string * V)) :
  k ∉ d.*1 -> dict_set k v d = d ++ [(k, v)].
Proof.
  induction d as [| [k' v'] d IH]; intros Hfresh; [reflexivity |].
  cbn [dict_set]. destruct (String.eqb_spec k k') as [-> | Hne].
  - exfalso. apply Hfresh. left.
  - cbn [app]. f_equal. apply IH. intros Hin. apply Hfresh. right. exact Hin.
Qed.

Lemma dict_set_all_fresh {V} (f : string -> V) (ks : list string) :
  forall d : list (string * V),
    NoDup (d.*1 ++ ks) ->
    dict_set_all f ks d = d ++ map (fun k => (k, f k)) ks.
Proof.
  unfold dict_set_all. induction ks as [| k ks IH]; intros d Hnodup.
  - cbn. rewrite app_nil_r. reflexivity.
  - cbn [fold_left map]. rewrite dict_set_fresh.
    + rewrite IH.
      * rewrite <- app_assoc. reflexivity.
      * rewrite fmap_app. cbn. rewrite <- app_assoc. exact Hnodup.
    + apply NoDup_app in Hnodup as [_ [Hdisjoint _]].
      intros Hin. apply (Hdisjoint k Hin). left.
Qed.

Lemma snapshot_before_ok (W : world num) (switch_interface : list string)
    (other_switch : option (list string)) (txb rxb : string -> Z) :
  (forall dev, dev ∈ switch_interface -> tx_bytes W Before dev = Ok (txb dev)) ->
  (forall dev, dev ∈ default [] other_switch -> rx_bytes W Before dev = Ok (rxb dev)) ->
  snapshot_before W switch_interface other_switch =
    (Ok (map txb switch_interface, map rxb (default [] other_switch)),
     map (GetBytes Before) switch_interface ++
     map (GetRxBytes Before) (default [] other_switch)).
Proof.
  intros Htx Hrx. unfold snapshot_before.
  rewrite (for_each_ok _ txb (GetBytes Before))
    by (intros dev Hin; apply get_bytes_ok, Htx, Hin).
  cbn [bind]. destruct other_switch as [others |]; cbn [default] in *.
  - rewrite (for_each_ok _ rxb (GetRxBytes Before))
      by (intros dev Hin; apply get_rx_bytes_ok, Hrx, Hin).
    cbn [bind ret]. rewrite app_nil_r. reflexivity.
  - cbn [bind ret map]. reflexivity.
Qed.

Lemma measure_ok (W : world num) (switch_interface : list string)
    (other_switch : option (list string)) (duration : Z)
    (txb txa rxb rxa : string -> Z) :
  0 < duration < int_limit ->
  NoDup (switch_interface ++ default [] other_switch) ->
  (forall dev, dev ∈ switch_interface ->
     tx_bytes W After dev = Ok (txa dev) /\ 0 <= txb dev <= txa dev /\ txa dev < 2 ^ 64) ->
  (forall dev, dev ∈ default [] other_switch ->
     rx_bytes W After dev = Ok (rxa dev) /\ 0 <= rxb dev <= rxa dev /\ rxa dev < 2 ^ 64) ->
  measure W switch_interface (map txb switch_interface) other_switch
      (map rxb (default [] other_switch)) duration =
    (Ok (map (fun dev => (dev, mbps (txb dev) (txa dev) duration)) switch_interface ++
         map (fun dev => (dev, mbps (rxb dev) (rxa dev) duration))
           (default [] other_switch)),
     map (GetBytes After) switch_interface ++
     map (GetRxBytes After) (default [] other_switch)).
Proof.
  intros Hduration Hnodup Htx Hrx. unfold measure.
  rewrite (measure_loop (get_bytes W After) (GetBytes After) txb txa);
    [| exact Hduration
     | intros dev Hin; destruct (Htx dev Hin) as [Ha Hb];
       split; [apply get_bytes_ok, Ha | exact Hb]].
  cbn [bind].
  assert (Htxd : dict_set_all (fun dev => mbps (txb dev) (txa dev) duration)
                   switch_interface [] =
                 map (fun dev => (dev, mbps (txb dev) (txa dev) duration))
                   switch_interface).
  { rewrite dict_set_all_fresh; [reflexivity |].
    cbn. apply NoDup_app in Hnodup as [Hnodup _]. exact Hnodup. }
  rewrite Htxd.
  destruct other_switch as [others |]; cbn [default] in *.
  - rewrite (measure_loop (get_rx_bytes W After) (GetRxBytes After) rxb rxa);
      [| exact Hduration
       | intros dev Hin; destruct (Hrx dev Hin) as [Ha Hb];
         split; [apply get_rx_bytes_ok, Ha | exact Hb]].
    rewrite dict_set_all_fresh; [reflexivity |].
    rewrite <- list_fmap_compose.
    replace (map (fst ∘ _) switch_interface) with switch_interface; [exact Hnodup |].
    clear. induction switch_interface as [| x xs IH]; [reflexivity |].
    cbn. f_equal. exact IH.
  - cbn [ret map]. rewrite !app_nil_r. reflexivity.
Qed.

(** X8. The whole of [run_quic_experiments] (lines 125-245) when nothing fails:
    with counters that can be read at both snapshots and do not decrease,
    a positive duration, distinct monitored interfaces, no Ctrl-C during
    the two sleeps, a sleep of [duration + 4] seconds whose deadline the
    system accepts, a hosts list as long as [number_of_hosts] says, and an
    aggregation that returns, the run returns the throughput dict with one
    entry per monitored interface, in the order TX interfaces then RX
    interfaces, and does exactly this, in this order: first snapshot;
    certificates and then servers on the second half of the hosts; the
    sleep of 2 s; the output directory; one client per source, each at
    [bandwidth / number of sources], the [i]-th source sending to the
    [i]-th destination; the sleep of [duration + 4]; the second snapshot;
    the aggregation; [switches.csv] with one rounded row per interface; and
    the teardown on every host. *)
Theorem undisturbed_run (W : world num) (hosts : list string) (number_of_hosts : nat)
    (switch_interface : list string) (other_switch : option (list string))
    (duration bandwidth : Z) (rate : float) (r : report num)
    (txb txa rxb rxa : string -> Z) :
  length hosts = number_of_hosts ->
  0 < duration < int_limit ->
  NoDup (switch_interface ++ default [] other_switch) ->
  (forall dev, dev ∈ switch_interface ->
     tx_bytes W Before dev = Ok (txb dev) /\ tx_bytes W After dev = Ok (txa dev) /\
     0 <= txb dev <= txa dev /\ txa dev < 2 ^ 64) ->
  (forall dev, dev ∈ default [] other_switch ->
     rx_bytes W Before dev = Ok (rxb dev) /\ rx_bytes W After dev = Ok (rxa dev) /\
     0 <= rxb dev <= rxa dev /\ rxa dev < 2 ^ 64) ->
  sigint W Settle = false -> sigint W Window = false ->
  monotonic W Window + (duration + 4) * 10 ^ 9 < 2 ^ 63 ->
  truediv_ii bandwidth (Z.of_nat (number_of_hosts / 2)) = Ok rate ->
  aggregate_metrics (raw_metrics W) = Ok r ->
  let d := map (fun dev => (dev, mbps (txb dev) (txa dev) duration)) switch_interface ++
           map (fun dev => (dev, mbps (rxb dev) (rxa dev) duration))
             (default [] other_switch) in
  run_quic_experiments W hosts number_of_hosts switch_interface duration
      other_switch bandwidth =
    (Ok d, undisturbed_trace hosts number_of_hosts switch_interface
             (default [] other_switch) duration rate r d).
Proof.
  intros Hlen Hduration Hnodup Htx Hrx Hsettle Hwindow Hdeadline Hrate Hagg d.
  assert (Hmid : (number_of_hosts / 2 <= number_of_hosts)%nat)
    by (apply Nat.Div0.div_le_upper_bound; lia).
  assert (Hhalf : (number_of_hosts / 2 <= number_of_hosts - number_of_hosts / 2)%nat).
  { pose proof (Nat.div_mod_eq number_of_hosts 2). lia. }
  unfold run_quic_experiments.
  rewrite (snapshot_before_ok W switch_interface other_switch txb rxb)
    by (intros dev Hin; first [apply Htx | apply Hrx]; exact Hin).
  cbn [bind].
  rewrite (start_servers_ok W _ Hsettle). cbn [bind emit].
  rewrite length_take, Hlen, Nat.min_l by exact Hmid.
  rewrite Hrate. cbn [bind lift].
  unfold start_clients.
  destruct (clients_from (num := num) (take (number_of_hosts / 2) hosts)
              (drop (number_of_hosts / 2) hosts) rate (number_of_hosts / 2) 0)
    as [units Hclients].
  rewrite Hclients, !drop_0.
  rewrite decide_True by (rewrite length_take, length_drop; lia).
  cbn [bind ret]. rewrite (app_nil_r (client_cmds _ _ _)).
  rewrite (time_sleep_ok W Window (duration + 4)) by (lia || assumption).
  cbn [bind].
  rewrite (measure_ok W switch_interface other_switch duration txb txa rxb rxa)
    by (try assumption; intros dev Hin;
        first [destruct (Htx dev Hin) as [_ Hdev] | destruct (Hrx dev Hin) as [_ Hdev]];
        exact Hdev).
  cbn [bind]. rewrite Hagg. cbn [bind lift emit].
  unfold save_switch_throughput. cbn [bind emit].
  rewrite teardown_trace. cbn [bind ret].
  unfold undisturbed_trace, switch_rows. fold d.
  rewrite (take_ge (take (number_of_hosts / 2) hosts))
    by (rewrite length_take; lia).
  rewrite client_cmds_take by (rewrite length_take; lia).
  f_equal. rewrite ?app_nil_r, <- ?app_assoc. cbn [app]. reflexivity.
Qed.

(** X9. Line 178 with fewer than two hosts: [mid] is 0, there is no source, and
    [bandwidth / len(s1_hosts)] raises [ZeroDivisionError].  So the run
    never returns and never starts a sender; when the first snapshot can be
    read and the settle interval is not interrupted, every host has been
    given certificates and a server by then, it is [ZeroDivisionError] the
    run ends with, and the servers are left running. *)
Theorem no_sources_no_result (W : world num) (hosts : list string)
    (number_of_hosts : nat) (switch_interface : list string)
    (other_switch : option (list string)) (duration bandwidth : Z) :
  (number_of_hosts < 2)%nat ->
  let run := run_quic_experiments W hosts number_of_hosts switch_interface duration
               other_switch bandwidth in
  (exists e, run.1 = Raise e) /\
  Forall (fun ev => ~ sender_start ev /\ ~ teardown_event ev) run.2 /\
  forall txb rxb,
    (forall dev, dev ∈ switch_interface -> tx_bytes W Before dev = Ok (txb dev)) ->
    (forall dev, dev ∈ default [] other_switch -> rx_bytes W Before dev = Ok (rxb dev)) ->
    sigint W Settle = false ->
    run =
      (Raise ZeroDivisionError,
       map (GetBytes Before) switch_interface ++
       map (GetRxBytes Before) (default [] other_switch) ++
       concat (map (fun h => [Cmd h MkdirCerts; Cmd h OpensslReq]) hosts) ++
       map (fun h => Cmd h QuicServer) hosts ++ [TimeSleep Settle 2; MakeDirs]).
Proof.
  intros Hfew run.
  assert (Hmid : (number_of_hosts / 2 = 0)%nat) by (apply Nat.div_small; lia).
  assert (Hrun : exists e tr,
             run = (Raise e, tr) /\ staged duration 0 4 tr).
  { pose proof (staged_snapshot_before duration W switch_interface other_switch) as H0.
    pose proof (staged_start_servers duration W hosts) as H1.
    subst run. unfold run_quic_experiments. rewrite Hmid, drop_0, take_0.
    change (truediv_ii bandwidth (Z.of_nat (length (@nil string))))
      with (@Raise float ZeroDivisionError).
    destruct (snapshot_before W switch_interface other_switch) as [[[tx1 rx1] | e] tr0].
    - cbn [bind snd] in *.
      destruct (start_servers W hosts) as [[[] | e] tr1]; cbn [bind snd emit lift] in *.
      + exists ZeroDivisionError. eexists. split; [reflexivity |].
        apply (staged_app duration 0 0 4); [lia | exact H0 |].
        rewrite app_nil_r.
        apply (staged_app duration 0 3 4); [lia | |].
        * eapply staged_weaken; [| | exact H1]; lia.
        * apply staged_one; [cbn; lia | exact I].
      + exists e. eexists. split; [reflexivity |].
        apply (staged_app duration 0 0 4); [lia | exact H0 |].
        eapply staged_weaken; [| | exact H1]; lia.
    - exists e, tr0. split; [reflexivity |].
      eapply staged_weaken; [| | exact H0]; lia. }
  split; [| split].
  - destruct Hrun as (e & tr & -> & _). exists e. reflexivity.
  - destruct Hrun as (e & tr & -> & [Hstages _]). cbn [snd].
    eapply Forall_impl; [exact Hstages |].
    intros ev [Hstage _]. split.
    + destruct ev as [| | h [] | | | | | | | | |]; cbn in *; try tauto; lia.
    + unfold teardown_event.
      destruct ev as [| | h [] | | | | | | | | |]; cbn in *; try discriminate; lia.
  - intros txb rxb Htx Hrx Hsettle. subst run. unfold run_quic_experiments.
    rewrite (snapshot_before_ok W switch_interface other_switch txb rxb Htx Hrx).
    cbn [bind]. rewrite Hmid, drop_0, take_0.
    change (truediv_ii bandwidth (Z.of_nat (length (@nil string))))
      with (@Raise float ZeroDivisionError).
    rewrite (start_servers_ok W _ Hsettle). cbn [bind emit lift].
    rewrite ?app_nil_r, <- ?app_assoc. cbn [app]. reflexivity.
Qed.

Lemma for_each_length {E A B} (f : A -> M E B) (xs : list A) (ys : list B)
    (tr : list E) :
  for_each f xs = (Ok ys, tr) -> length ys = length xs.
Proof.
  revert ys tr. induction xs as [| x xs IH]; intros ys tr Hrun.
  - injection Hrun as <- _. reflexivity.
  - cbn [for_each] in Hrun.
    apply bind_Ok_inv in Hrun as (y & tr1 & tr2 & _ & Hrest & _).
    apply bind_Ok_inv in Hrest as (ys' & tr3 & tr4 & Hxs & Hret & _).
    injection Hret as <- _. cbn [length]. f_equal. exact (IH _ _ Hxs).
Qed.

(** The throughput expression with a duration of zero always raises. *)
Lemma throughput_zero_duration (before after : Z) :
  exists e, throughput_mbps before after 0 = Raise e.
Proof.
  unfold throughput_mbps, truediv_if, truediv_fi.
  destruct (of_int ((after - before) * 8)) as [x | e]; cbn [mbind result_bind].
  - destruct (truediv x lit_1e6) as [megabits | e]; cbn [mbind result_bind].
    + exists ZeroDivisionError. reflexivity.
    + exists e. reflexivity.
  - exists e. reflexivity.
Qed.

Lemma measure_zero_duration (W : world num) (switch_interface : list string)
    (tx1 : list Z) (other_switch : option (list string)) (rx1 : list Z) :
  switch_interface <> [] -> length tx1 = length switch_interface ->
  exists e tr, measure W switch_interface tx1 other_switch rx1 0 = (Raise e, tr).
Proof.
  intros Hifaces Hlen.
  destruct switch_interface as [| dev devs]; [congruence |].
  destruct tx1 as [| before tx1]; [discriminate |].
  unfold measure. cbn [zip zip_with fold_each measure_one].
  destruct (get_bytes W After dev) as [[after | e] tr]; cbn [bind].
  - destruct (throughput_zero_duration before after) as [e He]. rewrite He.
    cbn [bind lift]. eauto.
  - eauto.
Qed.

Lemma staged_bind_when {A B} (duration : Z) (mid lo hi : nat) (m : M (event num) A)
    (f : A -> M (event num) B) :
  (lo <= mid <= hi)%nat ->
  staged duration lo mid m.2 ->
  (forall a tr, m = (Ok a, tr) -> staged duration mid hi (f a).2) ->
  staged duration lo hi (bind m f).2.
Proof.
  intros Hmid Hm Hf. destruct m as [[a | e] tr]; cbn [bind snd] in *.
  - specialize (Hf a tr eq_refl). destruct (f a) as [r tr']. cbn [snd] in *.
    eapply staged_app; [exact Hmid | exact Hm | exact Hf].
  - eapply staged_weaken; [| | exact Hm]; lia.
Qed.

(** X10. Lines 209-212 with [--duration 0]: as soon as one TX interface is
    monitored, the division by [duration] raises for the first of them (if
    nothing has raised before), so the run never returns: every event of
    the run lies before the aggregation, so no [rtt.csv] and no
    [switches.csv] is written and the teardown of the servers and clients
    is skipped. *)
Theorem zero_duration_no_result (W : world num) (hosts : list string)
    (number_of_hosts : nat) (switch_interface : list string)
    (other_switch : option (list string)) (bandwidth : Z) :
  switch_interface <> [] ->
  let run := run_quic_experiments W hosts number_of_hosts switch_interface 0
               other_switch bandwidth in
  (exists e, run.1 = Raise e) /\
  Forall (fun ev => (stage ev <= 7)%nat /\ ~ teardown_event ev) run.2.
Proof.
  intros Hifaces run.
  assert (Hlen : forall tx1 rx1 tr0,
             snapshot_before W switch_interface other_switch = (Ok (tx1, rx1), tr0) ->
             length tx1 = length switch_interface).
  { intros tx1 rx1 tr0 Hsnap. unfold snapshot_before in Hsnap.
    apply bind_Ok_inv in Hsnap as (tx & ? & ? & Htx & Hsnap & _).
    apply bind_Ok_inv in Hsnap as (rx & ? & ? & _ & Hret & _).
    injection Hret as <- <- _. exact (for_each_length _ _ _ _ Htx). }
  split.
  - destruct run as [[d | e] tr] eqn:Hrun; [| exists e; reflexivity].
    exfalso. subst run. unfold run_quic_experiments in Hrun.
    apply bind_Ok_inv in Hrun as ([tx1 rx1] & tr0 & tr' & Hsnap & Hrun & _).
    apply bind_Ok_inv in Hrun as (? & ? & ? & _ & Hrun & _).
    apply bind_Ok_inv in Hrun as (? & ? & ? & _ & Hrun & _).
    apply bind_Ok_inv in Hrun as (? & ? & ? & _ & Hrun & _).
    apply bind_Ok_inv in Hrun as (? & ? & ? & _ & Hrun & _).
    apply bind_Ok_inv in Hrun as (? & ? & ? & _ & Hrun & _).
    apply bind_Ok_inv in Hrun as (d' & ? & ? & Hmeasure & _ & _).
    destruct (measure_zero_duration W switch_interface tx1 other_switch rx1 Hifaces
                (Hlen _ _ _ Hsnap)) as (e & tr1 & Hraise).
    rewrite Hraise in Hmeasure. discriminate.
  - assert (Hstaged : staged 0 0 7 run.2).
    { subst run. unfold run_quic_experiments.
      apply (staged_bind_when 0 0%nat); [lia | apply staged_snapshot_before |].
      intros [tx1 rx1] tr0 Hsnap.
      apply (staged_bind 0 3%nat); [lia | |].
      { eapply staged_weaken; [| | apply staged_start_servers]; lia. }
      intros _. apply (staged_bind 0 4%nat); [lia | |].
      { apply staged_emit; [split; simpl; lia | exact I]. }
      intros _. apply (staged_bind 0 4%nat); [lia | apply staged_nil |].
      intros rate. apply (staged_bind 0 5%nat); [lia | |].
      { eapply staged_weaken; [| | apply staged_start_clients]; lia. }
      intros _. apply (staged_bind 0 6%nat); [lia | |].
      { eapply staged_weaken; [| | apply (staged_time_sleep 0 W Window (0 + 4))];
          [simpl; lia | simpl; lia | reflexivity]. }
      intros _.
      destruct (measure_zero_duration W switch_interface tx1 other_switch rx1 Hifaces
                  (Hlen _ _ _ Hsnap)) as (e & tr1 & Hraise).
      pose proof (staged_measure 0 W switch_interface tx1 other_switch rx1) as Hm.
      rewrite Hraise in *. cbn [bind snd] in *.
      eapply staged_weaken; [| | exact Hm]; lia. }
    destruct Hstaged as [Hstages _].
    eapply Forall_impl; [exact Hstages |].
    intros ev [Hstage _]. split; [lia |].
    unfold teardown_event.
    destruct ev as [| | h [] | | | | | | | | |]; cbn in *; try discriminate; lia.
Qed.

(** X11. Line 202 with [--duration] below -4: [time.sleep] is asked for a
    negative time and raises (if nothing has raised before), so
    the run never returns; the senders have been started by then, nothing is
    measured or written, and no process is terminated. *)
Theorem negative_sleep_no_result (W : world num) (hosts : list string)
    (number_of_hosts : nat) (switch_interface : list string)
    (other_switch : option (list string)) (duration bandwidth : Z) :
  duration + 4 < 0 ->
  let run := run_quic_experiments W hosts number_of_hosts switch_interface duration
               other_switch bandwidth in
  (exists e, run.1 = Raise e) /\
  Forall (fun ev => (stage ev <= 5)%nat /\ ~ teardown_event ev) run.2.
Proof.
  intros Hneg run.
  destruct (time_sleep_negative W Window (duration + 4) Hneg) as [e0 Hsleep].
  split.
  - destruct run as [[d | e] tr] eqn:Hrun; [| exists e; reflexivity].
    exfalso. subst run. unfold run_quic_experiments in Hrun.
    apply bind_Ok_inv in Hrun as ([tx1 rx1] & tr0 & tr' & _ & Hrun & _).
    apply bind_Ok_inv in Hrun as (? & ? & ? & _ & Hrun & _).
    apply bind_Ok_inv in Hrun as (? & ? & ? & _ & Hrun & _).
    apply bind_Ok_inv in Hrun as (? & ? & ? & _ & Hrun & _).
    apply bind_Ok_inv in Hrun as (? & ? & ? & _ & Hrun & _).
    apply bind_Ok_inv in Hrun as (? & ? & ? & Hwindow & _ & _).
    rewrite Hsleep in Hwindow. discriminate.
  - assert (Hstaged : staged duration 0 5 run.2).
    { subst run. unfold run_quic_experiments.
      apply (staged_bind duration 0%nat); [lia | apply staged_snapshot_before |].
      intros [tx1 rx1].
      apply (staged_bind duration 3%nat); [lia | |].
      { eapply staged_weaken; [| | apply staged_start_servers]; lia. }
      intros _. apply (staged_bind duration 4%nat); [lia | |].
      { apply staged_emit; [split; simpl; lia | exact I]. }
      intros _. apply (staged_bind duration 4%nat); [lia | apply staged_nil |].
      intros rate. apply (staged_bind duration 5%nat); [lia | |].
      { eapply staged_weaken; [| | apply staged_start_clients]; lia. }
      intros _. rewrite Hsleep. cbn [bind snd]. apply staged_nil. }
    destruct Hstaged as [Hstages _].
    eapply Forall_impl; [exact Hstages |].
    intros ev [Hstage _]. split; [lia |].
    unfold teardown_event.
    destruct ev as [| | h [] | | | | | | | | |]; cbn in *; try discriminate; lia.
Qed.

End RunMore.

Section RunMoreOnScenario.
Import F64 Aggregate Trace Run RunCases Driver Scenario.

Lemma undisturbed_run_witness :
  let hosts := map Topo.host_name (seq 0 40) in
  let d := [("s1-eth21", mbps 1000000 7250000 5)] in
  run_quic_experiments (quiet (graph dumbbell40)) hosts 40 ["s1-eth21"] 5 None 10 =
    (Ok d, undisturbed_trace hosts 40 ["s1-eth21"] [] 5
             (S754_finite false 4503599627370496 (-53))
             (Written [(1, Float f10_06)] []) d).
Proof.
  apply (undisturbed_run (quiet (graph dumbbell40)) (map Topo.host_name (seq 0 40)) 40
           ["s1-eth21"] None 5 10 (S754_finite false 4503599627370496 (-53))
           (Written [(1, Float f10_06)] [])
           (counter Before) (counter After) (counter Before) (counter After)).
  - reflexivity.
  - split; reflexivity.
  - repeat constructor. intros Hin. inversion Hin.
  - intros dev Hdev. apply list_elem_of_singleton in Hdev as ->.
    repeat split; vm_compute; reflexivity || discriminate.
  - intros dev Hdev. inversion Hdev.
  - reflexivity.
  - reflexivity.
  - reflexivity.
  - vm_compute. reflexivity.
  - vm_compute. reflexivity.
Defined.

Lemma no_sources_no_result_witness :
  run_quic_experiments (quiet (graph dumbbell40)) ["h0"] 1 ["s1-eth21"] 5 None 10 =
    (Raise ZeroDivisionError,
     [GetBytes Before "s1-eth21"; Cmd "h0" MkdirCerts; Cmd "h0" OpensslReq;
      Cmd "h0" QuicServer; TimeSleep Settle 2; MakeDirs]).
Proof.
  apply (proj2 (proj2 (no_sources_no_result (quiet (graph dumbbell40)) ["h0"] 1
                         ["s1-eth21"] None 5 10 ltac:(lia)))
           (counter Before) (counter Before)).
  - intros dev Hdev. apply list_elem_of_singleton in Hdev as ->.
    vm_compute. reflexivity.
  - intros dev Hdev. inversion Hdev.
  - reflexivity.
Defined.

Lemma zero_duration_no_result_witness :
  exists e,
    (run_quic_experiments (quiet (graph dumbbell40)) (map Topo.host_name (seq 0 40)) 40
       ["s1-eth21"] 0 None 10).1 = Raise e.
Proof.
  apply (zero_duration_no_result (quiet (graph dumbbell40))
           (map Topo.host_name (seq 0 40)) 40 ["s1-eth21"] None 10).
  discriminate.
Defined.

Lemma negative_sleep_no_result_witness :
  exists e,
    (run_quic_experiments (quiet (graph dumbbell40)) (map Topo.host_name (seq 0 40)) 40
       ["s1-eth21"] (-5) None 10).1 = Raise e.
Proof.
  apply (negative_sleep_no_result (quiet (graph dumbbell40))
           (map Topo.host_name (seq 0 40)) 40 ["s1-eth21"] None (-5) 10).
  reflexivity.
Defined.

End RunMoreOnScenario.

(** ** The sender: byte count, file writing, end of the transmission *)

Section SenderMore.
Import F64 Sender SenderCases.

Lemma chunks_app (tr1 tr2 : list event) : chunks (tr1 ++ tr2) = (chunks tr1 + chunks tr2)%nat.
Proof. unfold chunks. rewrite List.filter_app, length_app. reflexivity. Qed.

Lemma chunks_closing (E : env) (file : string) (buffer : list metric) :
  chunks (closing E file buffer) = 0%nat.
Proof. unfold closing. destruct (_ && _); [destruct (append E) |]; reflexivity. Qed.

(** What the loop adds to the trace and to the byte count. *)
Lemma send_loop_trace (E : env) (chunk_size : Z) (start_time end_time sleep_time : float)
    (fuel : nat) :
  forall s, exists tr,
    let s' := (send_loop E chunk_size start_time end_time sleep_time fuel s).2 in
    trace s' = trace s ++ tr /\
    Forall (loop_event chunk_size) tr /\
    bytes_sent s' = bytes_sent s + chunk_size * Z.of_nat (chunks tr).
Proof.
  induction fuel as [| fuel IH]; intros s; cbn [send_loop].
  - exists []. cbn. rewrite app_nil_r. split; [reflexivity |]. split; [constructor | lia].
  - destruct (ltb (clock E (tick s)) end_time).
    + match goal with |- context [sample E start_time ?c ?s1] =>
        destruct (sample E start_time c s1) as [s2 | e] eqn:Hsample end.
      * apply sample_keeps in Hsample as (Htr & Htick & Hbytes & _).
        cbn in Htr, Htick, Hbytes.
        match goal with |- context [send_loop _ _ _ _ _ fuel ?s3] =>
          destruct (IH s3) as (tr & Hext & Hloop & Hsent) end.
        cbn [trace bytes_sent emit] in Hext, Hsent. cbn zeta in Hext, Hsent.
        eexists (_ :: _ :: _ :: tr). cbn zeta.
        rewrite Hext, Hsent, Htr, Hbytes. split; [| split].
        -- rewrite <- !app_assoc. reflexivity.
        -- repeat constructor. exact Hloop.
        -- change (chunks (?a :: ?b :: ?c :: tr)) with (S (chunks tr)). lia.
      * exists [SendStreamData (Z.max 0 chunk_size) false; Transmit]. cbn.
        rewrite <- app_assoc. split; [reflexivity |].
        split; [repeat constructor | lia].
    + exists []. cbn. rewrite app_nil_r.
      split; [reflexivity |]. split; [constructor | lia].
Qed.

(** The whole function: the events of the loop, then, when the loop was
    left at its head, what follows it. *)
Lemma send_data_trace (E : env) (duration : Z) (file : string) (chunk_size : Z)
    (rate : option float) (fuel : nat) :
  let '(out, s) := send_data_with_metrics E duration file chunk_size rate fuel in
  exists tr,
    Forall (loop_event chunk_size) tr /\
    bytes_sent s = chunk_size * Z.of_nat (chunks tr) /\
    match out with
    | Finished _ => trace s = tr ++ closing E file (metrics_buffer s)
    | Raised _ => trace s = tr \/ trace s = tr ++ closing E file (metrics_buffer s)
    | OutOfFuel => trace s = tr
    end.
Proof.
  unfold send_data_with_metrics.
  destruct (data_chunk E chunk_size) as [len | e];
    [| exists []; cbn; split; [constructor | split; [lia | left; reflexivity]]].
  destruct (add_fi (clock E 0) duration) as [end_time | e];
    [| exists []; cbn; split; [constructor | split; [lia | left; reflexivity]]].
  destruct (inter_chunk_sleep rate chunk_size) as [sleep_time | e];
    [| exists []; cbn; split; [constructor | split; [lia | left; reflexivity]]].
  match goal with |- context [send_loop _ _ _ _ _ _ ?init] =>
    destruct (send_loop_trace E chunk_size (clock E 0) end_time sleep_time fuel init)
      as (tr & Hext & Hloop & Hsent) end.
  cbn zeta in Hext, Hsent. cbn [trace bytes_sent app] in Hext, Hsent.
  destruct (send_loop E chunk_size (clock E 0) end_time sleep_time fuel _)
    as [[[] | e |] s]; cbn [snd] in *.
  - destruct (flush_trace E file s) as (Htr & Hbuf & Hbytes & _).
    destruct (final_stats_state E (clock E 0) (flush E file s)) as (Htr' & Hbytes' & Hbuf').
    assert (Hout : (final_stats E (clock E 0) (flush E file s)).1 <> OutOfFuel)
      by (unfold final_stats; destruct (truediv_if _ _); discriminate).
    destruct (final_stats E (clock E 0) (flush E file s)) as [out s'].
    cbn [fst snd] in *. exists tr. split; [exact Hloop |].
    split; [rewrite Hbytes', Hbytes, Hsent; lia |].
    assert (Hshape : trace s' = tr ++ closing E file (metrics_buffer s'))
      by (rewrite Htr', Hbuf', Htr, Hbuf, Hext; reflexivity).
    destruct out; [exact Hshape | right; exact Hshape | contradiction].
  - exists tr. split; [exact Hloop |]. split; [rewrite Hsent; lia | left; exact Hext].
  - exists tr. split; [exact Hloop |]. split; [rewrite Hsent; lia | exact Hext].
Qed.

(** X12. Lines 76 and 98-118: [bytes_sent] grows by [chunk_size] with every chunk
    handed to the stream, whatever the outcome of the run; every data chunk
    has [max(0, chunk_size)] bytes, so for a negative [chunk_size] the
    counter goes down while empty chunks are sent. *)
Theorem bytes_sent_counts_chunks (E : env) (duration : Z) (file : string)
    (chunk_size : Z) (rate : option float) (fuel : nat) :
  let s := (send_data_with_metrics E duration file chunk_size rate fuel).2 in
  bytes_sent s = chunk_size * Z.of_nat (chunks (trace s)) /\
  Forall (fun ev => match ev with
                    | SendStreamData n false => n = Z.max 0 chunk_size
                    | _ => True
                    end) (trace s).
Proof.
  pose proof (send_data_trace E duration file chunk_size rate fuel) as Hrun.
  destruct (send_data_with_metrics E duration file chunk_size rate fuel) as [out s].
  destruct Hrun as (tr & Hloop & Hsent & Hshape). cbn [snd].
  assert (Hchunks : Forall (fun ev => match ev with
                                      | SendStreamData n false => n = Z.max 0 chunk_size
                                      | _ => True
                                      end) tr).
  { eapply Forall_impl; [exact Hloop |].
    intros [n [] | | | |]; cbn; tauto. }
  assert (Hclosing : Forall (fun ev => match ev with
                                       | SendStreamData n false => n = Z.max 0 chunk_size
                                       | _ => True
                                       end) (closing E file (metrics_buffer s))).
  { unfold closing. destruct (_ && _); [destruct (append E) |]; repeat constructor. }
  assert (Hcases : trace s = tr \/ trace s = tr ++ closing E file (metrics_buffer s)).
  { destruct out; [right | | left]; assumption. }
  destruct Hcases as [-> | ->].
  - split; [exact Hsent | exact Hchunks].
  - rewrite chunks_app, chunks_closing, Nat.add_0_r.
    split; [exact Hsent | apply Forall_app; split; assumption].
Qed.


Lemma send_loop_ends (E : env) (chunk_size : Z) (start_time end_time sleep_time : float)
    (k : nat) :
  forall (fuel : nat) (s : state),
    (k < fuel)%nat ->
    (forall j, (j < k)%nat -> ltb (clock E (tick s + 4 * j)) end_time = true) ->
    ltb (clock E (tick s + 4 * k)) end_time = false ->
    (forall j, (j < k)%nat ->
       exists z, to_int (sub (clock E (S (tick s + 4 * j))) start_time) = Ok z) ->
    exists s',
      send_loop E chunk_size start_time end_time sleep_time fuel s = (Finished tt, s') /\
      bytes_sent s' = bytes_sent s + chunk_size * Z.of_nat k /\
      chunks (trace s') = (chunks (trace s) + k)%nat /\
      tick s' = (tick s + 4 * k + 1)%nat.
Proof.
  induction k as [| k IH]; intros fuel s Hfuel Hbefore Hend Hint;
    (destruct fuel as [| fuel]; [lia |]); cbn [send_loop].
  - rewrite Nat.mul_0_r, Nat.add_0_r in Hend. rewrite Hend.
    eexists. split; [reflexivity |]. cbn [bytes_sent trace tick].
    repeat split; lia.
  - pose proof (Hbefore 0%nat ltac:(lia)) as Hnow.
    rewrite Nat.mul_0_r, Nat.add_0_r in Hnow. rewrite Hnow.
    destruct (Hint 0%nat ltac:(lia)) as [z Hz].
    rewrite Nat.mul_0_r, Nat.add_0_r in Hz.
    match goal with |- context [sample E start_time ?c ?s1] =>
      assert (Hsample : exists s2, sample E start_time c s1 = Ok s2) end.
    { unfold sample. destruct (leb one _); [| eauto]. rewrite Hz. cbn. eauto. }
    destruct Hsample as [s2 Hsample]. rewrite Hsample.
    apply sample_keeps in Hsample as (Htr & Htick & Hbytes & _).
    cbn in Htr, Htick, Hbytes.
    match goal with |- context [send_loop _ _ _ _ _ fuel ?s3] =>
      destruct (IH fuel s3) as (s' & Hrun & Hsent & Hchunks & Hticks) end.
    + lia.
    + intros j Hj. cbn [tick emit]. rewrite Htick.
      replace (S (S (S (S (tick s)))) + 4 * j)%nat with (tick s + 4 * S j)%nat by lia.
      apply Hbefore. lia.
    + cbn [tick emit]. rewrite Htick.
      replace (S (S (S (S (tick s)))) + 4 * k)%nat with (tick s + 4 * S k)%nat by lia.
      exact Hend.
    + intros j Hj. cbn [tick emit]. rewrite Htick.
      replace (S (S (S (S (tick s)))) + 4 * j)%nat with (tick s + 4 * S j)%nat by lia.
      apply Hint. lia.
    + exists s'. split; [exact Hrun |].
      cbn [tick emit bytes_sent trace] in Hsent, Hchunks, Hticks.
      rewrite Hsent, Hchunks, Hticks, Htr, Hbytes, Htick, !chunks_app.
      cbn. repeat split; lia.
Qed.

(** X14. Lines 45-61 and 70-147: the loop reads the clock four times per
    turn, the first time at its head.  If the chunk can be built, [end_time]
    and the inter-chunk sleep can be computed, the [k]-th head reading is
    the first that is not before [end_time], and the elapsed time of every
    sample fits an [int], then the transmission ends there: exactly [k]
    chunks have been sent, [bytes_sent] is [k * chunk_size], the stream is
    closed after the loop, and the function returns its statistics for the
    time the clock shows then, unless their division raises (by zero, when
    the clock has not advanced since [start_time]). *)
Theorem transmission_ends_with_the_clock (E : env) (duration : Z) (file : string)
    (chunk_size : Z) (rate : option float) (fuel k : nat) (len : Z)
    (end_time sleep_time : float) :
  data_chunk E chunk_size = Ok len ->
  add_fi (clock E 0) duration = Ok end_time ->
  inter_chunk_sleep rate chunk_size = Ok sleep_time ->
  (forall j, (j < k)%nat -> ltb (clock E (1 + 4 * j)) end_time = true) ->
  ltb (clock E (1 + 4 * k)) end_time = false ->
  (forall j, (j < k)%nat ->
     exists z, to_int (sub (clock E (2 + 4 * j)) (clock E 0)) = Ok z) ->
  (k < fuel)%nat ->
  let '(out, s) := send_data_with_metrics E duration file chunk_size rate fuel in
  let actual_duration := sub (clock E (2 + 4 * k)) (clock E 0) in
  chunks (trace s) = k /\
  bytes_sent s = chunk_size * Z.of_nat k /\
  drop (length (trace s) - 2) (trace s) = [SendStreamData 0 true; Transmit] /\
  match truediv_if (chunk_size * Z.of_nat k * 8) (mul actual_duration lit_1e6) with
  | Ok throughput_mbps =>
      out = Finished {| stats_bytes_sent := chunk_size * Z.of_nat k;
                        stats_duration := actual_duration;
                        stats_throughput_mbps := throughput_mbps |}
  | Raise e => out = Raised e
  end.
Proof.
  intros Hchunk Hend_time Hsleep Hbefore Hend Hint Hfuel.
  unfold send_data_with_metrics. rewrite Hchunk, Hend_time, Hsleep.
  match goal with |- context [send_loop _ _ _ _ _ _ ?init] =>
    destruct (send_loop_ends E chunk_size (clock E 0) end_time sleep_time k fuel init
                Hfuel Hbefore Hend Hint)
      as (s & Hrun & Hsent & Hchunks & Htick) end.
  rewrite Hrun.
  destruct (flush_trace E file s) as (Htr & _ & Hbytes & Hticks).
  cbn [trace bytes_sent tick] in Hsent, Hchunks, Htick.
  assert (Hbytes' : bytes_sent (flush E file s) = chunk_size * Z.of_nat k)
    by (rewrite Hbytes, Hsent; lia).
  unfold final_stats. rewrite Hticks, Htick, Hbytes'.
  replace (1 + 4 * k + 1)%nat with (2 + 4 * k)%nat by lia.
  assert (Htail : drop (length (trace (flush E file s)) - 2) (trace (flush E file s)) =
                  [SendStreamData 0 true; Transmit]).
  { rewrite Htr. unfold closing. rewrite app_assoc, length_app. cbn [length].
    match goal with |- drop ?n (?l ++ _) = _ =>
      replace n with (length l) by lia end.
    rewrite drop_app_length. reflexivity. }
  assert (Hcount : chunks (trace (flush E file s)) = k)
    by (rewrite Htr, chunks_app, chunks_closing, Hchunks; cbn; lia).
  destruct (truediv_if (chunk_size * Z.of_nat k * 8) _) as [throughput | e];
    cbn [trace bytes_sent]; repeat split; assumption.
Qed.

End SenderMore.

Section SenderMoreOnScenario.
Import F64 Sender SenderCases Scenario.

(** When the metrics file cannot be opened, the three-second flow still
    closes its stream and returns; nothing is written. *)
Example failed_append_still_finishes :
  let '(out, s) := send_data_with_metrics (read_only_disk quarter_steps) 3 "raw.json"
                     1000000 (Some (S754_finite false 8 0)) 10 in
  (exists st, out = Finished st) /\
  length (metrics_buffer s) = 2%nat /\
  drop 9%nat (trace s) = [WriteFailed; SendStreamData 0 true; Transmit].
Proof. vm_compute. split; [eexists; reflexivity | split; reflexivity]. Qed.

(** A chunk size that does not fit the index type raises before anything
    is sent; with a clock that stands still the loop is never entered and
    the division of the statistics raises, after the stream was closed. *)
Example sender_raises :
  send_data_with_metrics quarter_steps 3 "raw.json" (2 ^ 63) None 10 =
    (Raised OverflowError, blank) /\
  (let '(out, s) := send_data_with_metrics frozen_clock 0 "raw.json" 16384 None 10 in
   out = Raised ZeroDivisionError /\ trace s = [SendStreamData 0 true; Transmit]).
Proof. vm_compute. repeat split. Qed.

Lemma transmission_ends_with_the_clock_witness :
  let '(out, s) := send_data_with_metrics quarter_steps 3 "raw.json" 1000000
                     (Some (S754_finite false 8 0)) 10 in
  chunks (trace s) = 3%nat /\
  bytes_sent s = 3000000 /\
  exists throughput_mbps,
    out = Finished {| stats_bytes_sent := 3000000;
                      stats_duration := S754_finite false 7881299347898368 (-51);
                      stats_throughput_mbps := throughput_mbps |}.
Proof.
  pose proof (transmission_ends_with_the_clock quarter_steps 3 "raw.json" 1000000
                (Some (S754_finite false 8 0)) 10 3 1000000
                (S754_finite false 6755399441055744 (-51))
                (S754_finite false 4503599627370496 (-52))) as Hrun.
  destruct (send_data_with_metrics quarter_steps 3 "raw.json" 1000000
              (Some (S754_finite false 8 0)) 10) as [out s].
  destruct Hrun as (Hchunks & Hbytes & _ & Hout).
  - vm_compute. reflexivity.
  - vm_compute. reflexivity.
  - vm_compute. reflexivity.
  - intros j Hj. do 3 (destruct j as [| j]; [vm_compute; reflexivity |]). lia.
  - vm_compute. reflexivity.
  - intros j Hj. do 3 (destruct j as [| j]; [eexists; vm_compute; reflexivity |]). lia.
  - lia.
  - split; [exact Hchunks |]. split; [exact Hbytes |].
    vm_compute in Hout. eexists. exact Hout.
Defined.

End SenderMoreOnScenario.


(** ** The wiring of the topologies and the lookup of the hosts *)

Section WiringFacts.
Import Topo Wiring.

Lemma host_name_not_switch_like (i : nat) (s : string) :
  switch_like s -> host_name i <> s.
Proof. intros [rest ->]. unfold host_name. cbn. discriminate. Qed.

Lemma isSwitch_switch_like (t : topo) (i : nat) :
  Forall switch_like (switches t) -> isSwitch t (host_name i) = false.
Proof.
  intros Hsw. unfold isSwitch. apply bool_decide_eq_false. intros Hin.
  rewrite Forall_forall in Hsw.
  exact (host_name_not_switch_like i _ (Hsw _ Hin) eq_refl).
Qed.

Lemma inter_switch_links_addLink_host (n1 n2 : string) (o : link_opts) (t : topo) :
  isSwitch t n1 = false \/ isSwitch t n2 = false ->
  inter_switch_links (addLink n1 n2 o t) = inter_switch_links t.
Proof.
  intros Hhost. unfold inter_switch_links, addLink. cbn [links switches].
  rewrite filter_app, filter_cons, filter_nil.
  rewrite decide_False; [apply app_nil_r |].
  unfold isSwitch in *. cbn [switches node1 node2].
  intros [H1 H2]. destruct Hhost as [Hhost | Hhost]; congruence.
Qed.

Lemma inter_switch_links_addLink_switch (n1 n2 : string) (o : link_opts) (t : topo) :
  isSwitch t n1 = true -> isSwitch t n2 = true ->
  inter_switch_links (addLink n1 n2 o t) =
    inter_switch_links t ++
    [ {| node1 := n1; port1 := S (ports_in_use t n1);
         node2 := n2; port2 := S (ports_in_use t n2); opts := o |} ].
Proof.
  intros H1 H2. unfold inter_switch_links, addLink. cbn [links switches].
  rewrite filter_app, filter_cons, filter_nil.
  unfold next_port. rewrite H1, H2, !Nat.add_1_r.
  rewrite decide_True; [reflexivity |].
  unfold isSwitch in *. cbn [switches node1 node2]. split; assumption.
Qed.

Lemma host_link_step (b : bool) (s : string) (cpu : option F64.float) (t : topo) (i : nat) :
  Forall switch_like (switches t) ->
  let t' := host_link b s cpu t i in
  switches t' = switches t /\
  hosts t' = hosts t ++ [(host_name i, cpu)] /\
  inter_switch_links t' = inter_switch_links t /\
  (forall s', isSwitch t s' = true ->
     ports_in_use t' s' = (ports_in_use t s' + (if decide (s' = s) then 1 else 0))%nat).
Proof.
  intros Hsw t'.
  pose proof (isSwitch_switch_like t i Hsw) as Hhost.
  split; [destruct b; reflexivity |].
  split; [destruct b; reflexivity |].
  split.
  - subst t'. unfold host_link.
    destruct b; rewrite inter_switch_links_addLink_host; try reflexivity;
      [right | left]; exact Hhost.
  - intros s' Hs'.
    assert (Hne : host_name i <> s') by (intros <-; congruence).
    subst t'. unfold host_link.
    destruct b; rewrite ports_in_use_addLink;
      change (ports_in_use (addHost (host_name i) cpu t)) with (ports_in_use t).
    + repeat case_decide; subst; congruence || lia.
    + repeat case_decide; subst; congruence || lia.
Qed.

Lemma host_link_fold (b : bool) (s : string) (cpu : option F64.float) (len : nat) :
  forall (k : nat) (t : topo),
    Forall switch_like (switches t) ->
    let t' := fold_left (host_link b s cpu) (seq k len) t in
    switches t' = switches t /\
    hosts t' = hosts t ++ map (fun i => (host_name i, cpu)) (seq k len) /\
    inter_switch_links t' = inter_switch_links t /\
    (forall s', isSwitch t s' = true ->
       ports_in_use t' s' = (ports_in_use t s' + (if decide (s' = s) then len else 0))%nat).
Proof.
  induction len as [| len IH]; intros k t Hsw; cbn [seq fold_left map].
  - rewrite app_nil_r. repeat split. intros s' _. destruct (decide (s' = s)); lia.
  - destruct (host_link_step b s cpu t k Hsw) as (Hsw1 & Hhosts1 & Hisl1 & Hports1).
    destruct (IH (S k) (host_link b s cpu t k)) as (Hsw2 & Hhosts2 & Hisl2 & Hports2).
    { rewrite Hsw1. exact Hsw. }
    split; [congruence |]. split; [| split].
    + rewrite Hhosts2, Hhosts1, <- app_assoc. reflexivity.
    + congruence.
    + intros s' Hs'. rewrite Hports2, Hports1 by
        (try exact Hs'; unfold isSwitch in *; rewrite Hsw1; exact Hs').
      destruct (decide (s' = s)); lia.
Qed.


Lemma seq_halves (n a : nat) :
  (a <= n)%nat -> seq 0 a ++ seq a (n - a) = seq 0 n.
Proof.
  intros Ha. replace n with (a + (n - a))%nat at 2 by lia.
  rewrite seq_app. reflexivity.
Qed.

Lemma intf_name_inj (s : string) (p q : nat) : intf_name s p = intf_name s q -> p = q.
Proof.
  unfold intf_name. intros Heq.
  apply (inj (String.app s)) in Heq. injection Heq as Heq.
  exact (pretty_nat_inj p q Heq).
Qed.

Ltac switch_ports :=
  repeat (rewrite ports_in_use_addLink);
  repeat (first [ rewrite decide_True by reflexivity
                | rewrite decide_False by discriminate ]).

Lemma parkinglot_wiring (bw1 bw2 : Z) (delay : string) (loss : F64.float) (n : nat) :
  let t := ParkingLotTopo.build bw1 bw2 delay loss n in
  inter_switch_links t =
    [ {| node1 := "s1"; port1 := S (n / 2);
         node2 := "s2"; port2 := S (n / 2 / 2);
         opts := {| bw := bw1; delay := delay; loss := loss;
                    max_queue_size := Some 100 |} |};
      {| node1 := "s2"; port1 := S (S (n / 2 / 2));
         node2 := "s3"; port2 := S (n - (n / 2 + n / 2 / 2));
         opts := {| bw := bw2; delay := delay; loss := loss;
                    max_queue_size := Some 100 |} |} ] /\
  hosts t = map (fun i => (host_name i, None)) (seq 0 n).
Proof.
  intros t. subst t. unfold ParkingLotTopo.build.
  set (mid := (n / 2)%nat). set (new_mid := (mid / 2)%nat).
  assert (Hmid : (mid <= n)%nat) by (apply Nat.Div0.div_le_upper_bound; lia).
  assert (Hnew : (new_mid <= mid)%nat) by (apply Nat.Div0.div_le_upper_bound; lia).
  assert (Hsum : (mid + new_mid <= n)%nat).
  { pose proof (Nat.div_mod_eq n 2). pose proof (Nat.div_mod_eq mid 2).
    fold mid in H. fold new_mid in H0. lia. }
  set (t0 := addSwitch "s3" (addSwitch "s2" (addSwitch "s1" empty))).
  assert (Hsw0 : Forall switch_like (switches t0)).
  { repeat constructor; eexists; reflexivity. }
  change ParkingLotTopo.add_source with (host_link false "s1" None).
  change (ParkingLotTopo.add_destination "s2") with (host_link true "s2" None).
  change (ParkingLotTopo.add_destination "s3") with (host_link true "s3" None).
  destruct (host_link_fold false "s1" None mid 0 t0 Hsw0) as (Hsw1 & Hh1 & Hl1 & Hp1).
  set (t1 := fold_left (host_link false "s1" None) (seq 0 mid) t0) in *.
  destruct (host_link_fold true "s2" None new_mid mid t1) as (Hsw2 & Hh2 & Hl2 & Hp2).
  { rewrite Hsw1. exact Hsw0. }
  set (t2 := fold_left (host_link true "s2" None) (seq mid new_mid) t1) in *.
  destruct (host_link_fold true "s3" None (n - (mid + new_mid)) (mid + new_mid) t2)
    as (Hsw3 & Hh3 & Hl3 & Hp3).
  { rewrite Hsw2, Hsw1. exact Hsw0. }
  set (t3 := fold_left (host_link true "s3" None) _ t2) in *.
  assert (Hsw : switches t3 = ["s1"; "s2"; "s3"]) by (rewrite Hsw3, Hsw2, Hsw1; reflexivity).
  assert (His : forall t' s, switches t' = ["s1"; "s2"; "s3"] ->
                  s ∈ ["s1"; "s2"; "s3"] -> isSwitch t' s = true).
  { intros t' s Ht' Hs. unfold isSwitch. rewrite Ht'. apply bool_decide_eq_true. exact Hs. }
  assert (Hports : forall s, s ∈ ["s1"; "s2"; "s3"] ->
            ports_in_use t3 s =
              ((if decide (s = "s1") then mid else 0) +
               (if decide (s = "s2") then new_mid else 0) +
               (if decide (s = "s3") then n - (mid + new_mid) else 0))%nat).
  { intros s Hs.
    rewrite Hp3 by (apply His; [congruence | exact Hs]).
    rewrite Hp2 by (apply His; [congruence | exact Hs]).
    rewrite Hp1 by (apply His; [reflexivity | exact Hs]).
    replace (ports_in_use t0 s) with 0%nat by reflexivity. lia. }
  split.
  - rewrite inter_switch_links_addLink_switch
      by (apply His; [exact Hsw | set_solver]).
    rewrite inter_switch_links_addLink_switch
      by (apply His; [exact Hsw | set_solver]).
    rewrite Hl3, Hl2, Hl1.
    change (inter_switch_links t0) with (@nil link). cbn [app].
    switch_ports.
    rewrite !Hports by set_solver.
    repeat (first [ rewrite decide_True by reflexivity
                  | rewrite decide_False by discriminate ]).
    rewrite ?Nat.add_0_r, ?Nat.add_0_l. reflexivity.
  - change (hosts (addLink ?a ?b ?o (addLink ?c ?d ?o' t3))) with (hosts t3).
    rewrite Hh3, Hh2, Hh1. change (hosts t0) with (@nil (string * option F64.float)).
    cbn [app]. rewrite <- !map_app. f_equal.
    rewrite <- (seq_halves n (mid + new_mid) Hsum).
    rewrite <- (seq_halves (mid + new_mid) mid) by lia.
    replace (mid + new_mid - mid)%nat with new_mid by lia.
    rewrite <- app_assoc. reflexivity.
Qed.


Lemma multibottleneck_wiring (bw1 bw2 bw3 : Z) (delay : string) (loss : F64.float)
    (n : nat) :
  let t := MultiBottleneckTopo.build bw1 bw2 bw3 delay loss n in
  let core b := {| bw := b; delay := delay; loss := loss; max_queue_size := Some 100 |} in
  inter_switch_links t =
    [ {| node1 := "s1"; port1 := S (n / 2); node2 := "s2"; port2 := 1; opts := core bw1 |};
      {| node1 := "s1"; port1 := S (S (n / 2)); node2 := "s3"; port2 := 1;
         opts := core bw2 |};
      {| node1 := "s2"; port1 := 2; node2 := "s4"; port2 := 1; opts := core bw2 |};
      {| node1 := "s3"; port1 := 2; node2 := "s4"; port2 := 2; opts := core bw2 |};
      {| node1 := "s4"; port1 := 3; node2 := "s5"; port2 := S (n / 2 / 2);
         opts := core bw3 |};
      {| node1 := "s4"; port1 := 4; node2 := "s6";
         port2 := S (n - (n / 2 + n / 2 / 2)); opts := core bw3 |} ] /\
  hosts t = map (fun i => (host_name i, None)) (seq 0 n).
Proof.
  intros t core. subst t. unfold MultiBottleneckTopo.build.
  set (mid := (n / 2)%nat). set (new_mid := (mid / 2)%nat).
  assert (Hmid : (mid <= n)%nat) by (apply Nat.Div0.div_le_upper_bound; lia).
  assert (Hnew : (new_mid <= mid)%nat) by (apply Nat.Div0.div_le_upper_bound; lia).
  assert (Hsum : (mid + new_mid <= n)%nat).
  { pose proof (Nat.div_mod_eq n 2). pose proof (Nat.div_mod_eq mid 2).
    fold mid in H. fold new_mid in H0. lia. }
  set (t0 := addSwitch "s6" _).
  assert (Hsw0 : Forall switch_like (switches t0)).
  { repeat constructor; eexists; reflexivity. }
  change MultiBottleneckTopo.add_source with (host_link false "s1" None).
  change (MultiBottleneckTopo.add_destination "s5") with (host_link true "s5" None).
  change (MultiBottleneckTopo.add_destination "s6") with (host_link true "s6" None).
  destruct (host_link_fold false "s1" None mid 0 t0 Hsw0) as (Hsw1 & Hh1 & Hl1 & Hp1).
  set (t1 := fold_left (host_link false "s1" None) (seq 0 mid) t0) in *.
  destruct (host_link_fold true "s5" None new_mid mid t1) as (Hsw2 & Hh2 & Hl2 & Hp2).
  { rewrite Hsw1. exact Hsw0. }
  set (t2 := fold_left (host_link true "s5" None) (seq mid new_mid) t1) in *.
  destruct (host_link_fold true "s6" None (n - (mid + new_mid)) (mid + new_mid) t2)
    as (Hsw3 & Hh3 & Hl3 & Hp3).
  { rewrite Hsw2, Hsw1. exact Hsw0. }
  set (t3 := fold_left (host_link true "s6" None) _ t2) in *.
  set (sws := ["s1"; "s2"; "s3"; "s4"; "s5"; "s6"]).
  assert (Hsw : switches t3 = sws) by (rewrite Hsw3, Hsw2, Hsw1; reflexivity).
  assert (His : forall t' s, switches t' = sws -> s ∈ sws -> isSwitch t' s = true).
  { intros t' s Ht' Hs. unfold isSwitch. rewrite Ht'. apply bool_decide_eq_true. exact Hs. }
  assert (Hports : forall s, s ∈ sws ->
            ports_in_use t3 s =
              ((if decide (s = "s1") then mid else 0) +
               (if decide (s = "s5") then new_mid else 0) +
               (if decide (s = "s6") then n - (mid + new_mid) else 0))%nat).
  { intros s Hs.
    rewrite Hp3 by (apply His; [congruence | exact Hs]).
    rewrite Hp2 by (apply His; [congruence | exact Hs]).
    rewrite Hp1 by (apply His; [reflexivity | exact Hs]).
    replace (ports_in_use t0 s) with 0%nat by reflexivity. lia. }
  split.
  - do 6 (rewrite inter_switch_links_addLink_switch
            by (apply His; [exact Hsw | subst sws; set_solver])).
    rewrite Hl3, Hl2, Hl1.
    change (inter_switch_links t0) with (@nil link). cbn [app].
    switch_ports.
    rewrite !Hports by (subst sws; set_solver).
    repeat (first [ rewrite decide_True by reflexivity
                  | rewrite decide_False by discriminate ]).
    rewrite ?Nat.add_0_r, ?Nat.add_0_l. reflexivity.
  - match goal with |- hosts ?g = _ => change (hosts g) with (hosts t3) end.
    rewrite Hh3, Hh2, Hh1. change (hosts t0) with (@nil (string * option F64.float)).
    cbn [app]. rewrite <- !map_app. f_equal.
    rewrite <- (seq_halves n (mid + new_mid) Hsum).
    rewrite <- (seq_halves (mid + new_mid) mid) by lia.
    replace (mid + new_mid - mid)%nat with new_mid by lia.
    rewrite <- app_assoc. reflexivity.
Qed.

Lemma dumbbell_hosts (bw : Z) (delay : string) (loss : F64.float) (n : nat) :
  hosts (DumbbellTopo.build bw delay loss n) =
    map (fun i => (host_name i, Some cpu_share)) (seq 0 (n / 2)) ++
    map (fun i => (host_name i, None)) (seq (n / 2) (n - n / 2)).
Proof.
  unfold DumbbellTopo.build.
  set (t0 := addSwitch "s2" (addSwitch "s1" empty)).
  assert (Hsw0 : Forall switch_like (switches t0)).
  { repeat constructor; eexists; reflexivity. }
  change DumbbellTopo.add_source with (host_link false "s1" (Some cpu_share)).
  change DumbbellTopo.add_destination with (host_link false "s2" None).
  destruct (host_link_fold false "s1" (Some cpu_share) (n / 2) 0 t0 Hsw0)
    as (Hsw1 & Hh1 & _).
  set (t1 := fold_left _ (seq 0 (n / 2)) t0) in *.
  destruct (host_link_fold false "s2" None (n - n / 2) (n / 2) t1) as (_ & Hh2 & _).
  { rewrite Hsw1. exact Hsw0. }
  match goal with |- hosts ?g = _ =>
    change (hosts g)
      with (hosts (fold_left (host_link false "s2" None) (seq (n / 2) (n - n / 2)) t1))
  end.
  rewrite Hh2, Hh1. reflexivity.
Qed.


Lemma hosts_of_built (g : topo) (n : nat) :
  built_for g n -> map fst (hosts g) = map host_name (seq 0 n).
Proof.
  assert (Hmid : (n / 2 <= n)%nat) by (apply Nat.Div0.div_le_upper_bound; lia).
  intros [(bw & delay & loss & ->) | [(bw1 & bw2 & delay & loss & ->) |
          (bw1 & bw2 & bw3 & delay & loss & ->)]].
  - rewrite dumbbell_hosts, map_app, !map_map. cbn [fst].
    rewrite <- map_app, seq_halves by exact Hmid. reflexivity.
  - rewrite (proj2 (parkinglot_wiring bw1 bw2 delay loss n)), map_map. reflexivity.
  - rewrite (proj2 (multibottleneck_wiring bw1 bw2 bw3 delay loss n)), map_map.
    reflexivity.
Qed.

Lemma host_name_inj (i j : nat) : host_name i = host_name j -> i = j.
Proof.
  unfold host_name. intros Heq. injection Heq as Heq. exact (pretty_nat_inj i j Heq).
Qed.

End WiringFacts.

Section LookupFacts.
Import F64 Aggregate Trace Run Driver Topo Wiring.
Context {num : Type} `{PyNum num}.

Lemma net_get_built (g : topo) (n i : nat) :
  built_for g n ->
  net_get (num := num) g (host_name i) =
    if decide (i < n)%nat then ret (host_name i) else raise KeyError.
Proof.
  intros Hg. unfold net_get. rewrite (hosts_of_built g n Hg).
  destruct (decide (i < n)%nat) as [Hi | Hi].
  - rewrite bool_decide_eq_true_2; [reflexivity |].
    apply list_elem_of_fmap. exists i. split; [reflexivity |].
    apply elem_of_seq. lia.
  - rewrite bool_decide_eq_false_2; [reflexivity |].
    intros Hin. apply list_elem_of_fmap in Hin as (j & Heq & Hj).
    apply host_name_inj in Heq as <-. apply elem_of_seq in Hj. lia.
Qed.

Lemma lookup_loop (g : topo) (n : nat) (Hg : built_for g n) (len : nat) :
  forall k,
    for_each (fun i => net_get (num := num) g (host_name i)) (seq k len) =
      if decide (k + len <= n \/ len = 0)%nat
      then (Ok (map host_name (seq k len)), [])
      else (Raise KeyError, []).
Proof.
  induction len as [| len IH]; intros k.
  - rewrite decide_True by (right; reflexivity). reflexivity.
  - cbn [seq for_each]. rewrite (net_get_built g n k Hg), IH.
    destruct (decide (k < n)%nat) as [Hk | Hk].
    + cbn [bind ret].
      destruct (decide (S k + len <= n \/ len = 0)%nat) as [Hlen | Hlen].
      * rewrite decide_True by lia. reflexivity.
      * rewrite decide_False by lia. reflexivity.
    + cbn [bind raise]. rewrite decide_False by lia. reflexivity.
Qed.

(** X15. Lines 133-135 of [main] against the three [build] methods: the hosts a
    topology built for [n] hosts holds are [h0 .. h(n-1)], in this order, so
    the loop [net.get(f"h{i}")] over [range(m)] finds every host when
    [m <= n] and raises [KeyError] otherwise, before the [try] block. *)
Theorem main_finds_every_host (g : topo) (n m : nat) :
  built_for g n ->
  map fst (hosts g) = map host_name (seq 0 n) /\
  for_each (fun i => net_get (num := num) g (host_name i)) (seq 0 m) =
    if decide (m <= n)%nat then (Ok (map host_name (seq 0 m)), [])
    else (Raise KeyError, []).
Proof.
  intros Hg. split; [exact (hosts_of_built g n Hg) |].
  rewrite (lookup_loop g n Hg m 0).
  destruct (decide (m <= n)%nat) as [Hm | Hm].
  - rewrite decide_True by lia. reflexivity.
  - rewrite decide_False by lia. reflexivity.
Qed.

End LookupFacts.

Section MonitoredMore.
Import Topo Wiring.

(** X16. [parkinglot.py]: for every number of hosts, the two links between
    switches are s1-s2 and s2-s3; s1 sends into the first from the port
    after its [n // 2] sources, s2 into the second from the port after its
    [n // 2 // 2] destinations and the link from s1.  The hard-wired list
    [s1-eth21, s2-eth12] names these two interfaces exactly when
    [n // 2 = 20]. *)
Theorem parkinglot_monitors_bottlenecks (bw1 bw2 : Z) (delay : string)
    (loss : F64.float) (n : nat) :
  let bottlenecks := inter_switch_links (ParkingLotTopo.build bw1 bw2 delay loss n) in
  map (fun l => (node1 l, node2 l, bw (opts l))) bottlenecks =
    [("s1", "s2", bw1); ("s2", "s3", bw2)] /\
  map tx_side bottlenecks =
    [intf_name "s1" (S (n / 2)); intf_name "s2" (S (S (n / 2 / 2)))] /\
  (map tx_side bottlenecks = ParkingLotTopo.switch_interface <-> (n / 2 = 20)%nat).
Proof.
  intros bottlenecks. subst bottlenecks.
  rewrite (proj1 (parkinglot_wiring bw1 bw2 delay loss n)).
  split; [reflexivity |]. split; [reflexivity |].
  unfold tx_side, ParkingLotTopo.switch_interface. cbn [map node1 port1]. split.
  - intros Heq.
    pose proof (f_equal (fun l => nth 0 l EmptyString) Heq) as H1.
    change (intf_name "s1" (S (n / 2)) = intf_name "s1" 21) in H1.
    apply intf_name_inj in H1. lia.
  - intros ->. reflexivity.
Qed.

(** X17. [multibottleneck.py]: for every number of hosts the six links between
    switches have the interfaces listed here.  Of the monitored names,
    [s2-eth1] (received bytes) is the s2 end of s1-s2, [s2-eth2], [s3-eth2]
    and [s4-eth3] are the sending ends of s2-s4, s3-s4 and s4-s5, and
    [s4-eth2] is the s4 end of s3-s4, the link whose other end [s3-eth2] is
    monitored too; no monitored name lies on the link s4-s6; and
    [s1-eth21] is the sending end of s1-s2 exactly when [n // 2 = 20]. *)
Theorem multibottleneck_monitored_interfaces (bw1 bw2 bw3 : Z) (delay : string)
    (loss : F64.float) (n : nat) :
  let core := inter_switch_links (MultiBottleneckTopo.build bw1 bw2 bw3 delay loss n) in
  map (fun l => (node1 l, node2 l, tx_side l, rx_side l)) core =
    [ ("s1", "s2", intf_name "s1" (S (n / 2)), "s2-eth1");
      ("s1", "s3", intf_name "s1" (S (S (n / 2))), "s3-eth1");
      ("s2", "s4", "s2-eth2", "s4-eth1");
      ("s3", "s4", "s3-eth2", "s4-eth2");
      ("s4", "s5", "s4-eth3", intf_name "s5" (S (n / 2 / 2)));
      ("s4", "s6", "s4-eth4", intf_name "s6" (S (n - (n / 2 + n / 2 / 2)))) ] /\
  (forall l, l ∈ core -> node1 l = "s4" -> node2 l = "s6" ->
     Forall (fun i => i ∉ link_interfaces l)
       (MultiBottleneckTopo.switch_interface ++ MultiBottleneckTopo.other_interfaces)) /\
  ((exists l, l ∈ core /\ tx_side l = "s1-eth21" /\ node2 l = "s2") <-> (n / 2 = 20)%nat).
Proof.
  intros core. subst core.
  rewrite (proj1 (multibottleneck_wiring bw1 bw2 bw3 delay loss n)).
  split; [reflexivity |]. split.
  - intros l Hl H1 H2.
    repeat (apply elem_of_cons in Hl as [-> | Hl]; [try discriminate H1; try discriminate H2 |]);
      [| inversion Hl].
    unfold link_interfaces. cbn [node1 node2 port1 port2].
    repeat constructor; intros Hin;
      repeat (apply elem_of_cons in Hin as [Hin | Hin]; [discriminate Hin |]);
      inversion Hin.
  - split.
    + intros (l & Hl & Htx & Hnode).
      repeat (apply elem_of_cons in Hl as [-> | Hl]; [try discriminate Hnode |]);
        [| inversion Hl].
      unfold tx_side in Htx. cbn [node1 port1] in Htx.
      change "s1-eth21" with (intf_name "s1" 21) in Htx.
      apply intf_name_inj in Htx. lia.
    + intros Hmid. eexists. split; [left |]. rewrite Hmid. split; reflexivity.
Qed.

Lemma multibottleneck_monitored_interfaces_witness :
  Forall (fun i => i ∉ ["s4-eth4"; "s6-eth11"])
    (MultiBottleneckTopo.switch_interface ++ MultiBottleneckTopo.other_interfaces).
Proof.
  apply (proj1 (proj2 (multibottleneck_monitored_interfaces 10 8 6 "2ms" F64.zero 40))
           {| node1 := "s4"; port1 := 4; node2 := "s6"; port2 := 11;
              opts := {| bw := 6; delay := "2ms"; loss := F64.zero;
                         max_queue_size := Some 100 |} |}).
  - rewrite (proj1 (multibottleneck_wiring 10 8 6 "2ms" F64.zero 40)).
    do 5 right. left.
  - reflexivity.
  - reflexivity.
Defined.

End MonitoredMore.

Section LookupOnScenario.
Import F64 Aggregate Trace Run Driver Topo Wiring.

Lemma main_finds_every_host_witness :
  for_each (fun i => net_get (num := number) (DumbbellTopo.build 10 "1ms" zero 4)
                       (host_name i)) (seq 0 4) =
    (Ok ["h0"; "h1"; "h2"; "h3"], []).
Proof.
  apply (proj2 (main_finds_every_host (num := number)
                  (DumbbellTopo.build 10 "1ms" zero 4) 4 4
                  (or_introl (ex_intro _ 10 (ex_intro _ "1ms" (ex_intro _ zero eq_refl)))))).
Defined.

End LookupOnScenario.
